(** * Semantic retrieval subsystem: embedding generator and Qdrant vector store

    A shallow embedding of [src/embeddings/embedding_generator.py] and
    [src/vector_database/qdrant_vector_db.py].

    Conventions of the embedding.
    - A Python [str] is the list of its Unicode code points, a [bytes] object
      the list of its byte values, both as [Z].
    - Python objects whose type the code inspects at run time (payload values,
      chunk metadata) are values of [PyVal].
    - Code that may raise runs in the monad [Py S], state passing over the
      mutable state [S] with an exceptional outcome.
    - Floating point numbers (vector components, similarity scores) are
      idealised as exact rationals [Q]. *)

From Stdlib Require Import ZArith QArith Lqa Lia List String Ascii Sorted.
From stdpp Require Import gmap strings list fin_maps sorting.

Set Warnings "-register-all".

Local Open Scope Z_scope.

(** ** Python strings and bytes *)

Abbreviation str := (list Z) (only parsing).
Abbreviation bytes := (list Z) (only parsing).

(** The code points of an ASCII literal. *)
Definition py_str (s : string) : str :=
  map (fun a => Z.of_nat (nat_of_ascii a)) (list_ascii_of_string s).

(** [c.encode('utf-8', errors='replace')] for one code point: a lone
    surrogate cannot be encoded and is replaced by [?]. *)
Definition utf8_encode_char (c : Z) : bytes :=
  if c <? 128 then [c]
  else if c <? 2048 then
    [Z.lor 192 (Z.shiftr c 6); Z.lor 128 (Z.land c 63)]
  else if (55296 <=? c) && (c <=? 57343) then [63]
  else if c <? 65536 then
    [Z.lor 224 (Z.shiftr c 12);
     Z.lor 128 (Z.land (Z.shiftr c 6) 63);
     Z.lor 128 (Z.land c 63)]
  else
    [Z.lor 240 (Z.shiftr c 18);
     Z.lor 128 (Z.land (Z.shiftr c 12) 63);
     Z.lor 128 (Z.land (Z.shiftr c 6) 63);
     Z.lor 128 (Z.land c 63)].

Definition utf8_encode_replace (s : str) : bytes :=
  concat (map utf8_encode_char s).

(** [int.from_bytes(b, byteorder='big', signed=False)] *)
Definition int_from_bytes_big (b : bytes) : Z :=
  fold_left (fun acc x => acc * 256 + x) b 0.

(** [int.from_bytes(b, byteorder='little', signed=False)] *)
Definition int_from_bytes_little (b : bytes) : Z :=
  fold_right (fun x acc => x + 256 * acc) 0 b.

(** [n.to_bytes(k, byteorder='little')], truncating. *)
Fixpoint int_to_bytes_little (k : nat) (n : Z) : bytes :=
  match k with
  | O => []
  | S k' => (n mod 256) :: int_to_bytes_little k' (n / 256)
  end.

(** Cut a list into consecutive pieces of [n] elements, the last one
    shorter when the length is no multiple of [n]. *)
Fixpoint pieces {A} (fuel n : nat) (l : list A) : list (list A) :=
  match fuel with
  | O => []
  | S fuel' =>
      match l with
      | [] => []
      | _ => take n l :: pieces fuel' n (drop n l)
      end
  end.

(** ** [hashlib.md5] (RFC 1321) *)

Module MD5.

Definition mask32 : Z := 4294967295.

Definition add32 (a b : Z) : Z := Z.land (a + b) mask32.

Definition not32 (a : Z) : Z := Z.lxor a mask32.

Definition rotl32 (x c : Z) : Z :=
  Z.lor (Z.land (Z.shiftl x c) mask32) (Z.shiftr x (32 - c)).

Definition S_table : list Z :=
  [7; 12; 17; 22; 7; 12; 17; 22; 7; 12; 17; 22; 7; 12; 17; 22;
   5;  9; 14; 20; 5;  9; 14; 20; 5;  9; 14; 20; 5;  9; 14; 20;
   4; 11; 16; 23; 4; 11; 16; 23; 4; 11; 16; 23; 4; 11; 16; 23;
   6; 10; 15; 21; 6; 10; 15; 21; 6; 10; 15; 21; 6; 10; 15; 21].

Definition K_table : list Z :=
  [0xd76aa478; 0xe8c7b756; 0x242070db; 0xc1bdceee;
   0xf57c0faf; 0x4787c62a; 0xa8304613; 0xfd469501;
   0x698098d8; 0x8b44f7af; 0xffff5bb1; 0x895cd7be;
   0x6b901122; 0xfd987193; 0xa679438e; 0x49b40821;
   0xf61e2562; 0xc040b340; 0x265e5a51; 0xe9b6c7aa;
   0xd62f105d; 0x02441453; 0xd8a1e681; 0xe7d3fbc8;
   0x21e1cde6; 0xc33707d6; 0xf4d50d87; 0x455a14ed;
   0xa9e3e905; 0xfcefa3f8; 0x676f02d9; 0x8d2a4c8a;
   0xfffa3942; 0x8771f681; 0x6d9d6122; 0xfde5380c;
   0xa4beea44; 0x4bdecfa9; 0xf6bb4b60; 0xbebfbc70;
   0x289b7ec6; 0xeaa127fa; 0xd4ef3085; 0x04881d05;
   0xd9d4d039; 0xe6db99e5; 0x1fa27cf8; 0xc4ac5665;
   0xf4292244; 0x432aff97; 0xab9423a7; 0xfc93a039;
   0x655b59c3; 0x8f0ccc92; 0xffeff47d; 0x85845dd1;
   0x6fa87e4f; 0xfe2ce6e0; 0xa3014314; 0x4e0811a1;
   0xf7537e82; 0xbd3af235; 0x2ad7d2bb; 0xeb86d391].

Definition at_index (t : list Z) (i : Z) : Z := nth (Z.to_nat i) t 0.

(** The four chaining words A, B, C, D. *)
Definition state : Type := Z * Z * Z * Z.

Definition init_state : state :=
  (0x67452301, 0xefcdab89, 0x98badcfe, 0x10325476).

(** One of the 64 operations on the sixteen words [M] of a block. *)
Definition step (M : list Z) (st : state) (i : Z) : state :=
  let '(A, B, C, D) := st in
  let '(F, g) :=
    if i <? 16 then
      (Z.lor (Z.land B C) (Z.land (not32 B) D), i)
    else if i <? 32 then
      (Z.lor (Z.land D B) (Z.land (not32 D) C), (5 * i + 1) mod 16)
    else if i <? 48 then
      (Z.lxor (Z.lxor B C) D, (3 * i + 5) mod 16)
    else
      (Z.lxor C (Z.lor B (not32 D)), (7 * i) mod 16) in
  let F' := add32 (add32 (add32 F A) (at_index K_table i)) (at_index M g) in
  (D, add32 B (rotl32 F' (at_index S_table i)), B, C).

Definition block_words (block : bytes) : list Z :=
  map int_from_bytes_little (pieces 16 4 block).

Definition process_block (st : state) (block : bytes) : state :=
  let M := block_words block in
  let '(A, B, C, D) := st in
  let '(A', B', C', D') :=
    fold_left (step M) (map Z.of_nat (seq 0 64)) st in
  (add32 A A', add32 B B', add32 C C', add32 D D').

Definition pad (msg : bytes) : bytes :=
  let len := Z.of_nat (length msg) in
  msg ++ [128]
      ++ repeat 0 (Z.to_nat ((55 - len) mod 64))
      ++ int_to_bytes_little 8 ((8 * len) mod 2 ^ 64).

Definition digest (msg : bytes) : bytes :=
  let padded := pad msg in
  let '(A, B, C, D) :=
    fold_left process_block (pieces (length padded) 64 padded) init_state in
  int_to_bytes_little 4 A ++ int_to_bytes_little 4 B
    ++ int_to_bytes_little 4 C ++ int_to_bytes_little 4 D.

End MD5.

(** [str(n)] for a Python [int]. *)
Fixpoint decimal_digits (fuel : nat) (n : Z) (acc : str) : str :=
  match fuel with
  | O => acc
  | S fuel' =>
      let acc' := (48 + n mod 10) :: acc in
      if n <? 10 then acc' else decimal_digits fuel' (n / 10) acc'
  end.

Definition str_of_int (n : Z) : str :=
  if n <? 0 then 45 :: decimal_digits (Z.to_nat (Z.log2 (- n)) + 1) (- n) []
  else decimal_digits (Z.to_nat (Z.log2 n) + 1) n [].

(** ** Dynamically typed values *)

Inductive PyVal : Type :=
| PNone
| PBool (b : bool)
| PInt (n : Z)
| PFloat (x : Q)
| PStr (s : str)
| PList (items : list PyVal)
| PDict (entries : list (str * PyVal)).

(** [bool(v)]: the truth value tested by [if v:]. *)
Definition truthy (v : PyVal) : bool :=
  match v with
  | PNone => false
  | PBool b => b
  | PInt n => negb (n =? 0)
  | PFloat x => negb (Qeq_bool x 0)
  | PStr s => negb (bool_decide (s = []))
  | PList items => match items with [] => false | _ => true end
  | PDict entries => match entries with [] => false | _ => true end
  end.

(** [v != -1]: only a number can equal [-1]; [True] and [False] equal [1]
    and [0]. *)
Definition ne_minus_one (v : PyVal) : bool :=
  match v with
  | PInt n => negb (n =? -1)
  | PFloat x => negb (Qeq_bool x (-1))
  | _ => true
  end.

(** A payload, and every dict indexed by literal keys, is a finite map from
    key to value. *)
Abbreviation Payload := (gmap string PyVal) (only parsing).

(** [d.get(key, default)] *)
Definition dict_get (d : gmap string PyVal) (key : string) (default : PyVal) : PyVal :=
  match d !! key with
  | Some v => v
  | None => default
  end.

(** ** Exceptions and the state monad of effectful code *)

(** The exceptions of the model are the instances of [Exception], those an
    [except Exception] clause and a bare [except] both catch. *)
Record Exception : Type := mkException {
  exc_class : string;     (* type(e).__name__ *)
  exc_message : str       (* str(e) *)
}.

Inductive outcome (A : Type) : Type :=
| Return (a : A)
| Raise (e : Exception).
Arguments Return {A} a.
Arguments Raise {A} e.

Definition Py (S A : Type) : Type := S -> outcome A * S.

Definition ret {S A} (a : A) : Py S A := fun s => (Return a, s).

Definition raise {S A} (e : Exception) : Py S A := fun s => (Raise e, s).

Definition bind {S A B} (m : Py S A) (k : A -> Py S B) : Py S B :=
  fun s =>
    match m s with
    | (Return a, s') => k a s'
    | (Raise e, s') => (Raise e, s')
    end.

(** [try: body except Exception as e: handler] *)
Definition try_except {S A} (body : Py S A) (handler : Exception -> Py S A) : Py S A :=
  fun s =>
    match body s with
    | (Return a, s') => (Return a, s')
    | (Raise e, s') => handler e s'
    end.

(** The current state: reading [self]. *)
Definition get {S} : Py S S := fun s => (Return s, s).

Definition gets {S A} (f : S -> A) : Py S A := fun s => (Return (f s), s).

Definition modify {S} (f : S -> S) : Py S unit := fun s => (Return tt, f s).

(** The outcome of a call that touches no state. *)
Definition lift {S A} (o : outcome A) : Py S A := fun s => (o, s).

Declare Scope py_scope.
Delimit Scope py_scope with py.
Notation "x <- m ;; k" := (bind m (fun x => k))
  (at level 100, m at next level, right associativity) : py_scope.
Notation "m ;; k" := (bind m (fun _ => k))
  (at level 100, right associativity) : py_scope.

(** A [for] loop whose body may raise, threading the loop state [acc]. *)
Fixpoint for_each {S A B} (items : list A) (body : B -> A -> Py S B) (acc : B) : Py S B :=
  match items with
  | [] => ret acc
  | x :: rest => bind (body acc x) (fun acc' => for_each rest body acc')
  end.

(** ** Logging *)

Inductive Level : Type := INFO | WARNING | ERROR.

(** A record is a level and the message, kept as the parts of its f-string:
    the literal text and the interpolated values, unrendered. *)
Abbreviation LogRecord := (Level * list PyVal)%type (only parsing).

Definition T (text : string) : PyVal := PStr (py_str text).

(** ** Chunks *)

(** Modelled from the spec: [DocumentChunk] of
    [src/document_processing/doc_processor.py], which the embedding
    generator imports; the fields are those of the data model. Metadata is a
    value inspected at run time by the vector store. *)
Record DocumentChunk : Type := {
  chunk_id : str;
  content : str;
  source_file : str;
  source_type : str;
  page_number : option Z;
  chunk_index : Z;
  start_char : option Z;
  end_char : option Z;
  metadata : PyVal
}.

Record EmbeddedChunk : Type := {
  chunk : DocumentChunk;
  embedding : list Q;
  embedding_model : str
}.

(** The dict built by [EmbeddedChunk.to_vector_db_format]. *)
Record VectorDBFormat : Type := {
  f_id : str;
  f_vector : list Q;
  f_content : str;
  f_source_file : str;
  f_source_type : str;
  f_page_number : option Z;
  f_chunk_index : Z;
  f_start_char : option Z;
  f_end_char : option Z;
  f_metadata : PyVal;
  f_embedding_model : str
}.

Definition to_vector_db_format (self : EmbeddedChunk) : VectorDBFormat :=
  {| f_id := chunk_id (chunk self);
     f_vector := embedding self;
     f_content := content (chunk self);
     f_source_file := source_file (chunk self);
     f_source_type := source_type (chunk self);
     f_page_number := page_number (chunk self);
     f_chunk_index := chunk_index (chunk self);
     f_start_char := start_char (chunk self);
     f_end_char := end_char (chunk self);
     f_metadata := metadata (chunk self);
     f_embedding_model := embedding_model self |}.

(** ** Built-in sequence operations *)

(** [range(start, stop, step)]; a zero step raises [ValueError]. *)
Fixpoint range_loop (fuel : nat) (j stop step : Z) : list Z :=
  match fuel with
  | O => []
  | S fuel' =>
      if (if 0 <? step then j <? stop else stop <? j)
      then j :: range_loop fuel' (j + step) stop step
      else []
  end.

Definition py_range (start stop step : Z) : outcome (list Z) :=
  if step =? 0 then
    Raise (mkException "ValueError" (py_str "range() arg 3 must not be zero"))
  else Return (range_loop (Z.to_nat (Z.abs (stop - start))) start stop step).

(** [l[a:b]]: a negative bound counts from the end, and both bounds are
    clipped to the list. *)
Definition slice_bound {A} (l : list A) (i : Z) : nat :=
  let len := Z.of_nat (length l) in
  Z.to_nat (if i <? 0 then Z.max 0 (len + i) else Z.min i len).

Definition py_slice {A} (l : list A) (a b : Z) : list A :=
  drop (slice_bound l a) (take (slice_bound l b) l).

(** [enumerate(l)] *)
Definition enumerate {A} (l : list A) : list (Z * A) :=
  zip (map Z.of_nat (seq 0 (length l))) l.

Definition len {A} (l : list A) : Z := Z.of_nat (length l).

(** [not l] for a list. *)
Definition is_empty {A} (l : list A) : bool :=
  match l with
  | [] => true
  | _ => false
  end.

(** ** [EmbeddingGenerator] *)

(** The model handle. A fastembed [TextEmbedding] has the method [embed]; a
    [SentenceTransformer] and the mean-pooling [EmbeddingWrapper] have the
    method [encode]. Each takes the texts and returns one vector per text,
    or raises. *)
Inductive Model : Type :=
| TextEmbedding (embed : list str -> outcome (list (list Q)))
| SentenceTransformer (encode : list str -> outcome (list (list Q)))
| EmbeddingWrapper (encode : list str -> outcome (list (list Q))).

Definition attribute_error (attr : string) : Exception :=
  mkException "AttributeError" (py_str "object has no attribute '" ++ py_str attr ++ py_str "'").

(** [list(model.embed(texts))] *)
Definition model_embed (m : option Model) (texts : list str) : outcome (list (list Q)) :=
  match m with
  | Some (TextEmbedding embed) => embed texts
  | _ => Raise (attribute_error "embed")
  end.

(** [model.encode(texts)] *)
Definition model_encode (m : option Model) (texts : list str) : outcome (list (list Q)) :=
  match m with
  | Some (SentenceTransformer encode) => encode texts
  | Some (EmbeddingWrapper encode) => encode texts
  | _ => Raise (attribute_error "encode")
  end.

(** What initialisation finds on the host: the optional packages, and the
    outcome of each attempt to load a model. *)
Record Environment : Type := {
  platform_system : str;
  FASTEMBED_AVAILABLE : bool;
  SENTENCE_TRANSFORMERS_AVAILABLE : bool;
  TRANSFORMERS_AVAILABLE : bool;
  (* TextEmbedding(model_name=name), at the given attempt *)
  new_TextEmbedding : str -> Z -> outcome Model;
  (* from transformers import AutoModel, AutoTokenizer; import torch *)
  import_transformers : outcome unit;
  (* os.path.join(os.getcwd(), ".embedding_model") *)
  local_model_path : str;
  (* the directory and its config_sentence_transformers.json exist *)
  local_model_present : bool;
  (* snapshot_download(repo_id=name, local_dir=local_model_path) *)
  snapshot_download : str -> outcome unit;
  (* SentenceTransformer(path_or_name) *)
  new_SentenceTransformer : str -> outcome Model;
  (* AutoConfig, AutoTokenizer and AutoModel loaded, wrapped for pooling *)
  new_EmbeddingWrapper : str -> outcome Model
}.

Module EmbeddingGenerator.

(** [logger] holds the records this instance has emitted on the module's
    logger, oldest first. *)
Record t : Type := {
  model_name : str;
  model : option Model;
  embedding_dim : option Z;
  use_fastembed : bool;
  logger : list LogRecord
}.

Definition set_model_name (v : str) (self : t) : t :=
  {| model_name := v; model := model self; embedding_dim := embedding_dim self;
     use_fastembed := use_fastembed self; logger := logger self |}.
Definition set_model (v : option Model) (self : t) : t :=
  {| model_name := model_name self; model := v; embedding_dim := embedding_dim self;
     use_fastembed := use_fastembed self; logger := logger self |}.
Definition set_embedding_dim (v : option Z) (self : t) : t :=
  {| model_name := model_name self; model := model self; embedding_dim := v;
     use_fastembed := use_fastembed self; logger := logger self |}.
Definition set_use_fastembed (v : bool) (self : t) : t :=
  {| model_name := model_name self; model := model self; embedding_dim := embedding_dim self;
     use_fastembed := v; logger := logger self |}.

Definition log (level : Level) (message : list PyVal) : Py t unit :=
  modify (fun self =>
    {| model_name := model_name self; model := model self;
       embedding_dim := embedding_dim self; use_fastembed := use_fastembed self;
       logger := logger self ++ [(level, message)] |}).

(** [len(sample[0])] for the sample of a one-text call. *)
Definition first_length (sample : list (list Q)) : outcome Z :=
  match sample with
  | v :: _ => Return (len v)
  | [] => Raise (mkException "IndexError" (py_str "list index out of range"))
  end.

Section Initialisation.
Variable env : Environment.
Local Open Scope py_scope.

(** The body of the [try] of one fastembed attempt. *)
Definition fastembed_attempt (attempt max_retries : Z) : Py t unit :=
  self <- get ;;
  log INFO [T "Initializing fastembed model: "; PStr (model_name self); T " (attempt "; PInt (attempt + 1); T "/"; PInt (max_retries); T ")"] ;;
  m <- lift (new_TextEmbedding env (model_name self) attempt) ;;
  modify (set_model (Some m)) ;;
  sample <- lift (model_embed (Some m) [py_str "test"]) ;;
  d <- lift (first_length sample) ;;
  modify (set_embedding_dim (Some d)) ;;
  log INFO [T "Fastembed model initialized successfully. Embedding dimension: "; PInt (d)].

(** [for attempt in range(max_retries)]: the result tells whether the
    loop body executed [return]. *)
Fixpoint fastembed_loop (attempts : list Z) (max_retries : Z) : Py t bool :=
  match attempts with
  | [] => ret false
  | attempt :: rest =>
      returned <-
        try_except (fastembed_attempt attempt max_retries ;; ret true)
          (fun e =>
             log WARNING [T "Fastembed attempt "; PInt (attempt + 1); T " failed: "; PStr (exc_message e)] ;;
             (if attempt =? max_retries - 1 then
                log WARNING [T "Fastembed failed, falling back to sentence-transformers"] ;;
                modify (set_use_fastembed false)
              else ret tt (* time.sleep(1) *)) ;;
             ret false) ;;
      if returned : bool then ret true else fastembed_loop rest max_retries
  end.

Definition st_name : str := py_str "sentence-transformers/all-MiniLM-L6-v2".

(** [sample = self.model.encode(["test"])] up to [return]. *)
Definition probe_encode (message : string) (name : str) : Py t unit :=
  self <- get ;;
  sample <- lift (model_encode (model self) [py_str "test"]) ;;
  d <- lift (first_length sample) ;;
  modify (set_embedding_dim (Some d)) ;;
  log INFO [T message; PInt d] ;;
  modify (set_model_name name).

Definition load_sentence_transformer : Py t unit :=
  if SENTENCE_TRANSFORMERS_AVAILABLE env then
    log INFO [T "Using sentence-transformers library..."] ;;
    (if local_model_present env then
       log INFO [T "Using local model from project directory: "; PStr (local_model_path env)] ;;
       m <- lift (new_SentenceTransformer env (local_model_path env)) ;;
       modify (set_model (Some m))
     else
       try_except
         (log INFO [T "Downloading model to project directory..."] ;;
          lift (snapshot_download env st_name) ;;
          log INFO [T "Model downloaded, loading from: "; PStr (local_model_path env)] ;;
          m <- lift (new_SentenceTransformer env (local_model_path env)) ;;
          modify (set_model (Some m)))
         (fun download_error =>
            log WARNING [T "Local download failed: "; PStr (exc_message download_error); T ", trying direct load..."] ;;
            m <- lift (new_SentenceTransformer env st_name) ;;
            modify (set_model (Some m)))) ;;
    probe_encode "SentenceTransformer model initialized. Embedding dimension: "
                 st_name
  else raise (mkException "ImportError" (py_str "sentence-transformers not available")).

Definition load_transformers_fallback (e : Exception) : Py t unit :=
  log WARNING [T "SentenceTransformer failed: "; PStr (exc_message e); T ", trying transformers fallback..."] ;;
  try_except
    (log INFO [T "Loading base model: "; PStr (st_name)] ;;
     m <- lift (new_EmbeddingWrapper env st_name) ;;
     modify (set_model (Some m)) ;;
     probe_encode "Transformers fallback initialized. Embedding dimension: "
                  st_name)
    (fun fallback_error =>
       raise (mkException "Exception"
                (py_str "Both SentenceTransformer and transformers fallback failed. ST error: "
                 ++ exc_message e ++ py_str ", Transformers error: "
                 ++ exc_message fallback_error))).

Definition _initialize_model : Py t unit :=
  self <- get ;;
  returned <- (if use_fastembed self then fastembed_loop [0; 1] 2 else ret false) ;;
  if returned : bool then ret tt else
  self <- get ;;
  if negb (use_fastembed self)
     && (SENTENCE_TRANSFORMERS_AVAILABLE env || TRANSFORMERS_AVAILABLE env)
  then
    try_except
      (log INFO [T "Initializing sentence-transformers model: all-MiniLM-L6-v2"] ;;
       lift (import_transformers env) ;;
       log INFO [T "Loading SentenceTransformer model: "; PStr (st_name)] ;;
       try_except load_sentence_transformer load_transformers_fallback)
      (fun e =>
         log ERROR [T "Failed to initialize transformers model: "; PStr (exc_message e)] ;;
         raise (mkException "Exception"
                  (py_str "Failed to initialize embedding model: " ++ exc_message e)))
  else
    raise (mkException "Exception"
             (py_str "No embedding library available. Please install either fastembed or sentence-transformers.")).

(** The constructor: the new instance, or the exception that leaves no
    instance behind. *)
Definition __init__ (name : str) (use : option bool) : outcome t :=
  let use :=
    match use with
    | None => negb (bool_decide (platform_system env = py_str "Windows"))
    | Some b => b
    end in
  let self :=
    {| model_name := name; model := None; embedding_dim := None;
       use_fastembed := use && FASTEMBED_AVAILABLE env; logger := [] |} in
  match _initialize_model self with
  | (Return _, self') => Return self'
  | (Raise e, _) => Raise e
  end.

End Initialisation.

Section Operations.
(** Rounding to single precision, [np.array(_, dtype=np.float32)]. *)
Variable float32 : Q -> Q.
Local Open Scope py_scope.

Definition generate_embeddings (chunks : list DocumentChunk) : Py t (list EmbeddedChunk) :=
  if is_empty chunks then ret []
  else
    log INFO [T "Generating embeddings for "; PInt (len chunks); T " chunks"] ;;
    try_except
      (let texts := map content chunks in
       self <- get ;;
       embeddings <-
         (if use_fastembed self then lift (model_embed (model self) texts)
          else lift (model_encode (model self) texts)) ;;
       let embedded_chunks :=
         fold_left
           (fun embedded_chunks '(chunk, embedding) =>
              embedded_chunks ++
                [{| chunk := chunk;
                    embedding := map float32 embedding;
                    embedding_model := model_name self |}])
           (zip chunks embeddings) [] in
       log INFO [T "Successfully generated "; PInt (len embedded_chunks);
                 T " embeddings"] ;;
       ret embedded_chunks)
      (fun e =>
         log ERROR [T "Error generating embeddings: "; PStr (exc_message e)] ;;
         raise e).

Definition generate_query_embedding (query_text : str) : Py t (list Q) :=
  try_except
    (self <- get ;;
     embeddings <-
       (if use_fastembed self then lift (model_embed (model self) [query_text])
        else lift (model_encode (model self) [query_text])) ;;
     match embeddings with
     | embedding :: _ => ret (map float32 embedding)
     | [] => raise (mkException "IndexError" (py_str "list index out of range"))
     end)
    (fun e =>
       log ERROR [T "Error generating query embedding: "; PStr (exc_message e)] ;;
       raise e).

Definition get_embedding_dimension (self : t) : option Z := embedding_dim self.

Definition batch_generate_embeddings
    (chunks_batches : list (list DocumentChunk)) (batch_size : Z)
  : Py t (list (list EmbeddedChunk)) :=
  for_each (enumerate chunks_batches)
    (fun all_embedded_batches '(i, chunk_batch) =>
       log INFO [T "Processing batch "; PInt (i + 1); T "/"; PInt (len chunks_batches)] ;;
       starts <- lift (py_range 0 (len chunk_batch) batch_size) ;;
       embedded_batch <-
         for_each starts
           (fun embedded_batch j =>
              let sub_batch := py_slice chunk_batch j (j + batch_size) in
              embedded_sub_batch <- generate_embeddings sub_batch ;;
              ret (embedded_batch ++ embedded_sub_batch))
           [] ;;
       ret (all_embedded_batches ++ [embedded_batch]))
    [].

End Operations.

End EmbeddingGenerator.

(** ** The vector engine behind [QdrantClient] *)

Inductive Distance : Type := COSINE | EUCLID | DOT | MANHATTAN.

Record PointStruct : Type := {
  point_id : Z;
  point_vector : list Q;
  point_payload : option (gmap string PyVal)
}.

(** What [retrieve] returns for a stored point. *)
Record PointRecord : Type := {
  record_id : Z;
  record_payload : option (gmap string PyVal);
  record_vector : option (list Q)
}.

(** What [query_points] returns for a match; [point_score] is the similarity
    of the point to the query under the collection's metric. *)
Record ScoredPoint : Type := {
  scored_id : Z;
  point_score : Q;
  scored_payload : option (gmap string PyVal)
}.

(** A query filter: for each listed key, the text the payload must hold. *)
Abbreviation Filter := (list (string * str)) (only parsing).

Record Collection : Type := {
  vectors_size : Z;
  vectors_distance : Distance;
  points : gmap Z PointStruct
}.

Inductive ClientCall : Type :=
| GetCollections
| CreateCollection (name : str) (size : Z) (distance : Distance)
| Upsert (name : str) (pts : list PointStruct)
| QueryPoints (name : str) (query : list Q) (query_filter : option Filter) (limit : Z)
| Retrieve (name : str) (ids : list Z) (with_payload with_vectors : bool)
| DeleteCollection (name : str).

Module QdrantClient.

(** The engine as the client sees it: the collections, the requests made
    so far, and for each request to come whether the engine will fail it
    (connectivity, engine errors) and with what. *)
Record t : Type := {
  collections : gmap (list Z) Collection;
  outage : list (option Exception);
  calls : list ClientCall
}.

Definition set_collections (v : gmap (list Z) Collection) (self : t) : t :=
  {| collections := v; outage := outage self; calls := calls self |}.

(** Every method is one request: it is recorded, and fails when the
    engine's next outcome is an outage. *)
Definition request (c : ClientCall) : Py t unit :=
  fun self =>
    let self' :=
      {| collections := collections self;
         outage := tail (outage self);
         calls := calls self ++ [c] |} in
    match outage self with
    | Some e :: _ => (Raise e, self')
    | _ => (Return tt, self')
    end.

Definition not_found (name : str) : Exception :=
  mkException "ValueError" (py_str "Collection " ++ name ++ py_str " not found").

Section Engine.
(** The engine's nearest-neighbour search over the points of a
    collection: index construction and ranking are the engine's. *)
Variable nearest :
  gmap Z PointStruct -> list Q -> option Filter -> Z -> list ScoredPoint.
Local Open Scope py_scope.

Definition get_collections : Py t (list str) :=
  request GetCollections ;;
  gets (fun self => map fst (map_to_list (collections self))).

Definition create_collection (name : str) (size : Z) (distance : Distance) : Py t bool :=
  request (CreateCollection name size distance) ;;
  self <- get ;;
  match collections self !! name with
  | Some _ =>
      raise (mkException "ValueError"
               (py_str "Collection " ++ name ++ py_str " already exists"))
  | None =>
      modify (set_collections
                (<[name := {| vectors_size := size; vectors_distance := distance;
                              points := ∅ |}]> (collections self))) ;;
      ret true
  end.

(** Insert or replace each point under its id; a vector whose length is
    not the collection's size is refused, and nothing is stored. *)
Definition upsert (name : str) (pts : list PointStruct) : Py t unit :=
  request (Upsert name pts) ;;
  self <- get ;;
  match collections self !! name with
  | None => raise (not_found name)
  | Some col =>
      if forallb (fun p => len (point_vector p) =? vectors_size col) pts then
        modify (set_collections
                  (<[name := {| vectors_size := vectors_size col;
                                vectors_distance := vectors_distance col;
                                points := fold_left (fun m p => <[point_id p := p]> m)
                                            pts (points col) |}]>
                     (collections self)))
      else raise (mkException "ValueError" (py_str "Vector dimension error"))
  end.

Definition to_record (with_payload with_vectors : bool) (p : PointStruct) : PointRecord :=
  {| record_id := point_id p;
     record_payload := if with_payload then point_payload p else None;
     record_vector := if with_vectors then Some (point_vector p) else None |}.

Definition retrieve (name : str) (ids : list Z) (with_payload with_vectors : bool)
  : Py t (list PointRecord) :=
  request (Retrieve name ids with_payload with_vectors) ;;
  self <- get ;;
  match collections self !! name with
  | None => raise (not_found name)
  | Some col =>
      ret (omap (fun i => to_record with_payload with_vectors <$> points col !! i) ids)
  end.

Definition query_points (name : str) (query : list Q) (query_filter : option Filter)
    (limit : Z) : Py t (list ScoredPoint) :=
  request (QueryPoints name query query_filter limit) ;;
  self <- get ;;
  match collections self !! name with
  | None => raise (not_found name)
  | Some col => ret (nearest (points col) query query_filter limit)
  end.

Definition delete_collection (name : str) : Py t bool :=
  request (DeleteCollection name) ;;
  self <- get ;;
  modify (set_collections (delete name (collections self))) ;;
  ret (bool_decide (is_Some (collections self !! name))).

End Engine.

End QdrantClient.

(** How a client comes to exist: [QdrantClient(url=.., api_key=..)] or, after
    the directory is made, [QdrantClient(path=..)]. *)
Record Host : Type := {
  connect_url : str -> option str -> outcome QdrantClient.t;
  connect_path : str -> outcome QdrantClient.t
}.

(** ** [QdrantVectorDB] *)

(** The citation of a search result. *)
Record Citation : Type := {
  cit_source_file : PyVal;
  cit_source_type : PyVal;
  cit_page_number : PyVal;
  cit_chunk_index : PyVal;
  cit_start_char : PyVal;
  cit_end_char : PyVal
}.

(** One element of the list [search] returns. *)
Record SearchResult : Type := {
  res_id : PyVal;
  res_score : Q;
  res_content : PyVal;
  res_citation : Citation;
  res_metadata : PyVal;
  res_embedding_model : PyVal
}.

(** The dict [get_chunk_by_id] returns. *)
Record ChunkView : Type := {
  view_id : PyVal;
  view_content : PyVal;
  view_metadata : PyVal;
  view_source_file : PyVal;
  view_source_type : PyVal;
  view_page_number : PyVal;
  view_chunk_index : PyVal
}.

Module QdrantVectorDB.

Record t : Type := {
  db_path : str;
  collection_name : str;
  embedding_dim : Z;
  client : option QdrantClient.t;
  collection_exists : bool;
  url : option str;
  api_key : option str;
  logger : list LogRecord
}.

Definition set_client (v : option QdrantClient.t) (self : t) : t :=
  {| db_path := db_path self; collection_name := collection_name self;
     embedding_dim := embedding_dim self; client := v;
     collection_exists := collection_exists self; url := url self;
     api_key := api_key self; logger := logger self |}.

Definition set_collection_exists (v : bool) (self : t) : t :=
  {| db_path := db_path self; collection_name := collection_name self;
     embedding_dim := embedding_dim self; client := client self;
     collection_exists := v; url := url self;
     api_key := api_key self; logger := logger self |}.

Definition log (level : Level) (message : list PyVal) : Py t unit :=
  modify (fun self =>
    {| db_path := db_path self; collection_name := collection_name self;
       embedding_dim := embedding_dim self; client := client self;
       collection_exists := collection_exists self; url := url self;
       api_key := api_key self; logger := logger self ++ [(level, message)] |}).

(** [self.client.method(..)]: the request runs on the client's engine;
    without a client the attribute access raises. *)
Definition call {A} (method : string) (m : Py QdrantClient.t A) : Py t A :=
  fun self =>
    match client self with
    | None =>
        (Raise (mkException "AttributeError"
                  (py_str "'NoneType' object has no attribute '" ++ py_str method
                   ++ py_str "'")), self)
    | Some c => let '(r, c') := m c in (r, set_client (Some c') self)
    end.

(** [_string_id_to_int]: the first eight bytes of the MD5 digest of the
    UTF-8 encoding, big-endian, reduced modulo [2**63 - 1]. *)
Definition _string_id_to_int (self : t) (string_id : str) : Z :=
  let hash_obj := MD5.digest (utf8_encode_replace string_id) in
  let hash_bytes := take 8 hash_obj in
  let int_id := int_from_bytes_big hash_bytes in
  int_id mod (2 ^ 63 - 1).

(** [v if v is not None else -1] *)
Definition or_sentinel (v : option Z) : PyVal :=
  match v with
  | Some n => PInt n
  | None => PInt (-1)
  end.

(** [payload.get(key) if payload.get(key) != -1 else None] *)
Definition get_unless_sentinel (payload : gmap string PyVal) (key : string) : PyVal :=
  if ne_minus_one (dict_get payload key PNone) then dict_get payload key PNone
  else PNone.

Definition payload_has_no_get : Exception :=
  mkException "AttributeError" (py_str "'NoneType' object has no attribute 'get'").

Section Methods.
Variable host : Host.
(** [json.loads] on a string: the parsed value, or the decoding error. *)
Variable json_loads : str -> outcome PyVal.
Variable nearest :
  gmap Z PointStruct -> list Q -> option Filter -> Z -> list ScoredPoint.
Local Open Scope py_scope.

(** [json.loads(v)]: anything but a string is a [TypeError]. *)
Definition loads (v : PyVal) : outcome PyVal :=
  match v with
  | PStr s => json_loads s
  | _ =>
      Raise (mkException "TypeError"
               (py_str "the JSON object must be str, bytes or bytearray"))
  end.

Definition _initialize_client : Py t unit :=
  try_except
    (self <- get ;;
     match url self with
     | Some (c :: u) =>
         client <- lift (connect_url host (c :: u) (api_key self)) ;;
         modify (set_client (Some client)) ;;
         log INFO [T "Qdrant client initialized with remote URL: "; PStr (c :: u)]
     | _ =>
         client <- lift (connect_path host (db_path self)) ;;
         modify (set_client (Some client)) ;;
         log INFO [T "Qdrant client initialized with local database: ";
                   PStr (db_path self)]
     end)
    (fun e =>
       log ERROR [T "Failed to initialize Qdrant client: "; PStr (exc_message e)] ;;
       raise e).

Definition _setup_collection : Py t unit :=
  try_except
    (self <- get ;;
     collection_names <- call "get_collections" QdrantClient.get_collections ;;
     if bool_decide (collection_name self ∈ collection_names) then
       log INFO [T "Collection '"; PStr (collection_name self); T "' already exists"] ;;
       modify (set_collection_exists true)
     else
       call "create_collection"
         (QdrantClient.create_collection (collection_name self)
            (embedding_dim self) COSINE) ;;
       log INFO [T "Collection '"; PStr (collection_name self);
                 T "' created successfully"] ;;
       modify (set_collection_exists true))
    (fun e =>
       log ERROR [T "Error setting up collection: "; PStr (exc_message e)] ;;
       raise e).

Definition __init__ (db_path collection_name : str) (embedding_dim : Z)
    (url api_key : option str) : outcome t :=
  let self :=
    {| db_path := db_path; collection_name := collection_name;
       embedding_dim := embedding_dim; client := None;
       collection_exists := false; url := url; api_key := api_key;
       logger := [] |} in
  match (_initialize_client ;; _setup_collection) self with
  | (Return _, self') => Return self'
  | (Raise e, _) => Raise e
  end.

Definition create_index : Py t unit :=
  try_except
    (self <- get ;;
     if negb (collection_exists self) then
       raise (mkException "Exception"
                (py_str "Collection does not exist. Setup collection first."))
     else
       log INFO [T "Qdrant collection is ready for vector search (indexing is automatic)"])
    (fun e =>
       log ERROR [T "Error creating index: "; PStr (exc_message e)] ;;
       raise e).

(** The body of the loop of [insert_embeddings] for one chunk, up to the
    [PointStruct]. *)
Definition make_point (self : t) (embedded_chunk : EmbeddedChunk) : PointStruct :=
  let chunk_data := to_vector_db_format embedded_chunk in
  let payload : gmap string PyVal :=
    list_to_map
      [("content", PStr (f_content chunk_data));
       ("source_file", PStr (f_source_file chunk_data));
       ("source_type", PStr (f_source_type chunk_data));
       ("page_number", or_sentinel (f_page_number chunk_data));
       ("chunk_index", PInt (f_chunk_index chunk_data));
       ("start_char", or_sentinel (f_start_char chunk_data));
       ("end_char", or_sentinel (f_end_char chunk_data));
       ("embedding_model", PStr (f_embedding_model chunk_data))] in
  let payload :=
    if truthy (f_metadata chunk_data) then
      match f_metadata chunk_data with
      | PDict _ => <["metadata" := f_metadata chunk_data]> payload
      | _ =>
          match loads (f_metadata chunk_data) with
          | Return parsed => <["metadata" := parsed]> payload
          | Raise _ => <["metadata" := PDict []]> payload
          end
      end
    else payload in
  let point_id := _string_id_to_int self (f_id chunk_data) in
  let payload := <["original_id" := PStr (f_id chunk_data)]> payload in
  {| point_id := point_id;
     point_vector := f_vector chunk_data;
     point_payload := Some payload |}.

Definition insert_embeddings (embedded_chunks : list EmbeddedChunk) : Py t (list Z) :=
  if is_empty embedded_chunks then ret []
  else
    try_except
      (self <- get ;;
       let pts :=
         fold_left (fun pts embedded_chunk => pts ++ [make_point self embedded_chunk])
           embedded_chunks [] in
       call "upsert" (QdrantClient.upsert (collection_name self) pts) ;;
       let inserted_ids := map point_id pts in
       log INFO [T "Inserted "; PInt (len inserted_ids); T " embeddings into database"] ;;
       ret inserted_ids)
      (fun e =>
         log ERROR [T "Error inserting embeddings: "; PStr (exc_message e)] ;;
         raise e).

(** The body of the loop of [search] for one point. A [ScoredPoint] has a
    [score] and a [QueryResponse] has [points]: the defaults the code keeps
    for objects without them are never taken. *)
Definition format_result (point : ScoredPoint) : outcome SearchResult :=
  match scored_payload point with
  | None => Raise payload_has_no_get
  | Some payload =>
      let original_id :=
        dict_get payload "original_id" (PStr (str_of_int (scored_id point))) in
      let score := point_score point in
      Return
        {| res_id := original_id;
           res_score := 1 - score;
           res_content := dict_get payload "content" (PStr []);
           res_citation :=
             {| cit_source_file := dict_get payload "source_file" (PStr []);
                cit_source_type := dict_get payload "source_type" (PStr []);
                cit_page_number := get_unless_sentinel payload "page_number";
                cit_chunk_index := dict_get payload "chunk_index" (PInt 0);
                cit_start_char := get_unless_sentinel payload "start_char";
                cit_end_char := get_unless_sentinel payload "end_char" |};
           res_metadata := dict_get payload "metadata" (PDict []);
           res_embedding_model := dict_get payload "embedding_model" (PStr []) |}
  end.

(** [search]; the keyword arguments the body never reads ([nprobe],
    [rbq_query_bits], [refine_k], [use_binary_quantization]) are left
    out. *)
Definition search (query_vector : list Q) (limit : Z) (filter_expr : option str)
  : Py t (list SearchResult) :=
  try_except
    (let query_filter : option Filter := None in
     match filter_expr with
     | Some (_ :: _) =>
         log WARNING [T "Filter expressions are not fully implemented for Qdrant yet"]
     | _ => ret tt
     end ;;
     self <- get ;;
     search_results <-
       call "query_points"
         (QdrantClient.query_points nearest (collection_name self)
            query_vector query_filter limit) ;;
     formatted_results <-
       for_each search_results
         (fun formatted_results point =>
            formatted_result <- lift (format_result point) ;;
            ret (formatted_results ++ [formatted_result]))
         [] ;;
     log INFO [T "Search completed: "; PInt (len formatted_results); T " results found"] ;;
     ret formatted_results)
    (fun e =>
       log ERROR [T "Error during search: "; PStr (exc_message e)] ;;
       raise e).

Definition delete_collection : Py t unit :=
  try_except
    (self <- get ;;
     if collection_exists self then
       call "delete_collection"
         (QdrantClient.delete_collection (collection_name self)) ;;
       log INFO [T "Collection '"; PStr (collection_name self); T "' deleted"] ;;
       modify (set_collection_exists false)
     else
       log INFO [T "Collection '"; PStr (collection_name self); T "' does not exist"])
    (fun e =>
       log ERROR [T "Error deleting collection: "; PStr (exc_message e)] ;;
       raise e).

(** The body of the [try] of [get_chunk_by_id]. *)
Definition get_chunk_by_id_body (chunk_id : str) : Py t (option ChunkView) :=
  self <- get ;;
  if negb (collection_exists self) then
    log WARNING [T "Collection does not exist"] ;;
    ret None
  else
    log INFO [T "Attempting to retrieve chunk with ID: "; PStr chunk_id] ;;
    let point_id := _string_id_to_int self chunk_id in
    results <-
      call "retrieve"
        (QdrantClient.retrieve (collection_name self) [point_id] true false) ;;
    log INFO [T "Query returned "; PInt (len results); T " results"] ;;
    match results with
    | result :: _ =>
        match record_payload result with
        | None => raise payload_has_no_get
        | Some payload =>
            let original_id :=
              dict_get payload "original_id" (PStr (str_of_int (record_id result))) in
            log INFO [T "Successfully retrieved chunk: "; original_id] ;;
            let metadata := dict_get payload "metadata" (PDict []) in
            let metadata :=
              match metadata with
              | PStr s =>
                  match json_loads s with
                  | Return parsed => parsed
                  | Raise _ => PDict []
                  end
              | _ => metadata
              end in
            ret (Some
                   {| view_id := original_id;
                      view_content := dict_get payload "content" (PStr []);
                      view_metadata := metadata;
                      view_source_file := dict_get payload "source_file" (PStr []);
                      view_source_type := dict_get payload "source_type" (PStr []);
                      view_page_number := get_unless_sentinel payload "page_number";
                      view_chunk_index := dict_get payload "chunk_index" (PInt 0) |})
        end
    | [] =>
        log WARNING [T "No chunk found with ID: "; PStr chunk_id] ;;
        ret None
    end.

Definition get_chunk_by_id (chunk_id : str) : Py t (option ChunkView) :=
  try_except (get_chunk_by_id_body chunk_id)
    (fun e =>
       log ERROR [T "Error retrieving chunk by ID "; PStr chunk_id; T ": ";
                  PStr (exc_message e)] ;;
       log ERROR [T "Exception details: "; T (exc_class e); T ": ";
                  PStr (exc_message e)] ;;
       ret None).

Definition close : Py t unit :=
  try_except
    (self <- get ;;
     match client self with
     | Some _ => log INFO [T "Qdrant client connection ready"]
     | None => ret tt
     end)
    (fun e =>
       log ERROR [T "Error closing connection: "; PStr (exc_message e)]).

End Methods.

End QdrantVectorDB.

(** * Vocabulary of the properties *)

Section Outcomes.
Context {S : Type}.

(** [wp m s Q E]: run from [s], [m] returns a value and a state in [Q], or
    raises an exception with a state in [E]. *)
Definition wp {A} (m : Py S A) (s : S) (Q : A -> S -> Prop)
    (E : Exception -> S -> Prop) : Prop :=
  match m s with
  | (Return a, s') => Q a s'
  | (Raise e, s') => E e s'
  end.

End Outcomes.

Section StoreVocabulary.
Variable json_loads : str -> outcome PyVal.

Import QdrantVectorDB.

(** The engine serves the next request. *)
Definition serving (c : QdrantClient.t) : Prop :=
  match QdrantClient.outage c with
  | Some _ :: _ => False
  | _ => True
  end.

(** The engine after a served request. *)
Definition served (call : ClientCall) (cols : gmap (list Z) Collection)
    (c : QdrantClient.t) : QdrantClient.t :=
  {| QdrantClient.collections := cols;
     QdrantClient.outage := tail (QdrantClient.outage c);
     QdrantClient.calls := QdrantClient.calls c ++ [call] |}.

(** A collection after the points of an upsert are stored. *)
Definition upserted (pts : list PointStruct) (col : Collection) : Collection :=
  {| vectors_size := vectors_size col;
     vectors_distance := vectors_distance col;
     points := fold_left (fun m p => <[point_id p := p]> m) pts (points col) |}.

(** The dict [get_chunk_by_id] builds from the payload of a point. *)
Definition view_of (rid : Z) (payload : gmap string PyVal) : ChunkView :=
  {| view_id := dict_get payload "original_id" (PStr (str_of_int rid));
     view_content := dict_get payload "content" (PStr []);
     view_metadata :=
       let metadata := dict_get payload "metadata" (PDict []) in
       match metadata with
       | PStr s =>
           match json_loads s with
           | Return parsed => parsed
           | Raise _ => PDict []
           end
       | _ => metadata
       end;
     view_source_file := dict_get payload "source_file" (PStr []);
     view_source_type := dict_get payload "source_type" (PStr []);
     view_page_number := get_unless_sentinel payload "page_number";
     view_chunk_index := dict_get payload "chunk_index" (PInt 0) |}.

(** What [insert_embeddings] stores of the metadata of a chunk: nothing
    when it is falsy, the mapping itself, the parsed value of anything
    else, and the empty mapping when parsing fails. *)
Definition stored_metadata (md : PyVal) : option PyVal :=
  if truthy md then
    match md with
    | PDict _ => Some md
    | _ =>
        match loads json_loads md with
        | Return parsed => Some parsed
        | Raise _ => Some (PDict [])
        end
    end
  else None.

(** The page number as it comes back: [-1] stands for the absent value. *)
Definition page_number_read_back (v : option Z) : PyVal :=
  match v with
  | Some n => if n =? -1 then PNone else PInt n
  | None => PNone
  end.

(** The results of the loop of [search] over the points of a response. *)
Fixpoint format_results (pts : list ScoredPoint) : outcome (list SearchResult) :=
  match pts with
  | [] => Return []
  | p :: rest =>
      match format_result p with
      | Raise e => Raise e
      | Return r =>
          match format_results rest with
          | Return rs => Return (r :: rs)
          | Raise e => Raise e
          end
      end
  end.

End StoreVocabulary.

Section GeneratorVocabulary.
Variable float32 : Q -> Q.

Import EmbeddingGenerator.

(** The call [generate_embeddings] makes on the model. *)
Definition active_call (g : t) (texts : list str) : outcome (list (list Q)) :=
  if use_fastembed g then model_embed (model g) texts
  else model_encode (model g) texts.

(** What initialisation leaves: the dimension is the length of the vector
    the model gave for the probe text. *)
Definition ready (g : t) : Prop :=
  exists d sample,
    embedding_dim g = Some d
    /\ active_call g [py_str "test"] = Return sample
    /\ first_length sample = Return d.

(** The function behind the model, whichever method gives access to it. *)
Definition model_function (m : Model) : list str -> outcome (list (list Q)) :=
  match m with
  | TextEmbedding embed => embed
  | SentenceTransformer encode => encode
  | EmbeddingWrapper encode => encode
  end.

(** The contract of a backend: one vector per text, all of one length. *)
Definition uniform (m : Model) : Prop :=
  exists d : Z,
    forall texts vectors,
      model_function m texts = Return vectors ->
      length vectors = length texts /\ Forall (fun v => len v = d) vectors.

(** Two states of one generator: only the log may differ. *)
Definition same_generator (g g' : t) : Prop :=
  model_name g' = model_name g /\ model g' = model g
  /\ embedding_dim g' = embedding_dim g /\ use_fastembed g' = use_fastembed g.

(** The embedded chunk made of a chunk and its vector. *)
Definition embedded (g : t) (cv : DocumentChunk * list Q) : EmbeddedChunk :=
  {| chunk := cv.1; embedding := map float32 cv.2; embedding_model := model_name g |}.

(** The slices [batch_generate_embeddings] takes of one batch. *)
Definition sub_batches (batch_size : Z) (chunk_batch : list DocumentChunk)
  : list (list DocumentChunk) :=
  map (fun j => py_slice chunk_batch j (j + batch_size))
    (range_loop (length chunk_batch) 0 (len chunk_batch) batch_size).

(** What the model raised, if anything was raised at all. *)
Definition raised_by_model (g : t) (e : Exception) : Prop :=
  exists texts, active_call g texts = Raise e.

(** [batch_generate_embeddings] as the specification reads it: for each batch, the
    sub-batches go to [generate_embeddings] one after the other. *)
Definition batch_by_sub_batches (chunks_batches : list (list DocumentChunk))
    (batch_size : Z) : Py t (list (list EmbeddedChunk)) :=
  for_each (enumerate chunks_batches)
    (fun all_embedded_batches '(i, chunk_batch) =>
       bind (log INFO [T "Processing batch "; PInt (i + 1); T "/";
                       PInt (len chunks_batches)])
         (fun _ =>
            bind (for_each (sub_batches batch_size chunk_batch)
                    (fun embedded_batch sub_batch =>
                       bind (generate_embeddings float32 sub_batch)
                         (fun embedded_sub_batch =>
                            ret (embedded_batch ++ embedded_sub_batch)))
                    [])
              (fun embedded_batch => ret (all_embedded_batches ++ [embedded_batch]))))
    [].

End GeneratorVocabulary.

(** ** The store and the generator over their lifetime *)

(** The client the constructor obtains: the remote one when a URL is given,
    the local one otherwise. *)
Definition connected (host : Host) (url api_key : option str) (db_path : str)
  : outcome QdrantClient.t :=
  match url with
  | Some (c :: u) => connect_url host (c :: u) api_key
  | _ => connect_path host db_path
  end.

(** The collection the constructor creates. *)
Definition fresh_collection (embedding_dim : Z) : Collection :=
  {| vectors_size := embedding_dim; vectors_distance := COSINE; points := ∅ |}.

(** The citation [search] gives for a chunk: the provenance of the chunk,
    an offset or page stored as [-1] read back as the absent value. *)
Definition citation_of (c : DocumentChunk) : Citation :=
  {| cit_source_file := PStr (source_file c);
     cit_source_type := PStr (source_type c);
     cit_page_number := page_number_read_back (page_number c);
     cit_chunk_index := PInt (chunk_index c);
     cit_start_char := page_number_read_back (start_char c);
     cit_end_char := page_number_read_back (end_char c) |}.

(** The result [search] gives for an inserted chunk found at a similarity. *)
Definition result_of (json_loads : str -> outcome PyVal) (ec : EmbeddedChunk)
    (similarity : Q) : SearchResult :=
  {| res_id := PStr (chunk_id (chunk ec));
     res_score := 1 - similarity;
     res_content := PStr (content (chunk ec));
     res_citation := citation_of (chunk ec);
     res_metadata :=
       match stored_metadata json_loads (metadata (chunk ec)) with
       | Some md => md
       | None => PDict []
       end;
     res_embedding_model := PStr (embedding_model ec) |}.

(** What [get_chunk_by_id] finds under a key of a collection. *)
Definition stored_view (json_loads : str -> outcome PyVal) (col : Collection) (k : Z)
  : option ChunkView :=
  match points col !! k with
  | Some p =>
      match point_payload p with
      | Some payload => Some (view_of json_loads (point_id p) payload)
      | None => None
      end
  | None => None
  end.

(** Two states of a store between which nothing stored and nothing
    configured has changed: the log and the engine's record of requests
    apart. *)
Definition kept (s s' : QdrantVectorDB.t) : Prop :=
  QdrantVectorDB.db_path s' = QdrantVectorDB.db_path s
  /\ QdrantVectorDB.collection_name s' = QdrantVectorDB.collection_name s
  /\ QdrantVectorDB.embedding_dim s' = QdrantVectorDB.embedding_dim s
  /\ QdrantVectorDB.collection_exists s' = QdrantVectorDB.collection_exists s
  /\ QdrantVectorDB.url s' = QdrantVectorDB.url s
  /\ QdrantVectorDB.api_key s' = QdrantVectorDB.api_key s
  /\ match QdrantVectorDB.client s, QdrantVectorDB.client s' with
     | Some c, Some c' => QdrantClient.collections c' = QdrantClient.collections c
     | None, None => True
     | _, _ => False
     end.

(** A store with another log. *)
Definition relogged (lg : list (Level * list PyVal)) (s : QdrantVectorDB.t)
  : QdrantVectorDB.t :=
  {| QdrantVectorDB.db_path := QdrantVectorDB.db_path s;
     QdrantVectorDB.collection_name := QdrantVectorDB.collection_name s;
     QdrantVectorDB.embedding_dim := QdrantVectorDB.embedding_dim s;
     QdrantVectorDB.client := QdrantVectorDB.client s;
     QdrantVectorDB.collection_exists := QdrantVectorDB.collection_exists s;
     QdrantVectorDB.url := QdrantVectorDB.url s;
     QdrantVectorDB.api_key := QdrantVectorDB.api_key s;
     QdrantVectorDB.logger := lg |}.

(** A string with every lone surrogate replaced by a question mark. *)
Definition replace_surrogates (s : str) : str :=
  map (fun c => if (55296 <=? c) && (c <=? 57343) then 63 else c) s.

(** How a constructed generator came by its model: the fastembed model of
    one of the two attempts, under the name asked for; or a model of the
    fallback, under the name of the fallback model. *)
Definition built_by (env : Environment) (name : str) (g : EmbeddingGenerator.t) : Prop :=
  (EmbeddingGenerator.use_fastembed g = true
   /\ EmbeddingGenerator.model_name g = name
   /\ exists attempt m,
        (attempt = 0 \/ attempt = 1)
        /\ new_TextEmbedding env name attempt = Return m
        /\ EmbeddingGenerator.model g = Some m)
  \/ (EmbeddingGenerator.use_fastembed g = false
      /\ EmbeddingGenerator.model_name g = EmbeddingGenerator.st_name
      /\ exists m,
           EmbeddingGenerator.model g = Some m
           /\ (new_SentenceTransformer env (local_model_path env) = Return m
               \/ new_SentenceTransformer env EmbeddingGenerator.st_name = Return m
               \/ new_EmbeddingWrapper env EmbeddingGenerator.st_name = Return m)).

(** The flag the constructor computes before it tries any backend. *)
Definition fastembed_wanted (env : Environment) (use : option bool) : bool :=
  match use with
  | None => negb (bool_decide (platform_system env = py_str "Windows"))
  | Some b => b
  end && FASTEMBED_AVAILABLE env.

(** The stage of the fallback, on a state where fastembed is off. *)
Definition fallback_built (env : Environment) (g : EmbeddingGenerator.t) : Prop :=
  EmbeddingGenerator.use_fastembed g = false
  /\ EmbeddingGenerator.model_name g = EmbeddingGenerator.st_name
  /\ exists m,
       EmbeddingGenerator.model g = Some m
       /\ (new_SentenceTransformer env (local_model_path env) = Return m
           \/ new_SentenceTransformer env EmbeddingGenerator.st_name = Return m
           \/ new_EmbeddingWrapper env EmbeddingGenerator.st_name = Return m).

(** A backend that embeds each text on its own: the vectors of a list of
    texts are the vectors of the texts. *)
Definition textwise (g : EmbeddingGenerator.t) (vector : str -> list Q) : Prop :=
  forall texts, active_call g texts = Return (map vector texts).

Definition no_library : Exception :=
  mkException "Exception"
    (py_str "No embedding library available. Please install either fastembed or sentence-transformers.").

(** * Sample objects *)

(** A parser for the examples: it knows the documents [{}] and [null] and
    rejects every other text. *)
Definition json_loads_sample (s : str) : outcome PyVal :=
  if bool_decide (s = py_str "{}") then Return (PDict [])
  else if bool_decide (s = py_str "null") then Return PNone
  else Raise (mkException "JSONDecodeError" (py_str "Expecting value")).

Definition vector_eqb (a b : list Q) : bool :=
  bool_decide (length a = length b)
  && forallb (fun xy : Q * Q => Qeq_bool xy.1 xy.2) (zip a b).

Definition passes (flt : option Filter) (p : PointStruct) : bool :=
  match flt with
  | None => true
  | Some conditions =>
      forallb
        (fun kv : string * str =>
           match point_payload p with
           | Some payload =>
               match payload !! kv.1 with
               | Some (PStr s) => bool_decide (s = kv.2)
               | _ => false
               end
           | None => false
           end)
        conditions
  end.

Definition scored (similarity : Q) (p : PointStruct) : ScoredPoint :=
  {| scored_id := point_id p; point_score := similarity;
     scored_payload := point_payload p |}.

(** An engine for the examples: of the points that pass the filter, those
    whose vector is the query are at similarity 1 and come first, the others
    are at similarity 0; no more than [limit] are returned. *)
Definition nearest_sample (pts : gmap Z PointStruct) (query : list Q)
    (flt : option Filter) (limit : Z) : list ScoredPoint :=
  let candidates := List.filter (passes flt) (map snd (map_to_list pts)) in
  take (Z.to_nat limit)
    (map (scored 1) (List.filter (fun p => vector_eqb (point_vector p) query) candidates)
     ++ map (scored 0)
          (List.filter (fun p => negb (vector_eqb (point_vector p) query)) candidates)).

Definition sample_name : str := py_str "notebook_lm".

(** A host with a fresh local engine and no remote one. *)
Definition sample_host : Host :=
  {| connect_url := fun _ _ =>
       Raise (mkException "ConnectionError" (py_str "connection refused"));
     connect_path := fun _ =>
       Return {| QdrantClient.collections := ∅;
                 QdrantClient.outage := [];
                 QdrantClient.calls := [] |} |}.

(** The store [QdrantVectorDB("./qdrant_db", "notebook_lm", 3)] on that host. *)
Definition sample_db : QdrantVectorDB.t :=
  {| QdrantVectorDB.db_path := py_str "./qdrant_db";
     QdrantVectorDB.collection_name := sample_name;
     QdrantVectorDB.embedding_dim := 3;
     QdrantVectorDB.client :=
       Some {| QdrantClient.collections :=
                 {[ sample_name := {| vectors_size := 3; vectors_distance := COSINE;
                                      points := ∅ |} ]};
               QdrantClient.outage := [];
               QdrantClient.calls :=
                 [GetCollections; CreateCollection sample_name 3 COSINE] |};
     QdrantVectorDB.collection_exists := true;
     QdrantVectorDB.url := None;
     QdrantVectorDB.api_key := None;
     QdrantVectorDB.logger :=
       [(INFO, [T "Qdrant client initialized with local database: ";
                PStr (py_str "./qdrant_db")]);
        (INFO, [T "Collection '"; PStr sample_name; T "' created successfully"])] |}.

Definition chunk_c1 : DocumentChunk :=
  {| chunk_id := py_str "c1"; content := py_str "hello world";
     source_file := py_str "notes.txt"; source_type := py_str "txt";
     page_number := None; chunk_index := 0;
     start_char := Some 0; end_char := Some 11;
     metadata := PStr (py_str "not json") |}.

Definition chunk_c2 : DocumentChunk :=
  {| chunk_id := py_str "c2"; content := py_str "second chunk";
     source_file := py_str "paper.pdf"; source_type := py_str "pdf";
     page_number := Some 4; chunk_index := 1;
     start_char := None; end_char := None;
     metadata := PDict [(py_str "lang", PStr (py_str "en"))] |}.

Definition chunk_c3 : DocumentChunk :=
  {| chunk_id := py_str "c3"; content := py_str "third";
     source_file := py_str "paper.pdf"; source_type := py_str "pdf";
     page_number := Some (-1); chunk_index := 2;
     start_char := None; end_char := None;
     metadata := PNone |}.

(** A backend for the examples: the vector of a text is its length, then 1
    and 0. *)
Definition sample_encode (texts : list str) : outcome (list (list Q)) :=
  Return (map (fun text => [inject_Z (len text); 1%Q; 0%Q]) texts).

Definition sample_env : Environment :=
  {| platform_system := py_str "Linux";
     FASTEMBED_AVAILABLE := false;
     SENTENCE_TRANSFORMERS_AVAILABLE := true;
     TRANSFORMERS_AVAILABLE := true;
     new_TextEmbedding := fun _ _ =>
       Raise (mkException "NameError" (py_str "name 'TextEmbedding' is not defined"));
     import_transformers := Return tt;
     local_model_path := py_str "/srv/app/.embedding_model";
     local_model_present := true;
     snapshot_download := fun _ =>
       Raise (mkException "ConnectionError" (py_str "no network"));
     new_SentenceTransformer := fun _ => Return (SentenceTransformer sample_encode);
     new_EmbeddingWrapper := fun _ =>
       Raise (mkException "OSError" (py_str "no network")) |}.

(** The generator initialisation leaves on that host, its log put aside. *)
Definition sample_generator : EmbeddingGenerator.t :=
  {| EmbeddingGenerator.model_name := EmbeddingGenerator.st_name;
     EmbeddingGenerator.model := Some (SentenceTransformer sample_encode);
     EmbeddingGenerator.embedding_dim := Some 3;
     EmbeddingGenerator.use_fastembed := false;
     EmbeddingGenerator.logger := [] |}.

(** Single precision taken as exact. *)
Definition float32_sample (x : Q) : Q := x.

Definition embedded_c1 : EmbeddedChunk :=
  {| chunk := chunk_c1; embedding := [11%Q; 1%Q; 0%Q];
     embedding_model := EmbeddingGenerator.st_name |}.

Definition embedded_c2 : EmbeddedChunk :=
  {| chunk := chunk_c2; embedding := [12%Q; 1%Q; 0%Q];
     embedding_model := EmbeddingGenerator.st_name |}.

(** The store after [insert_embeddings] of the two chunks. *)
Definition sample_db_loaded : QdrantVectorDB.t :=
  (QdrantVectorDB.insert_embeddings json_loads_sample [embedded_c1; embedded_c2]
     sample_db).2.

(** The store when the engine is about to fail a request. *)
Definition sample_db_down : QdrantVectorDB.t :=
  QdrantVectorDB.set_client
    (Some {| QdrantClient.collections :=
               {[ sample_name := {| vectors_size := 3; vectors_distance := COSINE;
                                    points := ∅ |} ]};
             QdrantClient.outage :=
               [Some (mkException "ConnectionError" (py_str "connection reset"))];
             QdrantClient.calls := [] |})
    sample_db.

(** What the search for the vector of [c2] returns on it, a filter given. *)
Definition sample_results : list SearchResult :=
  match (QdrantVectorDB.search nearest_sample [12%Q; 1%Q; 0%Q] 10
           (Some (py_str "source_type == 'pdf'")) sample_db_loaded).1 with
  | Return results => results
  | Raise _ => []
  end.

(** The cosine similarity an engine computing in single precision gives
    the vector of [c1], [[11; 1; 0]], against itself: the next
    single-precision number after 1. *)
Definition rounded_self_similarity : Q := 8388609 # 8388608.

(** The sample engine with that rounding: the points whose vector is the
    query come first, at that similarity, the others are at similarity 0. *)
Definition nearest_rounded (pts : gmap Z PointStruct) (query : list Q)
    (flt : option Filter) (limit : Z) : list ScoredPoint :=
  let candidates := List.filter (passes flt) (map snd (map_to_list pts)) in
  take (Z.to_nat limit)
    (map (scored rounded_self_similarity)
       (List.filter (fun p => vector_eqb (point_vector p) query) candidates)
     ++ map (scored 0)
          (List.filter (fun p => negb (vector_eqb (point_vector p) query)) candidates)).

(** What the search for the vector of [c1] returns with that engine. *)
Definition sample_results_rounded : list SearchResult :=
  match (QdrantVectorDB.search nearest_rounded [11%Q; 1%Q; 0%Q] 10 None
           sample_db_loaded).1 with
  | Return results => results
  | Raise _ => []
  end.

(** ** Further sample objects *)

(** The engine behind [sample_db]. *)
Definition sample_engine : QdrantClient.t :=
  {| QdrantClient.collections :=
       {[ sample_name := {| vectors_size := 3; vectors_distance := COSINE;
                            points := ∅ |} ]};
     QdrantClient.outage := [];
     QdrantClient.calls := [GetCollections; CreateCollection sample_name 3 COSINE] |}.

(** The engine behind [sample_db_down]. *)
Definition sample_engine_down : QdrantClient.t :=
  {| QdrantClient.collections :=
       {[ sample_name := {| vectors_size := 3; vectors_distance := COSINE;
                            points := ∅ |} ]};
     QdrantClient.outage :=
       [Some (mkException "ConnectionError" (py_str "connection reset"))];
     QdrantClient.calls := [] |}.

(** A remote engine that already has a collection of the name, of another
    vector size and another metric. *)
Definition sample_engine_remote : QdrantClient.t :=
  {| QdrantClient.collections :=
       {[ sample_name := {| vectors_size := 768; vectors_distance := EUCLID;
                            points := ∅ |} ]};
     QdrantClient.outage := [];
     QdrantClient.calls := [] |}.

(** A host with that remote engine and no local one. *)
Definition sample_host_remote : Host :=
  {| connect_url := fun _ _ => Return sample_engine_remote;
     connect_path := fun _ =>
       Raise (mkException "PermissionError" (py_str "read-only file system")) |}.

Definition sample_url : str := py_str "http://localhost:6333".

(** A chunk whose id holds a question mark, and the id with a lone
    surrogate in its place. *)
Definition chunk_q : DocumentChunk :=
  {| chunk_id := py_str "q?"; content := py_str "what next";
     source_file := py_str "notes.txt"; source_type := py_str "txt";
     page_number := Some 1; chunk_index := 3;
     start_char := Some 0; end_char := Some 9;
     metadata := PNone |}.

Definition embedded_q : EmbeddedChunk :=
  {| chunk := chunk_q; embedding := [9%Q; 1%Q; 0%Q];
     embedding_model := EmbeddingGenerator.st_name |}.

Definition surrogate_id : str := [113; 55296].

(** The store after [insert_embeddings] of that chunk. *)
Definition sample_db_q : QdrantVectorDB.t :=
  (QdrantVectorDB.insert_embeddings json_loads_sample [embedded_q] sample_db).2.

(** The vector [sample_encode] gives a text. *)
Definition sample_vector (text : str) : list Q := [inject_Z (len text); 1%Q; 0%Q].

Definition default_model_name : str := py_str "BAAI/bge-small-en-v1.5".

(** A host with no embedding library at all. *)
Definition sample_env_bare : Environment :=
  {| platform_system := py_str "Linux";
     FASTEMBED_AVAILABLE := false;
     SENTENCE_TRANSFORMERS_AVAILABLE := false;
     TRANSFORMERS_AVAILABLE := false;
     new_TextEmbedding := fun _ _ =>
       Raise (mkException "NameError" (py_str "name 'TextEmbedding' is not defined"));
     import_transformers :=
       Raise (mkException "ModuleNotFoundError" (py_str "No module named 'transformers'"));
     local_model_path := py_str "/srv/app/.embedding_model";
     local_model_present := false;
     snapshot_download := fun _ =>
       Raise (mkException "NameError" (py_str "name 'snapshot_download' is not defined"));
     new_SentenceTransformer := fun _ =>
       Raise (mkException "NameError" (py_str "name 'SentenceTransformer' is not defined"));
     new_EmbeddingWrapper := fun _ =>
       Raise (mkException "NameError" (py_str "name 'AutoConfig' is not defined")) |}.

(** A host with the libraries installed and no model within reach. *)
Definition sample_env_offline : Environment :=
  {| platform_system := py_str "Linux";
     FASTEMBED_AVAILABLE := false;
     SENTENCE_TRANSFORMERS_AVAILABLE := true;
     TRANSFORMERS_AVAILABLE := true;
     new_TextEmbedding := fun _ _ =>
       Raise (mkException "NameError" (py_str "name 'TextEmbedding' is not defined"));
     import_transformers := Return tt;
     local_model_path := py_str "/srv/app/.embedding_model";
     local_model_present := false;
     snapshot_download := fun _ =>
       Raise (mkException "ConnectionError" (py_str "no network"));
     new_SentenceTransformer := fun _ =>
       Raise (mkException "OSError" (py_str "no network"));
     new_EmbeddingWrapper := fun _ =>
       Raise (mkException "OSError" (py_str "no network")) |}.

(** A host where fastembed loads its model at the second attempt. *)
Definition sample_env_fastembed : Environment :=
  {| platform_system := py_str "Linux";
     FASTEMBED_AVAILABLE := true;
     SENTENCE_TRANSFORMERS_AVAILABLE := true;
     TRANSFORMERS_AVAILABLE := true;
     new_TextEmbedding := fun _ attempt =>
       if attempt =? 0
       then Raise (mkException "RuntimeError" (py_str "model file is locked"))
       else Return (TextEmbedding sample_encode);
     import_transformers := Return tt;
     local_model_path := py_str "/srv/app/.embedding_model";
     local_model_present := true;
     snapshot_download := fun _ => Return tt;
     new_SentenceTransformer := fun _ =>
       Return (SentenceTransformer (fun _ => Return []));
     new_EmbeddingWrapper := fun _ =>
       Raise (mkException "OSError" (py_str "no network")) |}.

(** * Properties *)

(** ** The hash and the identifier mapping *)

Example md5_empty :
  MD5.digest [] =
  [0xd4; 0x1d; 0x8c; 0xd9; 0x8f; 0x00; 0xb2; 0x04;
   0xe9; 0x80; 0x09; 0x98; 0xec; 0xf8; 0x42; 0x7e].
Proof. vm_compute. reflexivity. Qed.

Example md5_abc :
  MD5.digest (utf8_encode_replace (py_str "abc")) =
  [0x90; 0x01; 0x50; 0x98; 0x3c; 0xd2; 0x4f; 0xb0;
   0xd6; 0x96; 0x3f; 0x7d; 0x28; 0xe1; 0x7f; 0x72].
Proof. vm_compute. reflexivity. Qed.

(** A message longer than one block. *)
Example md5_two_blocks :
  MD5.digest (utf8_encode_replace
    (py_str "12345678901234567890123456789012345678901234567890123456789012345678901234567890")) =
  [0x57; 0xed; 0xf4; 0xa2; 0x2b; 0xe3; 0xc9; 0x55;
   0xac; 0x49; 0xda; 0x2e; 0x21; 0x07; 0xb6; 0x7a].
Proof. vm_compute. reflexivity. Qed.

Example utf8_samples :
  utf8_encode_replace [233; 8364; 128512; 55357] =
  [195; 169; 226; 130; 172; 240; 159; 152; 128; 63].
Proof. reflexivity. Qed.

Example str_of_int_samples :
  str_of_int 0 = py_str "0" /\ str_of_int 1203 = py_str "1203"
  /\ str_of_int (-45) = py_str "-45".
Proof. repeat split; reflexivity. Qed.

(** ** Reasoning about computations in [Py] *)

Section OutcomeRules.
Context {S : Type}.

Lemma wp_ret {A} (a : A) (s : S) Q E : Q a s -> wp (ret a) s Q E.
Proof. done. Qed.

Lemma wp_raise {A} e (s : S) (Q : A -> S -> Prop) E : E e s -> wp (raise e) s Q E.
Proof. done. Qed.

Lemma wp_get (s : S) Q E : Q s s -> wp get s Q E.
Proof. done. Qed.

Lemma wp_modify f (s : S) Q E : Q tt (f s) -> wp (modify f) s Q E.
Proof. done. Qed.

Lemma wp_lift {A} (o : outcome A) (s : S) Q E :
  match o with Return a => Q a s | Raise e => E e s end -> wp (lift o) s Q E.
Proof. unfold wp, lift. by destruct o. Qed.

Lemma wp_bind {A B} (m : Py S A) (k : A -> Py S B) (s : S) Q E :
  wp m s (fun a s' => wp (k a) s' Q E) E -> wp (bind m k) s Q E.
Proof. unfold wp, bind. by destruct (m s) as [[a|e] s']. Qed.

Lemma wp_try {A} (body : Py S A) (handler : Exception -> Py S A) (s : S) Q E :
  wp body s Q (fun e s' => wp (handler e) s' Q E) -> wp (try_except body handler) s Q E.
Proof. unfold wp, try_except. by destruct (body s) as [[a|e] s']. Qed.

Lemma wp_mono {A} (m : Py S A) (s : S) (Q Q' : A -> S -> Prop) (E E' : Exception -> S -> Prop) :
  wp m s Q E ->
  (forall a s', Q a s' -> Q' a s') -> (forall e s', E e s' -> E' e s') ->
  wp m s Q' E'.
Proof. unfold wp. intros H HQ HE. destruct (m s) as [[a|e] s']; auto. Qed.

Lemma wp_returns {A} (m : Py S A) (s : S) Q E a s' :
  wp m s Q E -> m s = (Return a, s') -> Q a s'.
Proof. unfold wp. intros H Heq. by rewrite Heq in H. Qed.

Lemma wp_raises {A} (m : Py S A) (s : S) Q E e s' :
  wp m s Q E -> m s = (Raise e, s') -> E e s'.
Proof. unfold wp. intros H Heq. by rewrite Heq in H. Qed.

End OutcomeRules.

(** ** Loops *)

Lemma append_loop_map {A B} (f : A -> B) (l : list A) (acc : list B) :
  fold_left (fun pts x => pts ++ [f x]) l acc = acc ++ map f l.
Proof.
  revert acc; induction l as [|x l IH]; intros acc; simpl.
  - by rewrite app_nil_r.
  - rewrite IH. by rewrite <- app_assoc.
Qed.

Lemma fold_left_pointwise {A B} (f f' : A -> B -> A) (l : list B) (a : A) :
  (forall a b, f a b = f' a b) -> fold_left f l a = fold_left f' l a.
Proof.
  intros Hext. revert a; induction l as [|b l IH]; intros a; cbn; [done|].
  by rewrite Hext, IH.
Qed.

Lemma is_empty_false {A} (l : list A) : l <> [] -> is_empty l = false.
Proof. by destruct l. Qed.

(** A loop establishes what its invariant gives once no item is left; the
    invariant speaks of the items still to come. *)
Lemma wp_for_each {S A B} (I : list A -> B -> S -> Prop) (items : list A)
    (body : B -> A -> Py S B) (acc : B) (s : S) (E : Exception -> S -> Prop) :
  I items acc s ->
  (forall x rest acc s,
      I (x :: rest) acc s -> wp (body acc x) s (fun acc' s' => I rest acc' s') E) ->
  wp (for_each items body acc) s (fun acc' s' => I [] acc' s') E.
Proof.
  intros HI Hbody. revert acc s HI.
  induction items as [|x rest IH]; intros acc s HI; cbn [for_each].
  - by apply wp_ret.
  - apply wp_bind. eapply wp_mono; [apply Hbody; exact HI| |done].
    intros acc' s' HI'. by apply IH.
Qed.

Lemma for_each_ext {S A B} (items : list A) (body body' : B -> A -> Py S B)
    (acc : B) (s : S) :
  (forall acc x s, body acc x s = body' acc x s) ->
  for_each items body acc s = for_each items body' acc s.
Proof.
  intros Hext. revert acc s.
  induction items as [|x rest IH]; intros acc s; cbn [for_each]; [done|].
  unfold bind. rewrite Hext. destruct (body' acc x s) as [[acc'|e] s']; [|done].
  apply IH.
Qed.

Lemma for_each_map {S A A' B} (f : A -> A') (items : list A)
    (body : B -> A' -> Py S B) (acc : B) (s : S) :
  for_each (map f items) body acc s = for_each items (fun acc x => body acc (f x)) acc s.
Proof.
  revert acc s.
  induction items as [|x rest IH]; intros acc s; cbn [for_each map]; [done|].
  unfold bind. destruct (body acc (f x) s) as [[acc'|e] s']; [|done].
  apply IH.
Qed.

Ltac wp_step :=
  lazymatch goal with
  | |- wp (bind _ _) _ _ _ => apply wp_bind
  | |- wp (try_except _ _) _ _ _ => apply wp_try
  | |- wp (ret _) _ _ _ => apply wp_ret
  | |- wp (raise _) _ _ _ => apply wp_raise
  | |- wp get _ _ _ => apply wp_get
  | |- wp (modify _) _ _ _ => apply wp_modify
  | |- wp (lift _) _ _ _ => apply wp_lift
  end.

Section VectorStore.
Variable json_loads : str -> outcome PyVal.
Variable nearest :
  gmap Z PointStruct -> list Q -> option Filter -> Z -> list ScoredPoint.

Import QdrantVectorDB.

Abbreviation key := _string_id_to_int (only parsing).

Example string_id_c1 (self : t) :
  _string_id_to_int self (py_str "c1") = 3024142382411468666.
Proof. vm_compute. reflexivity. Qed.

(** C2: [_string_id_to_int] reads nothing but its argument, so the same
    string maps to the same key whatever the instance and its state, and
    the key lies in [0, 2^63 - 2]. *)
Theorem string_id_to_int_deterministic_in_range (self self' : t) (s : str) :
  _string_id_to_int self s = _string_id_to_int self' s
  /\ 0 <= _string_id_to_int self s <= 2 ^ 63 - 2.
Proof.
  split; [reflexivity|].
  unfold _string_id_to_int.
  pose proof (Z.mod_pos_bound
                (int_from_bytes_big (take 8 (MD5.digest (utf8_encode_replace s))))
                (2 ^ 63 - 1)) as Hb.
  lia.
Qed.

(** *** Loops and requests of the store *)

Lemma make_point_id (self : t) (ec : EmbeddedChunk) :
  point_id (make_point json_loads self ec) = _string_id_to_int self (chunk_id (chunk ec)).
Proof. reflexivity. Qed.

Lemma make_point_vector (self : t) (ec : EmbeddedChunk) :
  point_vector (make_point json_loads self ec) = embedding ec.
Proof. reflexivity. Qed.

Lemma make_points_ids (self : t) (ecs : list EmbeddedChunk) :
  map point_id (map (make_point json_loads self) ecs)
  = map (fun ec => _string_id_to_int self (chunk_id (chunk ec))) ecs.
Proof. rewrite map_map. apply map_ext. intros; apply make_point_id. Qed.

Lemma upsert_returns (name : str) (pts : list PointStruct) (c c' : QdrantClient.t) (u : unit) :
  QdrantClient.upsert name pts c = (Return u, c') <->
  serving c /\
  exists col,
    QdrantClient.collections c !! name = Some col
    /\ Forall (fun p => len (point_vector p) = vectors_size col) pts
    /\ c' = served (Upsert name pts)
              (<[name := upserted pts col]> (QdrantClient.collections c)) c.
Proof.
  unfold QdrantClient.upsert, QdrantClient.request, bind, get, modify, raise, serving.
  destruct u.
  assert (Hall : forall col,
             forallb (fun p => len (point_vector p) =? vectors_size col) pts = true
             <-> Forall (fun p => len (point_vector p) = vectors_size col) pts).
  { intros col. rewrite forallb_forall, List.Forall_forall.
    split; intros H p Hp; specialize (H p Hp); lia. }
  destruct (QdrantClient.outage c) as [|[e|] rest] eqn:Hout;
    cbn [QdrantClient.collections].
  all: try (split; [discriminate | intros [[] _]]).
  all: destruct (QdrantClient.collections c !! name) as [col|] eqn:Hcol.
  all: try (split; [discriminate | by intros (_ & col' & ? & _)]).
  all: destruct (forallb _ pts) eqn:Hf.
  all: split.
  all: try (intros H; injection H as <-; split; [done|]; exists col;
            split; [done|]; split; [by apply Hall|];
            unfold served, upserted, QdrantClient.set_collections;
            cbn; by rewrite Hout).
  all: try discriminate.
  all: intros (_ & col' & [= <-] & Hd & ->).
  all: try (apply Hall in Hd; congruence).
  all: unfold served, upserted, QdrantClient.set_collections; cbn; by rewrite Hout.
Qed.

(** What a returning [insert_embeddings] did: one upsert of the points of
    the chunks, which the engine served. *)
Lemma insert_embeddings_returns (self self' : t) (ecs : list EmbeddedChunk) (ids : list Z) :
  ecs <> [] ->
  insert_embeddings json_loads ecs self = (Return ids, self') <->
  exists c c',
    client self = Some c
    /\ QdrantClient.upsert (collection_name self)
          (map (make_point json_loads self) ecs) c = (Return tt, c')
    /\ ids = map (fun ec => _string_id_to_int self (chunk_id (chunk ec))) ecs
    /\ self' =
         {| db_path := db_path self; collection_name := collection_name self;
            embedding_dim := embedding_dim self; client := Some c';
            collection_exists := collection_exists self; url := url self;
            api_key := api_key self;
            logger := logger self ++
              [(INFO, [T "Inserted "; PInt (len ids); T " embeddings into database"])] |}.
Proof.
  intros Hne. unfold insert_embeddings. rewrite (is_empty_false _ Hne).
  unfold try_except, bind, get, call, log, modify, ret, raise.
  rewrite (append_loop_map (make_point json_loads self) ecs []), app_nil_l.
  rewrite make_points_ids.
  destruct (client self) as [c|] eqn:Hc.
  - destruct (QdrantClient.upsert _ _ c) as [[[]|e] c'] eqn:Hup; cbn.
    + split.
      * intros [= <- <-]. by exists c, c'.
      * intros (c0 & c0' & [= <-] & Hup' & -> & ->).
        rewrite Hup in Hup'. by injection Hup' as <-.
    + split; [discriminate|].
      intros (c0 & c0' & [= <-] & Hup' & _). rewrite Hup in Hup'. discriminate.
  - split; [discriminate|]. by intros (c0 & c0' & [=] & _).
Qed.

(** C8: on the empty list [insert_embeddings] returns the empty list and
    leaves the whole state as it was: no request reaches the engine, no
    collection changes, nothing is logged. *)
Theorem insert_embeddings_empty (self : t) :
  insert_embeddings json_loads [] self = (Return [], self).
Proof. reflexivity. Qed.

(** [insert_embeddings] returns whenever the engine serves the request and
    the collection holds vectors of the chunks' length, whatever else the
    chunks carry. *)
Lemma insert_embeddings_total (self : t) (ecs : list EmbeddedChunk)
    (c : QdrantClient.t) (col : Collection) :
  ecs <> [] ->
  client self = Some c -> serving c ->
  QdrantClient.collections c !! collection_name self = Some col ->
  Forall (fun ec => len (embedding ec) = vectors_size col) ecs ->
  exists self',
    insert_embeddings json_loads ecs self =
    (Return (map (fun ec => _string_id_to_int self (chunk_id (chunk ec))) ecs), self').
Proof.
  intros Hne Hc Hs Hcol Hdim.
  eexists. apply (insert_embeddings_returns _ _ _ _ Hne).
  exists c. eexists. split; [done|]. split; [|split; reflexivity].
  apply upsert_returns. split; [done|]. exists col. split; [done|].
  split; [|reflexivity].
  apply List.Forall_forall. intros p Hp.
  apply in_map_iff in Hp as (ec & <- & Hin).
  rewrite make_point_vector. rewrite List.Forall_forall in Hdim. by apply Hdim.
Qed.

(** C10: on a non-empty list [insert_embeddings], when it returns, returns
    the integer keys [_string_id_to_int] of the chunk ids, one per chunk in
    input order; and it does return whenever the engine serves the request
    and the collection holds vectors of the chunks' length. *)
Theorem insert_embeddings_returns_keys (self : t) (ecs : list EmbeddedChunk) :
  ecs <> [] ->
  (forall ids self',
      insert_embeddings json_loads ecs self = (Return ids, self') ->
      ids = map (fun ec => _string_id_to_int self (chunk_id (chunk ec))) ecs
      /\ length ids = length ecs)
  /\ (forall c col,
         client self = Some c -> serving c ->
         QdrantClient.collections c !! collection_name self = Some col ->
         Forall (fun ec => len (embedding ec) = vectors_size col) ecs ->
         exists self',
           insert_embeddings json_loads ecs self =
           (Return (map (fun ec => _string_id_to_int self (chunk_id (chunk ec))) ecs),
            self')).
Proof.
  intros Hne. split.
  - intros ids self' H.
    apply (insert_embeddings_returns _ _ _ _ Hne) in H as (c & c' & _ & _ & -> & _).
    split; [done|]. by rewrite length_map.
  - intros c col. by apply insert_embeddings_total.
Qed.

(** *** Reading a point back *)

Lemma upsert_loop_other (pts : list PointStruct) (m : gmap Z PointStruct) (k : Z) :
  Forall (fun p => point_id p <> k) pts ->
  fold_left (fun m p => <[point_id p := p]> m) pts m !! k = m !! k.
Proof.
  revert m; induction pts as [|p pts IH]; intros m H; [done|].
  apply Forall_cons in H as [Hp H]. simpl. rewrite IH by done.
  by apply lookup_insert_ne.
Qed.

(** Last write wins: a point is found under its id unless a later point
    of the batch has the same id. *)
Lemma upsert_loop_lookup (pre post : list PointStruct) (p : PointStruct)
    (m : gmap Z PointStruct) :
  Forall (fun p' => point_id p' <> point_id p) post ->
  fold_left (fun m p => <[point_id p := p]> m) (pre ++ p :: post) m !! point_id p = Some p.
Proof.
  intros H. rewrite fold_left_app. simpl.
  rewrite upsert_loop_other by done. apply lookup_insert_eq.
Qed.

Lemma retrieve_returns (name : str) (ids : list Z) (wp wv : bool)
    (c : QdrantClient.t) (col : Collection) :
  serving c ->
  QdrantClient.collections c !! name = Some col ->
  QdrantClient.retrieve name ids wp wv c =
  (Return (omap (fun i => QdrantClient.to_record wp wv <$> points col !! i) ids),
   served (Retrieve name ids wp wv) (QdrantClient.collections c) c).
Proof.
  intros Hs Hcol.
  unfold QdrantClient.retrieve, QdrantClient.request, bind, get, ret, raise, served.
  unfold serving in Hs.
  destruct (QdrantClient.outage c) as [|[e|] rest]; [|done|];
    cbn [QdrantClient.collections]; by rewrite Hcol.
Qed.

Lemma get_chunk_by_id_found (self : t) (chunk_id : str) (c : QdrantClient.t)
    (col : Collection) (p : PointStruct) (payload : gmap string PyVal) :
  collection_exists self = true ->
  client self = Some c ->
  serving c ->
  QdrantClient.collections c !! collection_name self = Some col ->
  points col !! _string_id_to_int self chunk_id = Some p ->
  point_payload p = Some payload ->
  exists self',
    get_chunk_by_id json_loads chunk_id self =
    (Return (Some (view_of json_loads (point_id p) payload)), self').
Proof.
  intros Hex Hc Hs Hcol Hp Hpay.
  unfold get_chunk_by_id, get_chunk_by_id_body.
  unfold try_except, bind, get, call, log, modify, ret, raise.
  rewrite Hex. cbn [negb client]. rewrite Hc.
  rewrite (retrieve_returns _ _ _ _ _ col Hs) by done.
  cbn [omap list_omap]. rewrite Hp. cbn. rewrite Hpay.
  eexists. reflexivity.
Qed.

Lemma get_chunk_by_id_missing (self : t) (chunk_id : str) (c : QdrantClient.t)
    (col : Collection) :
  collection_exists self = true ->
  client self = Some c ->
  serving c ->
  QdrantClient.collections c !! collection_name self = Some col ->
  points col !! _string_id_to_int self chunk_id = None ->
  exists self', get_chunk_by_id json_loads chunk_id self = (Return None, self').
Proof.
  intros Hex Hc Hs Hcol Hp.
  unfold get_chunk_by_id, get_chunk_by_id_body.
  unfold try_except, bind, get, call, log, modify, ret, raise.
  rewrite Hex. cbn [negb client]. rewrite Hc.
  rewrite (retrieve_returns _ _ _ _ _ col Hs) by done.
  cbn [omap list_omap]. rewrite Hp. cbn. eexists. reflexivity.
Qed.

Lemma make_point_payload (self : t) (ec : EmbeddedChunk) :
  exists payload : gmap string PyVal,
    point_payload (make_point json_loads self ec) = Some payload
    /\ payload !! "original_id" = Some (PStr (chunk_id (chunk ec)))
    /\ payload !! "content" = Some (PStr (content (chunk ec)))
    /\ payload !! "source_file" = Some (PStr (source_file (chunk ec)))
    /\ payload !! "source_type" = Some (PStr (source_type (chunk ec)))
    /\ payload !! "page_number" = Some (or_sentinel (page_number (chunk ec)))
    /\ payload !! "chunk_index" = Some (PInt (chunk_index (chunk ec)))
    /\ payload !! "start_char" = Some (or_sentinel (start_char (chunk ec)))
    /\ payload !! "end_char" = Some (or_sentinel (end_char (chunk ec)))
    /\ payload !! "embedding_model" = Some (PStr (embedding_model ec))
    /\ payload !! "metadata" = stored_metadata json_loads (metadata (chunk ec)).
Proof.
  unfold make_point, stored_metadata. cbn [to_vector_db_format f_metadata].
  eexists. split; [reflexivity|].
  destruct (truthy (metadata (chunk ec)));
    [destruct (metadata (chunk ec)); try destruct (loads json_loads _)|];
    repeat split; reflexivity.
Qed.

(** After a returning insert, a chunk of the batch that no later chunk of
    the batch shadows is found by its id, with the payload made for it. *)
Lemma insert_then_get (self self1 : t) (pre post : list EmbeddedChunk)
    (ec : EmbeddedChunk) (ids : list Z) :
  collection_exists self = true ->
  insert_embeddings json_loads (pre ++ ec :: post) self = (Return ids, self1) ->
  Forall (fun ec' => _string_id_to_int self (chunk_id (chunk ec'))
                     <> _string_id_to_int self (chunk_id (chunk ec))) post ->
  (forall c1, client self1 = Some c1 -> serving c1) ->
  exists payload self2,
    point_payload (make_point json_loads self ec) = Some payload
    /\ get_chunk_by_id json_loads (chunk_id (chunk ec)) self1 =
       (Return (Some (view_of json_loads (_string_id_to_int self (chunk_id (chunk ec))) payload)),
        self2).
Proof.
  intros Hex Hins Hpost Hserv.
  apply insert_embeddings_returns in Hins as (c & c' & Hc & Hup & _ & ->);
    [|by destruct pre].
  apply upsert_returns in Hup as (_ & col & Hcol & _ & ->).
  specialize (Hserv _ eq_refl).
  destruct (make_point_payload self ec) as (payload & Hpay & _).
  exists payload.
  match goal with
  | |- context [get_chunk_by_id json_loads _ ?s] =>
      edestruct (get_chunk_by_id_found s (chunk_id (chunk ec))) as [self2 Hget]
  end.
  - exact Hex.
  - reflexivity.
  - exact Hserv.
  - cbn. apply lookup_insert_eq.
  - cbn [points upserted]. rewrite map_app. cbn [map].
    apply (upsert_loop_lookup _ _ (make_point json_loads self ec)).
    apply Forall_map. exact Hpost.
  - exact Hpay.
  - exists self2. split; [done|]. exact Hget.
Qed.

(** C1: a chunk inserted with id [X] is read back by [get_chunk_by_id X]:
    the record is present, its id is [X], and its content, source file,
    source type, chunk index and page number are those of the chunk, a
    page number stored as [-1] coming back as the absent value. The
    insert returned, the collection is set up, the engine serves the
    retrieval, and no later chunk of the batch has the key of [X]. *)
Theorem insert_get_chunk_by_id_round_trip (self self1 : t)
    (pre post : list EmbeddedChunk) (ec : EmbeddedChunk) (ids : list Z) :
  collection_exists self = true ->
  insert_embeddings json_loads (pre ++ ec :: post) self = (Return ids, self1) ->
  Forall (fun ec' => _string_id_to_int self (chunk_id (chunk ec'))
                     <> _string_id_to_int self (chunk_id (chunk ec))) post ->
  (forall c1, client self1 = Some c1 -> serving c1) ->
  exists view self2,
    get_chunk_by_id json_loads (chunk_id (chunk ec)) self1 = (Return (Some view), self2)
    /\ view_id view = PStr (chunk_id (chunk ec))
    /\ view_content view = PStr (content (chunk ec))
    /\ view_source_file view = PStr (source_file (chunk ec))
    /\ view_source_type view = PStr (source_type (chunk ec))
    /\ view_chunk_index view = PInt (chunk_index (chunk ec))
    /\ view_page_number view = page_number_read_back (page_number (chunk ec)).
Proof.
  intros Hex Hins Hpost Hserv.
  destruct (insert_then_get _ _ _ _ _ _ Hex Hins Hpost Hserv)
    as (payload & self2 & Hpay & Hget).
  destruct (make_point_payload self ec)
    as (payload' & Hpay' & Hid & Hcontent & Hfile & Htype & Hpage & Hindex & _).
  rewrite Hpay in Hpay'. injection Hpay' as <-.
  eexists. exists self2. split; [exact Hget|].
  unfold view_of, get_unless_sentinel, dict_get; cbn.
  rewrite Hid, Hcontent, Hfile, Htype, Hpage, Hindex.
  repeat split.
  destruct (page_number (chunk ec)) as [n|]; cbn; [|done].
  by destruct (n =? -1).
Qed.

(** C5: [get_chunk_by_id] always returns. It returns the absent value when
    the collection is not set up (and then asks the engine nothing), when
    the engine has no point under the key of the id, when the engine
    fails the request, and when the engine does not know the collection. *)
Theorem get_chunk_by_id_never_raises (self : t) (chunk_id : str) :
  (exists r self', get_chunk_by_id json_loads chunk_id self = (Return r, self'))
  /\ (collection_exists self = false ->
      exists self',
        get_chunk_by_id json_loads chunk_id self = (Return None, self')
        /\ client self' = client self)
  /\ (forall c col,
        collection_exists self = true -> client self = Some c -> serving c ->
        QdrantClient.collections c !! collection_name self = Some col ->
        points col !! _string_id_to_int self chunk_id = None ->
        exists self', get_chunk_by_id json_loads chunk_id self = (Return None, self'))
  /\ (forall c e rest,
        client self = Some c -> QdrantClient.outage c = Some e :: rest ->
        exists self', get_chunk_by_id json_loads chunk_id self = (Return None, self'))
  /\ (forall c,
        client self = Some c ->
        QdrantClient.collections c !! collection_name self = None ->
        exists self', get_chunk_by_id json_loads chunk_id self = (Return None, self')).
Proof.
  split; [|split; [|split; [|split]]].
  - unfold get_chunk_by_id, try_except.
    destruct (get_chunk_by_id_body json_loads chunk_id self) as [[r|e] s]; cbn; eauto.
  - intros Hex. unfold get_chunk_by_id, get_chunk_by_id_body.
    unfold try_except, bind, get, log, modify, ret. rewrite Hex. cbn. eauto.
  - intros c col Hex Hc Hs Hcol Hp. by eapply get_chunk_by_id_missing.
  - intros c e rest Hc Hout.
    unfold get_chunk_by_id, get_chunk_by_id_body.
    unfold try_except, bind, get, call, log, modify, ret, raise.
    destruct (collection_exists self); cbn [negb]; [|eauto].
    cbn [client]. rewrite Hc.
    unfold QdrantClient.retrieve, QdrantClient.request, bind. rewrite Hout.
    cbn. eauto.
  - intros c Hc Hcol.
    unfold get_chunk_by_id, get_chunk_by_id_body.
    unfold try_except, bind, get, call, log, modify, ret, raise.
    destruct (collection_exists self); cbn [negb]; [|eauto].
    cbn [client]. rewrite Hc.
    unfold QdrantClient.retrieve, QdrantClient.request, bind, get, raise.
    destruct (QdrantClient.outage c) as [|[e|] rest];
      cbn [QdrantClient.collections]; try rewrite Hcol; cbn; eauto.
Qed.

(** C9: metadata that is a string [json.loads] rejects is never fatal.
    [insert_embeddings] stores the empty mapping for it (nothing at all
    for the empty string), so that it reads back as the empty mapping, and
    returns as for any other chunk; [get_chunk_by_id] returns the inserted
    chunk with the empty mapping as metadata, and does the same for any
    stored point whose metadata is such a string. *)
Theorem malformed_metadata_is_empty_mapping (s : str) (e : Exception) :
  json_loads s = Raise e ->
  (forall self ec,
      metadata (chunk ec) = PStr s ->
      exists payload : gmap string PyVal,
        point_payload (make_point json_loads self ec) = Some payload
        /\ payload !! "metadata" = (if bool_decide (s = []) then None else Some (PDict []))
        /\ dict_get payload "metadata" (PDict []) = PDict [])
  /\ (forall self ec c col,
        metadata (chunk ec) = PStr s ->
        client self = Some c -> serving c ->
        QdrantClient.collections c !! collection_name self = Some col ->
        len (embedding ec) = vectors_size col ->
        exists self',
          insert_embeddings json_loads [ec] self =
          (Return [_string_id_to_int self (chunk_id (chunk ec))], self'))
  /\ (forall self self1 pre post ec ids,
        metadata (chunk ec) = PStr s ->
        collection_exists self = true ->
        insert_embeddings json_loads (pre ++ ec :: post) self = (Return ids, self1) ->
        Forall (fun ec' => _string_id_to_int self (chunk_id (chunk ec'))
                           <> _string_id_to_int self (chunk_id (chunk ec))) post ->
        (forall c1, client self1 = Some c1 -> serving c1) ->
        exists view self2,
          get_chunk_by_id json_loads (chunk_id (chunk ec)) self1
          = (Return (Some view), self2)
          /\ view_metadata view = PDict [])
  /\ (forall self chunk_id c col p payload,
        collection_exists self = true -> client self = Some c -> serving c ->
        QdrantClient.collections c !! collection_name self = Some col ->
        points col !! _string_id_to_int self chunk_id = Some p ->
        point_payload p = Some payload ->
        payload !! "metadata" = Some (PStr s) ->
        exists view self',
          get_chunk_by_id json_loads chunk_id self = (Return (Some view), self')
          /\ view_metadata view = PDict []).
Proof.
  intros Hbad.
  assert (Hstored : forall self ec,
             metadata (chunk ec) = PStr s ->
             exists payload : gmap string PyVal,
               point_payload (make_point json_loads self ec) = Some payload
               /\ payload !! "metadata" =
                    (if bool_decide (s = []) then None else Some (PDict []))
               /\ dict_get payload "metadata" (PDict []) = PDict []).
  { intros self ec Hmd.
    destruct (make_point_payload self ec) as (payload & Hpay & Hrest).
    do 9 destruct Hrest as [_ Hrest].
    exists payload. split; [done|].
    assert (Hm : payload !! "metadata"
                 = (if bool_decide (s = []) then None else Some (PDict []))).
    { rewrite Hrest. unfold stored_metadata. rewrite Hmd. cbn.
      destruct (bool_decide (s = [])); cbn; [done|]. by rewrite Hbad. }
    split; [done|]. unfold dict_get. rewrite Hm.
    by destruct (bool_decide (s = [])). }
  split; [exact Hstored|]. split; [|split].
  - intros self ec c col _ Hc Hs Hcol Hdim.
    apply (insert_embeddings_total self [ec] c col); try done.
    by apply Forall_cons.
  - intros self self1 pre post ec ids Hmd Hex Hins Hpost Hserv.
    destruct (insert_then_get _ _ _ _ _ _ Hex Hins Hpost Hserv)
      as (payload & self2 & Hpay & Hget).
    destruct (Hstored self ec Hmd) as (payload' & Hpay' & _ & Hread).
    rewrite Hpay in Hpay'. injection Hpay' as <-.
    eexists. exists self2. split; [exact Hget|].
    unfold view_of; cbn. by rewrite Hread.
  - intros self chunk_id c col p payload Hex Hc Hs Hcol Hp Hpay Hmd.
    destruct (get_chunk_by_id_found self chunk_id c col p payload) as [self' Hget];
      try done.
    eexists. exists self'. split; [exact Hget|].
    unfold view_of, dict_get; cbn. by rewrite Hmd, Hbad.
Qed.

(** *** Searching *)

Lemma format_loop_run (pts : list ScoredPoint) (acc : list SearchResult) (self : t) :
  for_each pts
    (fun formatted_results point =>
       bind (lift (format_result point))
         (fun formatted_result => ret (formatted_results ++ [formatted_result])))
    acc self
  = (match format_results pts with
     | Return rs => Return (acc ++ rs)
     | Raise e => Raise e
     end, self).
Proof.
  revert acc; induction pts as [|p pts IH]; intros acc; cbn.
  - unfold ret. by rewrite app_nil_r.
  - unfold bind at 1. unfold lift at 1, bind at 1, ret at 1.
    destruct (format_result p) as [r|e]; [|done].
    rewrite IH. destruct (format_results pts); [|done].
    by rewrite <- app_assoc.
Qed.

Lemma format_results_scores (pts : list ScoredPoint) (rs : list SearchResult) :
  format_results pts = Return rs ->
  Forall2 (fun r p => res_score r = (1 - point_score p)%Q) rs pts.
Proof.
  revert rs; induction pts as [|p pts IH]; intros rs H; cbn in H.
  - injection H as <-. constructor.
  - unfold format_result in H.
    destruct (scored_payload p); [|discriminate].
    destruct (format_results pts) as [rs'|]; [|discriminate].
    injection H as <-. constructor; [reflexivity|]. by apply IH.
Qed.

(** What [search] does, whatever the filter: one [query_points] request
    with no filter, then the formatting of the points. *)
Lemma search_outcome (self : t) (query_vector : list Q) (limit : Z)
    (filter_expr : option str) :
  exists self',
    search nearest query_vector limit filter_expr self =
    (match client self with
     | None =>
         Raise (mkException "AttributeError"
                  (py_str "'NoneType' object has no attribute '" ++ py_str "query_points"
                   ++ py_str "'"))
     | Some c =>
         match QdrantClient.query_points nearest (collection_name self)
                 query_vector None limit c with
         | (Return pts, _) => format_results pts
         | (Raise e, _) => Raise e
         end
     end, self')
    /\ client self' =
       match client self with
       | None => None
       | Some c =>
           Some (snd (QdrantClient.query_points nearest (collection_name self)
                        query_vector None limit c))
       end.
Proof.
  assert (Hwarn : forall self0 : t,
             client self0 = client self -> collection_name self0 = collection_name self ->
             exists self',
               try_except
                 (bind get (fun self =>
                    bind (call "query_points"
                            (QdrantClient.query_points nearest (collection_name self)
                               query_vector None limit))
                      (fun search_results =>
                         bind (for_each search_results
                                 (fun formatted_results point =>
                                    bind (lift (format_result point))
                                      (fun formatted_result =>
                                         ret (formatted_results ++ [formatted_result])))
                                 [])
                           (fun formatted_results =>
                              bind (log INFO [T "Search completed: ";
                                              PInt (len formatted_results);
                                              T " results found"])
                                (fun _ => ret formatted_results)))))
                 (fun e =>
                    bind (log ERROR [T "Error during search: "; PStr (exc_message e)])
                      (fun _ => raise e)) self0
               = (match client self with
                  | None =>
                      Raise (mkException "AttributeError"
                               (py_str "'NoneType' object has no attribute '"
                                ++ py_str "query_points" ++ py_str "'"))
                  | Some c =>
                      match QdrantClient.query_points nearest (collection_name self)
                              query_vector None limit c with
                      | (Return pts, _) => format_results pts
                      | (Raise e, _) => Raise e
                      end
                  end, self')
               /\ client self' =
                  match client self with
                  | None => None
                  | Some c =>
                      Some (snd (QdrantClient.query_points nearest (collection_name self)
                                   query_vector None limit c))
                  end).
  { intros self0 Hc Hn.
    unfold try_except. unfold bind at 1. unfold get at 1.
    unfold bind at 1. unfold call at 1. rewrite Hc, Hn.
    destruct (client self) as [c|]; [|cbn; eauto].
    destruct (QdrantClient.query_points _ _ _ _ _ c) as [[pts|e] c']; [|cbn; eauto].
    unfold bind at 1. rewrite format_loop_run.
    destruct (format_results pts) as [rs|e]; cbn; eauto. }
  unfold search.
  destruct filter_expr as [[|ch f]|].
  - destruct (Hwarn self eq_refl eq_refl) as (self' & H1 & H2).
    exists self'. split; [exact H1|exact H2].
  - destruct (Hwarn
                {| db_path := db_path self; collection_name := collection_name self;
                   embedding_dim := embedding_dim self; client := client self;
                   collection_exists := collection_exists self; url := url self;
                   api_key := api_key self;
                   logger := logger self ++
                     [(WARNING,
                       [T "Filter expressions are not fully implemented for Qdrant yet"])] |}
                eq_refl eq_refl) as (self' & H1 & H2).
    exists self'. split; [exact H1|exact H2].
  - destruct (Hwarn self eq_refl eq_refl) as (self' & H1 & H2).
    exists self'. split; [exact H1|exact H2].
Qed.

Lemma query_points_request (name : str) (q : list Q) (flt : option Filter) (limit : Z)
    (c : QdrantClient.t) :
  QdrantClient.calls (snd (QdrantClient.query_points nearest name q flt limit c))
  = QdrantClient.calls c ++ [QueryPoints name q flt limit].
Proof.
  unfold QdrantClient.query_points, QdrantClient.request, bind, get, ret, raise.
  destruct (QdrantClient.outage c) as [|[e|] rest]; cbn [QdrantClient.collections];
    try destruct (QdrantClient.collections c !! name); reflexivity.
Qed.

Lemma query_points_returns (name : str) (q : list Q) (flt : option Filter) (limit : Z)
    (c c' : QdrantClient.t) (pts : list ScoredPoint) :
  QdrantClient.query_points nearest name q flt limit c = (Return pts, c') ->
  exists col,
    QdrantClient.collections c !! name = Some col
    /\ pts = nearest (points col) q flt limit.
Proof.
  unfold QdrantClient.query_points, QdrantClient.request, bind, get, ret, raise.
  destruct (QdrantClient.outage c) as [|[e|] rest]; cbn [QdrantClient.collections];
    try discriminate;
    (destruct (QdrantClient.collections c !! name) as [col|]; [|discriminate]);
    intros [= <- _]; eauto.
Qed.

(** C6: the filter expression changes neither what [search] returns nor
    what reaches the engine: with any filter the outcome and the engine
    are those of the search without one, and the one request made is a
    [query_points] that carries no filter. *)
Theorem search_ignores_filter (self : t) (query_vector : list Q) (limit : Z)
    (f : str) :
  fst (search nearest query_vector limit (Some f) self)
  = fst (search nearest query_vector limit None self)
  /\ client (snd (search nearest query_vector limit (Some f) self))
     = client (snd (search nearest query_vector limit None self))
  /\ (forall c,
        client self = Some c ->
        exists c',
          client (snd (search nearest query_vector limit (Some f) self)) = Some c'
          /\ QdrantClient.calls c' =
             QdrantClient.calls c
               ++ [QueryPoints (collection_name self) query_vector None limit]).
Proof.
  destruct (search_outcome self query_vector limit (Some f)) as (s1 & H1 & C1).
  destruct (search_outcome self query_vector limit None) as (s2 & H2 & C2).
  rewrite H1, H2. cbn [fst snd]. split; [reflexivity|].
  split; [congruence|].
  intros c Hc. rewrite C1, Hc. eexists. split; [reflexivity|].
  apply query_points_request.
Qed.

Lemma scores_in_range (rs : list SearchResult) (pts : list ScoredPoint) :
  Forall2 (fun r p => res_score r = (1 - point_score p)%Q) rs pts ->
  Forall (fun p => (-1 <= point_score p <= 1)%Q) pts ->
  Forall (fun r => (0 <= res_score r <= 2)%Q) rs.
Proof.
  induction 1 as [|r p rs pts Hrp _ IH]; intros Hpts; [constructor|].
  apply Forall_cons in Hpts as [Hp Hpts].
  constructor; [|by apply IH]. rewrite Hrp. lra.
Qed.

Lemma scores_mirror_range (rs : list SearchResult) (pts : list ScoredPoint) :
  Forall2 (fun r p => res_score r = (1 - point_score p)%Q) rs pts ->
  Forall2 (fun r p => (0 <= res_score r <= 2)%Q <-> (-1 <= point_score p <= 1)%Q) rs pts.
Proof.
  induction 1 as [|r p rs pts Hrp _ IH]; constructor; [|exact IH].
  rewrite Hrp. split; lra.
Qed.

Lemma scores_mirror_order (rs : list SearchResult) (pts : list ScoredPoint) :
  Forall2 (fun r p => res_score r = (1 - point_score p)%Q) rs pts ->
  StronglySorted (fun a b => (res_score a <= res_score b)%Q) rs
  <-> StronglySorted (fun a b => (point_score b <= point_score a)%Q) pts.
Proof.
  induction 1 as [|r p rs pts Hrp Hrest IH]; [split; constructor|].
  assert (Hhead : Forall (fun b => (res_score r <= res_score b)%Q) rs
                  <-> Forall (fun b => (point_score b <= point_score p)%Q) pts).
  { clear IH. induction Hrest as [|r' p' rs pts Hrp' _ IH]; [split; constructor|].
    rewrite !Forall_cons, IH, Hrp, Hrp'. split; intros [Hle Hall]; (split; [lra|exact Hall]). }
  split; intros Hs; apply StronglySorted_inv in Hs as [Hs Hh];
    (constructor; [by apply IH|by apply Hhead]).
Qed.

(** C4 (amended): when [search] returns, the score of each result is one
    minus the similarity the engine gave the point at that rank. [search]
    neither clamps nor sorts: the score of a result lies between 0 and 2
    exactly when the similarity of its point lies between -1 and 1, and
    the scores never decrease along the ranks exactly when the engine's
    similarities never increase along them. *)
Theorem search_scores_mirror_engine (self self' : t) (query_vector : list Q)
    (limit : Z) (filter_expr : option str) (results : list SearchResult) :
  search nearest query_vector limit filter_expr self = (Return results, self') ->
  exists c col,
    client self = Some c
    /\ QdrantClient.collections c !! collection_name self = Some col
    /\ Forall2 (fun r p => res_score r = (1 - point_score p)%Q) results
         (nearest (points col) query_vector None limit)
    /\ Forall2 (fun r p =>
                  (0 <= res_score r <= 2)%Q <-> (-1 <= point_score p <= 1)%Q)
         results (nearest (points col) query_vector None limit)
    /\ (StronglySorted (fun a b => (res_score a <= res_score b)%Q) results
        <-> StronglySorted (fun a b => (point_score b <= point_score a)%Q)
              (nearest (points col) query_vector None limit)).
Proof.
  intros Hsearch.
  destruct (search_outcome self query_vector limit filter_expr) as (s1 & H1 & _).
  rewrite Hsearch in H1. injection H1 as Hres _.
  destruct (client self) as [c|]; [|discriminate].
  destruct (QdrantClient.query_points _ _ _ _ _ c) as [[pts|e] c'] eqn:Hq; [|discriminate].
  apply query_points_returns in Hq as (col & Hcol & ->).
  symmetry in Hres. apply format_results_scores in Hres.
  exists c, col. split; [done|]. split; [done|]. split; [done|]. split.
  - by apply scores_mirror_range.
  - by apply scores_mirror_order.
Qed.

(** *** The constructor sets the collection up *)

Lemma wp_call {A} (method : string) (m : Py QdrantClient.t A) (s : t) Q E :
  match client s with
  | None =>
      E (mkException "AttributeError"
           (py_str "'NoneType' object has no attribute '" ++ py_str method ++ py_str "'")) s
  | Some c =>
      match m c with
      | (Return a, c') => Q a (set_client (Some c') s)
      | (Raise e, c') => E e (set_client (Some c') s)
      end
  end ->
  wp (call method m) s Q E.
Proof.
  unfold wp, call. destruct (client s) as [c|]; [|done].
  by destruct (m c) as [[a|e] c'].
Qed.

Lemma wp_store_log level message (s : t) Q E :
  (forall s', collection_name s' = collection_name s -> embedding_dim s' = embedding_dim s ->
              client s' = client s -> collection_exists s' = collection_exists s ->
              Q tt s') ->
  wp (log level message) s Q E.
Proof. intros H. apply wp_modify. by apply H. Qed.

Lemma listed_collection (name : str) (c : QdrantClient.t) :
  name ∈ map fst (map_to_list (QdrantClient.collections c)) ->
  is_Some (QdrantClient.collections c !! name).
Proof.
  intros Hin. apply list_elem_of_fmap in Hin as ([name' col] & -> & Hin).
  apply elem_of_map_to_list in Hin. cbn. by rewrite Hin.
Qed.

(** After [_setup_collection] the flag is set and the engine has the
    collection under the instance's name. *)
Lemma _setup_collection_ready (s : t) :
  wp _setup_collection s
    (fun _ s' =>
       collection_exists s' = true
       /\ exists c col,
            client s' = Some c
            /\ QdrantClient.collections c !! collection_name s' = Some col)
    (fun _ _ => True).
Proof.
  unfold _setup_collection. wp_step.
  apply wp_mono with
    (Q := fun _ s' =>
            collection_exists s' = true
            /\ exists c col,
                 client s' = Some c
                 /\ QdrantClient.collections c !! collection_name s' = Some col)
    (E := fun _ _ => True); [|done|].
  2: { intros e s' _. wp_step. apply wp_store_log. intros. by wp_step. }
  do 3 wp_step. apply wp_call.
  destruct (client s) as [c|] eqn:Hc; [|done].
  unfold QdrantClient.get_collections, QdrantClient.request, bind, gets.
  assert (Hlisted :
    forall c1 : QdrantClient.t,
      QdrantClient.collections c1 = QdrantClient.collections c ->
      wp (if bool_decide (collection_name s
                          ∈ map fst (map_to_list (QdrantClient.collections c)))
          then bind (log INFO [T "Collection '"; PStr (collection_name s);
                               T "' already exists"])
                 (fun _ => modify (set_collection_exists true))
          else bind (call "create_collection"
                       (QdrantClient.create_collection (collection_name s)
                          (embedding_dim s) COSINE))
                 (fun _ => bind (log INFO [T "Collection '"; PStr (collection_name s);
                                           T "' created successfully"])
                             (fun _ => modify (set_collection_exists true))))
        (set_client (Some c1) s)
        (fun _ s' =>
           collection_exists s' = true
           /\ exists c2 col,
                client s' = Some c2
                /\ QdrantClient.collections c2 !! collection_name s' = Some col)
        (fun _ _ => True)).
  { intros c1 Hcols. case_bool_decide as Hin.
    - apply listed_collection in Hin as [col Hcol].
      wp_step. apply wp_store_log. intros s1 Hn _ Hc1 _. wp_step.
      split; [done|]. exists c1, col. cbn. split; [done|]. by rewrite Hn, Hcols.
    - wp_step. apply wp_call. cbn [client set_client].
      unfold QdrantClient.create_collection, QdrantClient.request, bind, get, modify,
        ret, raise.
      destruct (QdrantClient.outage c1) as [|[e|] rest]; cbn [QdrantClient.collections].
      2: done.
      all: destruct (QdrantClient.collections c1 !! collection_name s); [done|].
      all: unfold wp, log, modify; cbn.
      all: split; [done|]; eexists _, _; split; [reflexivity|].
      all: apply lookup_insert_eq. }
  destruct (QdrantClient.outage c) as [|[e|] rest]; [|done|]; by apply Hlisted.
Qed.

Lemma init_sets_collection_up (host : Host) (db_path collection_name : str)
    (embedding_dim : Z) (url api_key : option str) (self : t) :
  __init__ host db_path collection_name embedding_dim url api_key = Return self ->
  collection_exists self = true
  /\ exists c col,
       client self = Some c
       /\ QdrantClient.collections c !! QdrantVectorDB.collection_name self = Some col.
Proof.
  unfold __init__, bind.
  destruct (_initialize_client host _) as [[[]|e] s1]; [|discriminate].
  destruct (_setup_collection s1) as [[[]|e] s2] eqn:Hrun; [|discriminate].
  intros [= <-].
  exact (wp_returns _ _ _ _ _ _ (_setup_collection_ready s1) Hrun).
Qed.

End VectorStore.

Section Generator.
Variable float32 : Q -> Q.

Import EmbeddingGenerator.

(** Logging changes nothing but the log. *)
Lemma wp_log level message (s : t) Q E :
  (forall s', model_name s' = model_name s -> model s' = model s ->
              embedding_dim s' = embedding_dim s ->
              use_fastembed s' = use_fastembed s -> Q tt s') ->
  wp (log level message) s Q E.
Proof. intros H. apply wp_modify. by apply H. Qed.

Ltac step :=
  lazymatch goal with
  | |- wp (log _ _) _ _ _ => apply wp_log; intros ? ? ? ? ?
  | _ => wp_step
  end.

Ltac crunch :=
  repeat first
    [ step
    | lazymatch goal with
      | |- match ?o with Return _ => _ | Raise _ => _ end => destruct o eqn:?
      | |- wp (if ?b then _ else _) _ _ _ => destruct b eqn:?
      end ].

Ltac fields := cbn [use_fastembed model embedding_dim model_name
                    set_model set_embedding_dim set_use_fastembed set_model_name] in *.

Lemma probe_encode_ready (message : string) (name : str) (s : t) :
  use_fastembed s = false ->
  wp (probe_encode message name) s
    (fun _ g => ready g) (fun _ g => use_fastembed g = false).
Proof.
  intros Hs. unfold probe_encode. crunch; [|done..].
  exists a0, a. unfold active_call. fields.
  split; [congruence|]. split; [|done].
  replace (use_fastembed s') with false by congruence.
  replace (model s') with (model s) by congruence. done.
Qed.

Lemma load_sentence_transformer_ready (env : Environment) (s : t) :
  use_fastembed s = false ->
  wp (load_sentence_transformer env) s
    (fun _ g => ready g) (fun _ g => use_fastembed g = false).
Proof.
  intros Hs. unfold load_sentence_transformer.
  destruct (SENTENCE_TRANSFORMERS_AVAILABLE env); [|by step].
  do 2 step. step.
  apply wp_mono with (Q := fun _ g => use_fastembed g = false)
                     (E := fun _ g => use_fastembed g = false);
    [|intros; by apply probe_encode_ready|done].
  crunch; fields; congruence.
Qed.

Lemma load_transformers_fallback_ready (env : Environment) (e : Exception) (s : t) :
  use_fastembed s = false ->
  wp (load_transformers_fallback env e) s (fun _ g => ready g) (fun _ _ => True).
Proof.
  intros Hs. unfold load_transformers_fallback.
  do 2 step. step. do 2 step. step. step.
  destruct (new_EmbeddingWrapper env st_name) as [m|e']; [|by step].
  do 2 step.
  eapply wp_mono; [apply probe_encode_ready; fields; congruence|done|].
  intros; by step.
Qed.

Lemma fastembed_attempt_ready (env : Environment) (attempt max_retries : Z) (s : t) :
  use_fastembed s = true ->
  wp (fastembed_attempt env attempt max_retries) s
    (fun _ g => ready g) (fun _ g => use_fastembed g = true).
Proof.
  intros Hs. unfold fastembed_attempt. crunch; fields; try congruence.
  exists a1, a0. unfold active_call. fields.
  split; [congruence|]. split; [|done].
  replace (use_fastembed s'0) with true by congruence.
  replace (model s'0) with (Some a) by congruence. done.
Qed.

Lemma fastembed_loop_ready (env : Environment) (s : t) :
  use_fastembed s = true ->
  wp (fastembed_loop env [0; 1] 2) s
    (fun returned g => if returned : bool then ready g else use_fastembed g = false)
    (fun _ _ => False).
Proof.
  intros Hs. cbn [fastembed_loop].
  do 3 step.
  eapply wp_mono; [apply fastembed_attempt_ready; exact Hs| |].
  { intros u g Hg. step. cbn beta. step. exact Hg. }
  intros e g Hg. cbn beta.
  change (0 =? 2 - 1) with false. cbn iota.
  crunch.
  eapply wp_mono; [apply fastembed_attempt_ready; congruence| |].
  { intros u g' Hg'. step. cbn beta. step. exact Hg'. }
  intros e' g' Hg'. cbn beta.
  change (1 =? 2 - 1) with true. cbn iota.
  crunch. reflexivity.
Qed.

Lemma _initialize_model_ready (env : Environment) (s : t) :
  wp (_initialize_model env) s (fun _ g => ready g) (fun _ _ => True).
Proof.
  unfold _initialize_model. do 3 step.
  apply wp_mono with
    (Q := fun returned g => if returned : bool then ready g else use_fastembed g = false)
    (E := fun _ _ => False); [| |done].
  { destruct (use_fastembed s) eqn:Hs; [by apply fastembed_loop_ready|by step]. }
  intros [|] g Hg; [by step|].
  do 2 step. rewrite Hg. cbn [negb andb].
  destruct (_ || _); [|by step].
  step. do 2 step. do 2 step.
  destruct (import_transformers env); [|crunch; done].
  do 2 step. step.
  eapply wp_mono; [apply load_sentence_transformer_ready; congruence|done|].
  intros e g' Hg'. cbn beta.
  eapply wp_mono; [apply load_transformers_fallback_ready; exact Hg'|done|].
  intros; crunch; done.
Qed.

Lemma init_ready (env : Environment) (name : str) (use : option bool) (g : t) :
  __init__ env name use = Return g -> ready g.
Proof.
  unfold __init__.
  destruct (_initialize_model env _) as [[[]|e] g'] eqn:Hrun; [|discriminate].
  intros [= <-].
  exact (wp_returns _ _ _ _ _ _ (_initialize_model_ready env _) Hrun).
Qed.

(** *** Generating embeddings *)

Lemma same_generator_refl g : same_generator g g.
Proof. by repeat split. Qed.

Lemma same_generator_trans g1 g2 g3 :
  same_generator g1 g2 -> same_generator g2 g3 -> same_generator g1 g3.
Proof. unfold same_generator. intros (?&?&?&?) (?&?&?&?). repeat split; congruence. Qed.

Lemma same_generator_call g g' texts :
  same_generator g g' -> active_call g' texts = active_call g texts.
Proof. intros (_&Hm&_&Hu). unfold active_call. by rewrite Hm, Hu. Qed.

Lemma same_generator_ready g g' : same_generator g g' -> ready g -> ready g'.
Proof.
  intros Hsame (d & sample & Hd & Hcall & Hlen). exists d, sample.
  rewrite (same_generator_call _ _ _ Hsame). destruct Hsame as (_&_&Hdim&_).
  split; [congruence|done].
Qed.

Lemma active_call_model g texts vectors :
  active_call g texts = Return vectors ->
  exists m, model g = Some m /\ model_function m texts = Return vectors.
Proof.
  unfold active_call, model_embed, model_encode.
  destruct (use_fastembed g), (model g) as [[f|f|f]|]; try discriminate; eauto.
Qed.

(** [generate_embeddings] pairs the chunks with the vectors of one call on
    the model, and raises only what that call raises. *)
Lemma generate_embeddings_spec (g : t) (chunks : list DocumentChunk) :
  wp (generate_embeddings float32 chunks) g
    (fun out g' =>
       same_generator g g'
       /\ exists vectors,
            (chunks = [] \/ active_call g (map content chunks) = Return vectors)
            /\ out = map (embedded float32 g) (zip chunks vectors))
    (fun e g' =>
       same_generator g g' /\ active_call g (map content chunks) = Raise e).
Proof.
  unfold generate_embeddings. destruct chunks as [|c chunks]; cbn [is_empty].
  { step. split; [apply same_generator_refl|]. exists []. by split; [left|]. }
  set (cs := c :: chunks).
  do 2 step. do 2 step. step.
  assert (Hsame : same_generator g s') by done.
  step.
  apply wp_mono with
    (Q := fun embeddings g' =>
            g' = s' /\ active_call g (map content cs) = Return embeddings)
    (E := fun e g' => g' = s' /\ active_call g (map content cs) = Raise e).
  - rewrite <- (same_generator_call g s' _ Hsame). unfold active_call.
    destruct (use_fastembed s'); step;
      match goal with |- match ?o with _ => _ end => by destruct o end.
  - intros vectors g' [-> Hcall]. do 2 step. step.
    split; [by repeat split; etrans|].
    exists vectors. split; [by right|].
    rewrite <- (app_nil_l (map _ _)).
    rewrite <- (append_loop_map (embedded float32 g) (zip cs vectors) []).
    destruct Hsame as (Hname&_).
    apply fold_left_pointwise. intros acc [c' v]. unfold embedded. cbn. by rewrite Hname.
  - intros e g' [-> Hcall]. do 2 step. step.
    split; [by repeat split; etrans|done].
Qed.

(** Whatever its outcome, [generate_embeddings] leaves the generator as
    initialisation made it. *)
Lemma generate_embeddings_keeps_ready (g g' : t) (chunks : list DocumentChunk)
    (r : outcome (list EmbeddedChunk)) :
  ready g -> generate_embeddings float32 chunks g = (r, g') -> ready g'.
Proof.
  intros Hready Hrun. pose proof (generate_embeddings_spec g chunks) as Hspec.
  unfold wp in Hspec. rewrite Hrun in Hspec.
  apply (same_generator_ready g); [|done]. destruct r; apply Hspec.
Qed.

Lemma embedded_chunks (g : t) (chunks : list DocumentChunk) (vectors : list (list Q)) :
  length vectors = length chunks ->
  map chunk (map (embedded float32 g) (zip chunks vectors)) = chunks.
Proof.
  intros Hlen. rewrite map_map. cbn.
  change (map (fun x : DocumentChunk * list Q => x.1) (zip chunks vectors))
    with ((zip chunks vectors).*1).
  apply fst_zip. lia.
Qed.

(** The dimension fixed at initialisation is the length of every vector
    of a backend that keeps its contract. *)
Lemma ready_dimension (g : t) (m : Model) (texts : list str)
    (vectors : list (list Q)) :
  ready g -> model g = Some m -> uniform m ->
  active_call g texts = Return vectors ->
  Forall (fun v => get_embedding_dimension g = Some (len v)) vectors.
Proof.
  intros (d0 & sample & Hdim & Hprobe & Hfirst) Hm (d & Hu) Hcall.
  apply active_call_model in Hprobe as (m1 & Hm1 & Hprobe).
  apply active_call_model in Hcall as (m2 & Hm2 & Hcall).
  assert (m1 = m) as -> by congruence. assert (m2 = m) as -> by congruence.
  apply Hu in Hprobe as [_ Hsample]. apply Hu in Hcall as [_ Hvectors].
  destruct sample as [|v sample]; [discriminate|]. injection Hfirst as <-.
  apply Forall_cons in Hsample as [Hv _].
  eapply List.Forall_impl; [|exact Hvectors].
  intros v' Hv'. unfold get_embedding_dimension. rewrite Hdim. cbn in *. congruence.
Qed.

(** C3: [generate_embeddings] returns the empty list for the empty list,
    untouched state included. When it returns, it returns one embedded
    chunk per chunk, in order, and every vector has the length
    [get_embedding_dimension] gives; it returns whenever the call on the
    model does. The generator is as initialisation left it, and the
    backend returns one vector per text, all of one length. *)
Theorem generate_embeddings_one_per_chunk (g : t) (chunks : list DocumentChunk) :
  ready g ->
  (forall m, model g = Some m -> uniform m) ->
  generate_embeddings float32 [] g = (Return [], g)
  /\ (forall out g',
        generate_embeddings float32 chunks g = (Return out, g') ->
        map chunk out = chunks
        /\ length out = length chunks
        /\ Forall (fun ec => get_embedding_dimension g' = Some (len (embedding ec))) out)
  /\ (forall vectors,
        active_call g (map content chunks) = Return vectors ->
        exists out g', generate_embeddings float32 chunks g = (Return out, g')).
Proof.
  intros Hready Hmodel. split; [reflexivity|]. split.
  - intros out g' Hrun.
    destruct (wp_returns _ _ _ _ _ _ (generate_embeddings_spec g chunks) Hrun)
      as (Hsame & vectors & Hcall & ->).
    assert (Hdim' : get_embedding_dimension g' = get_embedding_dimension g)
      by apply Hsame.
    destruct Hcall as [->|Hcall]. { cbn. repeat split. apply Forall_nil_2. }
    destruct (active_call_model _ _ _ Hcall) as (m & Hm & Hfun).
    destruct (Hmodel m Hm) as (d & Hu).
    destruct (Hu _ _ Hfun) as [Hlen _]. rewrite length_map in Hlen.
    assert (Hchunks : map chunk (map (embedded float32 g) (zip chunks vectors)) = chunks)
      by by apply embedded_chunks.
    split; [done|]. split.
    { rewrite length_map, length_zip_with. lia. }
    pose proof (ready_dimension g m _ _ Hready Hm (Hmodel m Hm) Hcall) as Hvs.
    apply Forall_map. apply List.Forall_forall. intros [c v] Hin.
    cbn. unfold len. rewrite length_map. rewrite Hdim'.
    rewrite List.Forall_forall in Hvs. apply Hvs.
    apply list_elem_of_In in Hin. apply elem_of_zip_r in Hin.
    by apply list_elem_of_In.
  - intros vectors Hcall.
    pose proof (generate_embeddings_spec g chunks) as Hspec. unfold wp in Hspec.
    destruct (generate_embeddings float32 chunks g) as [[out|e] g']; [eauto|].
    destruct Hspec as [_ Hraise]. congruence.
Qed.

(** *** Batches *)

Lemma py_range_positive (n : nat) (step : Z) :
  0 < step ->
  py_range 0 (Z.of_nat n) step = Return (range_loop n 0 (Z.of_nat n) step).
Proof.
  intros Hstep. unfold py_range.
  destruct (step =? 0) eqn:H0; [lia|].
  do 2 f_equal. lia.
Qed.

Lemma py_slice_take_drop {A} (l : list A) (j n : Z) :
  0 <= j -> 0 < n ->
  py_slice l j (j + n) = take (Z.to_nat n) (drop (Z.to_nat j) l).
Proof.
  intros Hj Hn. unfold py_slice, slice_bound.
  destruct (j <? 0) eqn:H1; [lia|]. destruct (j + n <? 0) eqn:H2; [lia|].
  rewrite take_drop_commute.
  destruct (Z.le_gt_cases (Z.of_nat (length l)) j) as [Hge|Hlt].
  - rewrite !drop_ge; [done| |].
    + rewrite length_take. lia.
    + rewrite length_take. lia.
  - replace (Z.to_nat (Z.min j (Z.of_nat (length l)))) with (Z.to_nat j) by lia.
    f_equal.
    destruct (Z.le_gt_cases (j + n) (Z.of_nat (length l))) as [Hle|Hgt].
    + f_equal. lia.
    + rewrite !take_ge; [done| |]; lia.
Qed.

(** The slices are the consecutive pieces of the batch. *)
Lemma slices_pieces (b : list DocumentChunk) (batch_size : Z) (fuel : nat) (j : Z) :
  0 < batch_size -> 0 <= j ->
  map (fun j => py_slice b j (j + batch_size)) (range_loop fuel j (len b) batch_size)
  = pieces fuel (Z.to_nat batch_size) (drop (Z.to_nat j) b).
Proof.
  intros Hbs. revert j. induction fuel as [|fuel IH]; intros j Hj; [done|].
  cbn [range_loop pieces]. destruct (0 <? batch_size) eqn:Hpos; [|lia].
  unfold len. destruct (j <? Z.of_nat (length b)) eqn:Hlt.
  - assert (Hdrop : drop (Z.to_nat j) b <> []).
    { intros Hnil. apply (f_equal length) in Hnil. rewrite length_drop in Hnil.
      cbn in Hnil. lia. }
    destruct (drop (Z.to_nat j) b) as [|c rest] eqn:Hd; [done|].
    cbn [map]. rewrite py_slice_take_drop by lia. rewrite Hd. f_equal.
    fold (len b). rewrite IH by lia.
    rewrite <- Hd, drop_drop. do 2 f_equal. lia.
  - rewrite drop_ge by lia. done.
Qed.

Lemma pieces_concat {A} (fuel n : nat) (l : list A) :
  (0 < n)%nat -> (length l <= fuel)%nat -> concat (pieces fuel n l) = l.
Proof.
  intros Hn. revert l. induction fuel as [|fuel IH]; intros l Hl.
  - destruct l; [done|cbn in Hl; lia].
  - destruct l as [|x l]; [done|]. cbn [pieces concat].
    rewrite IH; [apply take_drop|]. rewrite length_drop. cbn in *. lia.
Qed.

Lemma pieces_bounded {A} (fuel n : nat) (l : list A) :
  (0 < n)%nat ->
  Forall (fun p => (0 < length p <= n)%nat) (pieces fuel n l).
Proof.
  intros Hn. revert l. induction fuel as [|fuel IH]; intros l; [constructor|].
  destruct l as [|x l]; [constructor|]. cbn [pieces].
  constructor; [|apply IH]. rewrite length_take. cbn. lia.
Qed.

Lemma sub_batches_pieces (batch_size : Z) (b : list DocumentChunk) :
  0 < batch_size ->
  sub_batches batch_size b = pieces (length b) (Z.to_nat batch_size) b.
Proof. intros Hbs. unfold sub_batches. by rewrite slices_pieces. Qed.

Lemma generate_embeddings_chunks (g s : t) (chunks : list DocumentChunk) :
  same_generator g s ->
  (forall m, model g = Some m -> uniform m) ->
  wp (generate_embeddings float32 chunks) s
    (fun out s' => same_generator g s' /\ map chunk out = chunks)
    (fun e _ => raised_by_model g e).
Proof.
  intros Hsame Hmodel.
  eapply wp_mono; [apply generate_embeddings_spec| |].
  - intros out s' (Hsame' & vectors & Hcall & ->).
    split; [by eapply same_generator_trans|].
    destruct Hcall as [->|Hcall]; [done|].
    rewrite (same_generator_call _ _ _ Hsame) in Hcall.
    destruct (active_call_model _ _ _ Hcall) as (m & Hm & Hfun).
    destruct (Hmodel m Hm) as (d & Hu). destruct (Hu _ _ Hfun) as [Hlen _].
    rewrite length_map in Hlen. by apply embedded_chunks.
  - intros e s' [_ Hcall]. rewrite (same_generator_call _ _ _ Hsame) in Hcall.
    by eexists.
Qed.

(** The loop over the sub-batches of one batch. *)
Lemma sub_batch_loop (g s : t) (subs : list (list DocumentChunk)) :
  same_generator g s ->
  (forall m, model g = Some m -> uniform m) ->
  wp (for_each subs
        (fun embedded_batch sub_batch =>
           bind (generate_embeddings float32 sub_batch)
             (fun embedded_sub_batch => ret (embedded_batch ++ embedded_sub_batch)))
        [])
     s
     (fun embedded_batch s' =>
        same_generator g s' /\ map chunk embedded_batch = concat subs)
     (fun e _ => raised_by_model g e).
Proof.
  intros Hsame Hmodel.
  eapply wp_mono;
    [apply (wp_for_each
              (fun rest acc s' =>
                 same_generator g s' /\ map chunk acc ++ concat rest = concat subs))| |].
  - by split.
  - intros sb rest acc s0 [Hs0 Hacc]. step.
    eapply wp_mono; [by apply generate_embeddings_chunks| |done].
    intros out s1 [Hs1 Hout]. step. split; [done|].
    rewrite map_app, Hout, <- app_assoc. exact Hacc.
  - intros acc s' [Hs' Hacc]. split; [done|]. cbn in Hacc.
    by rewrite app_nil_r in Hacc.
  - done.
Qed.

Lemma enumerate_snd {A} (l : list A) : (enumerate l).*2 = l.
Proof. unfold enumerate. apply snd_zip. by rewrite length_map, length_seq. Qed.

Lemma batch_generate_embeddings_delegates (chunks_batches : list (list DocumentChunk))
    (batch_size : Z) (g : t) :
  0 < batch_size ->
  batch_generate_embeddings float32 chunks_batches batch_size g
  = batch_by_sub_batches float32 chunks_batches batch_size g.
Proof.
  intros Hbs. unfold batch_generate_embeddings, batch_by_sub_batches.
  apply for_each_ext. intros acc [i b] s.
  unfold sub_batches, bind, lift, len.
  destruct (log _ _ s) as [[[]|e] s1]; [|done].
  rewrite py_range_positive by done. by rewrite for_each_map.
Qed.

Lemma batch_by_sub_batches_spec (g : t) (chunks_batches : list (list DocumentChunk))
    (batch_size : Z) :
  0 < batch_size ->
  (forall m, model g = Some m -> uniform m) ->
  wp (batch_by_sub_batches float32 chunks_batches batch_size) g
    (fun out _ => map (map chunk) out = chunks_batches)
    (fun e _ => raised_by_model g e).
Proof.
  intros Hbs Hmodel. unfold batch_by_sub_batches.
  eapply wp_mono;
    [apply (wp_for_each
              (fun rest acc s' =>
                 same_generator g s'
                 /\ map (map chunk) acc ++ rest.*2 = chunks_batches))| |].
  - split; [apply same_generator_refl|]. apply enumerate_snd.
  - intros [i b] rest acc s0 [Hs0 Hacc]. do 2 step.
    assert (Hs' : same_generator g s')
      by (eapply same_generator_trans; [exact Hs0|by repeat split]).
    step.
    eapply wp_mono; [by apply sub_batch_loop| |done].
    intros eb s1 [Hs1 Heb]. step. split; [done|].
    rewrite map_app, <- app_assoc. cbn [map]. rewrite Heb.
    rewrite sub_batches_pieces, pieces_concat by lia. exact Hacc.
  - intros out s' [_ Hout]. cbn in Hout. by rewrite app_nil_r in Hout.
  - done.
Qed.

(** C7: for a positive batch size, the sub-batches of each batch are its
    consecutive pieces of at most [batch_size] chunks, none empty, which
    put end to end give the batch back; [batch_generate_embeddings] hands
    them to [generate_embeddings] one after the other; what it returns
    has one batch per input batch, holding the embedded chunks of that
    batch in order; and it returns unless the model raises. The backend
    returns one vector per text. *)
Theorem batch_generate_embeddings_preserves_batches (g : t)
    (chunks_batches : list (list DocumentChunk)) (batch_size : Z) :
  0 < batch_size ->
  (forall m, model g = Some m -> uniform m) ->
  (forall chunk_batch,
      sub_batches batch_size chunk_batch
      = pieces (length chunk_batch) (Z.to_nat batch_size) chunk_batch
      /\ concat (sub_batches batch_size chunk_batch) = chunk_batch
      /\ Forall (fun sub_batch => 0 < len sub_batch <= batch_size)
           (sub_batches batch_size chunk_batch))
  /\ batch_generate_embeddings float32 chunks_batches batch_size g
     = batch_by_sub_batches float32 chunks_batches batch_size g
  /\ (forall out g',
        batch_generate_embeddings float32 chunks_batches batch_size g = (Return out, g') ->
        map (map chunk) out = chunks_batches
        /\ length out = length chunks_batches)
  /\ ((forall texts, exists vectors, active_call g texts = Return vectors) ->
      exists out g',
        batch_generate_embeddings float32 chunks_batches batch_size g = (Return out, g')).
Proof.
  intros Hbs Hmodel.
  pose proof (batch_generate_embeddings_delegates chunks_batches batch_size g Hbs) as Heq.
  pose proof (batch_by_sub_batches_spec g chunks_batches batch_size Hbs Hmodel) as Hspec.
  split; [|split; [exact Heq|split]].
  - intros b. rewrite sub_batches_pieces by done.
    split; [done|]. split; [apply pieces_concat; lia|].
    eapply List.Forall_impl; [|apply (pieces_bounded _ (Z.to_nat batch_size)); lia].
    intros p Hp. unfold len. cbn beta in Hp. lia.
  - intros out g' Hrun. rewrite Heq in Hrun.
    pose proof (wp_returns _ _ _ _ _ _ Hspec Hrun) as Hout. cbn beta in Hout.
    split; [done|].
    apply (f_equal length) in Hout. by rewrite length_map in Hout.
  - intros Htotal. rewrite Heq. unfold wp in Hspec.
    destruct (batch_by_sub_batches float32 chunks_batches batch_size g) as [[out|e] g'];
      [eauto|].
    destruct Hspec as [texts Hraise]. destruct (Htotal texts) as [v Hv]. congruence.
Qed.

End Generator.

(** ** The sample objects at work *)

Example sample_db_constructed :
  QdrantVectorDB.__init__ sample_host (py_str "./qdrant_db") sample_name 3 None None
  = Return sample_db.
Proof. vm_compute. reflexivity. Qed.

Example sample_insert_returns_keys :
  (QdrantVectorDB.insert_embeddings json_loads_sample [embedded_c1; embedded_c2]
     sample_db).1
  = Return [3024142382411468666; 1924773577556138069].
Proof. vm_compute. reflexivity. Qed.

Example sample_get_c1 :
  (QdrantVectorDB.get_chunk_by_id json_loads_sample (py_str "c1") sample_db_loaded).1
  = Return (Some {| view_id := PStr (py_str "c1");
                    view_content := PStr (py_str "hello world");
                    view_metadata := PDict [];
                    view_source_file := PStr (py_str "notes.txt");
                    view_source_type := PStr (py_str "txt");
                    view_page_number := PNone;
                    view_chunk_index := PInt 0 |}).
Proof. vm_compute. reflexivity. Qed.

Example sample_get_missing :
  (QdrantVectorDB.get_chunk_by_id json_loads_sample (py_str "c9") sample_db_loaded).1
  = Return None.
Proof. vm_compute. reflexivity. Qed.

(** The query that is the vector of [c1] finds [c1] at distance 0. *)
Example sample_search_own_vector :
  match (QdrantVectorDB.search nearest_sample [11%Q; 1%Q; 0%Q] 1 None
           sample_db_loaded).1 with
  | Return [r] => res_id r = PStr (py_str "c1") /\ Qeq (res_score r) 0
  | _ => False
  end.
Proof. vm_compute. split; reflexivity. Qed.

Example sample_generator_constructed :
  exists g,
    EmbeddingGenerator.__init__ sample_env (py_str "BAAI/bge-small-en-v1.5") None
    = Return g
    /\ same_generator sample_generator g.
Proof. eexists. split; [vm_compute; reflexivity|]. by repeat split. Qed.

Example sample_sub_batches :
  sub_batches 2 [chunk_c1; chunk_c2; chunk_c3] = [[chunk_c1; chunk_c2]; [chunk_c3]].
Proof. reflexivity. Qed.

(** A zero batch size is refused by [range]; a negative one makes no
    sub-batch at all. *)
Example batch_size_zero :
  exists e,
    (EmbeddingGenerator.batch_generate_embeddings float32_sample
       [[chunk_c1; chunk_c2]] 0 sample_generator).1 = Raise e
    /\ exc_class e = "ValueError"%string.
Proof. eexists. split; [vm_compute; reflexivity|reflexivity]. Qed.

Example batch_size_negative :
  (EmbeddingGenerator.batch_generate_embeddings float32_sample
     [[chunk_c1; chunk_c2]] (-1) sample_generator).1 = Return [[]].
Proof. vm_compute. reflexivity. Qed.

(** ** The sample engine and backend keep their contracts *)

Lemma constant_scores_sorted (pts : list ScoredPoint) (c : Q) :
  Forall (fun p => point_score p = c) pts ->
  StronglySorted (fun a b => (point_score b <= point_score a)%Q) pts.
Proof.
  induction 1 as [|p pts Hp Hpts IH]; constructor; [done|].
  eapply List.Forall_impl; [|exact Hpts]. intros q Hq. cbn beta. rewrite Hp, Hq. lra.
Qed.

Lemma strongly_sorted_take {A} (R : A -> A -> Prop) (n : nat) (l : list A) :
  StronglySorted R l -> StronglySorted R (take n l).
Proof.
  intros Hl. revert n. induction Hl as [|x l Hl IH Hx]; intros [|n]; cbn; try constructor.
  - apply IH.
  - by apply Forall_take.
Qed.

Lemma nearest_sample_cosine pts q flt n :
  Forall (fun p => (-1 <= point_score p <= 1)%Q) (nearest_sample pts q flt n).
Proof.
  unfold nearest_sample. apply Forall_take. apply Forall_app. split.
  all: apply Forall_map, Forall_true; intros p; cbn; lra.
Qed.

Lemma nearest_sample_ranked pts q flt n :
  Sorted (fun a b => (point_score b <= point_score a)%Q) (nearest_sample pts q flt n).
Proof.
  unfold nearest_sample. apply StronglySorted_Sorted, strongly_sorted_take.
  apply StronglySorted_app_2.
  - intros a b Ha Hb.
    apply list_elem_of_fmap in Ha as (pa & -> & _).
    apply list_elem_of_fmap in Hb as (pb & -> & _). cbn. lra.
  - apply (constant_scores_sorted _ 1%Q). by apply Forall_map, Forall_true.
  - apply (constant_scores_sorted _ 0%Q). by apply Forall_map, Forall_true.
Qed.

Lemma nearest_sample_ranked_strongly pts q flt n :
  StronglySorted (fun a b => (point_score b <= point_score a)%Q)
    (nearest_sample pts q flt n).
Proof.
  apply Sorted_StronglySorted; [|apply nearest_sample_ranked].
  intros a b d Hab Hbd. lra.
Qed.

Lemma sample_encode_uniform : uniform (SentenceTransformer sample_encode).
Proof.
  exists 3. intros texts vectors [= <-]. split; [by rewrite length_map|].
  by apply Forall_map, Forall_true.
Qed.

Lemma sample_generator_ready : ready sample_generator.
Proof. exists 3, [[4%Q; 1%Q; 0%Q]]. repeat split; reflexivity. Qed.

Lemma sample_insert_run :
  QdrantVectorDB.insert_embeddings json_loads_sample [embedded_c1; embedded_c2] sample_db
  = (Return [3024142382411468666; 1924773577556138069], sample_db_loaded).
Proof. vm_compute. reflexivity. Qed.

Lemma sample_keys_differ :
  QdrantVectorDB._string_id_to_int sample_db (py_str "c2")
  <> QdrantVectorDB._string_id_to_int sample_db (py_str "c1").
Proof. vm_compute. discriminate. Qed.

Lemma sample_db_loaded_serving (c : QdrantClient.t) :
  QdrantVectorDB.client sample_db_loaded = Some c -> serving c.
Proof.
  assert (Hout : match QdrantVectorDB.client sample_db_loaded with
                 | Some c => QdrantClient.outage c = []
                 | None => True
                 end) by (vm_compute; reflexivity).
  intros Hc. rewrite Hc in Hout. unfold serving. by rewrite Hout.
Qed.

(** ** The theorems at the sample objects *)

Lemma insert_get_chunk_by_id_round_trip_witness :
  exists view self2,
    QdrantVectorDB.get_chunk_by_id json_loads_sample (py_str "c1") sample_db_loaded
    = (Return (Some view), self2)
    /\ view_id view = PStr (py_str "c1")
    /\ view_content view = PStr (py_str "hello world")
    /\ view_source_file view = PStr (py_str "notes.txt")
    /\ view_source_type view = PStr (py_str "txt")
    /\ view_chunk_index view = PInt 0
    /\ view_page_number view = PNone.
Proof.
  apply (insert_get_chunk_by_id_round_trip json_loads_sample sample_db sample_db_loaded
           [] [embedded_c2] embedded_c1
           [3024142382411468666; 1924773577556138069]).
  - reflexivity.
  - exact sample_insert_run.
  - constructor; [exact sample_keys_differ|constructor].
  - exact sample_db_loaded_serving.
Defined.

Lemma generate_embeddings_one_per_chunk_witness :
  exists out g',
    EmbeddingGenerator.generate_embeddings float32_sample [chunk_c1; chunk_c2]
      sample_generator = (Return out, g')
    /\ map chunk out = [chunk_c1; chunk_c2]
    /\ length out = 2%nat
    /\ Forall (fun ec => EmbeddingGenerator.get_embedding_dimension g'
                         = Some (len (embedding ec))) out.
Proof.
  destruct (generate_embeddings_one_per_chunk float32_sample sample_generator
              [chunk_c1; chunk_c2]) as (_ & Hout & Htotal).
  - exact sample_generator_ready.
  - intros m H. injection H as <-. exact sample_encode_uniform.
  - destruct (Htotal [[11%Q; 1%Q; 0%Q]; [12%Q; 1%Q; 0%Q]]) as (out & g' & Hrun).
    + reflexivity.
    + exists out, g'. split; [exact Hrun|]. exact (Hout out g' Hrun).
Defined.

Lemma search_scores_mirror_engine_witness :
  exists c col,
    QdrantVectorDB.client sample_db_loaded = Some c
    /\ QdrantClient.collections c !! sample_name = Some col
    /\ Forall2 (fun r p => res_score r = (1 - point_score p)%Q) sample_results
         (nearest_sample (points col) [12%Q; 1%Q; 0%Q] None 10)
    /\ Forall (fun r => (0 <= res_score r <= 2)%Q) sample_results
    /\ StronglySorted (fun a b => (res_score a <= res_score b)%Q) sample_results.
Proof.
  destruct (search_scores_mirror_engine nearest_sample sample_db_loaded
              (QdrantVectorDB.search nearest_sample [12%Q; 1%Q; 0%Q] 10
                 (Some (py_str "source_type == 'pdf'")) sample_db_loaded).2
              [12%Q; 1%Q; 0%Q] 10 (Some (py_str "source_type == 'pdf'")) sample_results)
    as (c & col & Hc & Hcol & Hscores & _ & Horder).
  - vm_compute. reflexivity.
  - exists c, col. split; [exact Hc|]. split; [exact Hcol|]. split; [exact Hscores|].
    split.
    + eapply scores_in_range; [exact Hscores|apply nearest_sample_cosine].
    + apply Horder, nearest_sample_ranked_strongly.
Defined.

(** With an engine that computes in single precision, the search for the
    vector of [c1] returns [c1] with a score below 0. *)
Lemma search_score_below_zero :
  QdrantVectorDB.search nearest_rounded [11%Q; 1%Q; 0%Q] 10 None sample_db_loaded
  = (Return sample_results_rounded,
     (QdrantVectorDB.search nearest_rounded [11%Q; 1%Q; 0%Q] 10 None
        sample_db_loaded).2)
  /\ Exists (fun r => (res_score r < 0)%Q) sample_results_rounded
  /\ ~ Forall (fun r => (0 <= res_score r <= 2)%Q) sample_results_rounded.
Proof.
  split; [vm_compute; reflexivity|].
  assert (Hbelow : Exists (fun r => (res_score r < 0)%Q) sample_results_rounded).
  { apply Exists_exists.
    assert (Hhead : match sample_results_rounded with
                    | r :: _ => (res_score r < 0)%Q
                    | [] => False
                    end) by (vm_compute; reflexivity).
    destruct sample_results_rounded as [|r rs]; [done|].
    exists r. split; [left|exact Hhead]. }
  split; [exact Hbelow|].
  intros Hall. apply Exists_exists in Hbelow as (r & Hin & Hneg).
  rewrite Forall_forall in Hall. specialize (Hall r Hin). lra.
Qed.

Lemma get_chunk_by_id_never_raises_witness :
  (exists r self',
      QdrantVectorDB.get_chunk_by_id json_loads_sample (py_str "c1") sample_db_down
      = (Return r, self'))
  /\ exists self',
      QdrantVectorDB.get_chunk_by_id json_loads_sample (py_str "c1") sample_db_down
      = (Return None, self').
Proof.
  destruct (get_chunk_by_id_never_raises json_loads_sample sample_db_down (py_str "c1"))
    as (Hreturns & _ & _ & Houtage & _).
  split; [exact Hreturns|].
  eapply Houtage; reflexivity.
Defined.

Lemma batch_generate_embeddings_preserves_batches_witness :
  sub_batches 2 [chunk_c1; chunk_c2; chunk_c3] = [[chunk_c1; chunk_c2]; [chunk_c3]]
  /\ exists out g',
      EmbeddingGenerator.batch_generate_embeddings float32_sample
        [[chunk_c1; chunk_c2; chunk_c3]; []] 2 sample_generator = (Return out, g')
      /\ map (map chunk) out = [[chunk_c1; chunk_c2; chunk_c3]; []].
Proof.
  destruct (batch_generate_embeddings_preserves_batches float32_sample sample_generator
              [[chunk_c1; chunk_c2; chunk_c3]; []] 2)
    as (Hpieces & _ & Hout & Htotal).
  - lia.
  - intros m H. injection H as <-. exact sample_encode_uniform.
  - split; [by destruct (Hpieces [chunk_c1; chunk_c2; chunk_c3]) as [-> _]|].
    destruct Htotal as (out & g' & Hrun).
    + intros texts. eexists. reflexivity.
    + exists out, g'. split; [exact Hrun|]. by destruct (Hout out g' Hrun).
Defined.

Lemma malformed_metadata_is_empty_mapping_witness :
  exists view self2,
    QdrantVectorDB.get_chunk_by_id json_loads_sample (py_str "c1") sample_db_loaded
    = (Return (Some view), self2)
    /\ view_metadata view = PDict [].
Proof.
  destruct (malformed_metadata_is_empty_mapping json_loads_sample (py_str "not json")
              (mkException "JSONDecodeError" (py_str "Expecting value")))
    as (_ & _ & Hread & _).
  - vm_compute. reflexivity.
  - apply (Hread sample_db sample_db_loaded [] [embedded_c2] embedded_c1
             [3024142382411468666; 1924773577556138069]).
    + reflexivity.
    + reflexivity.
    + exact sample_insert_run.
    + constructor; [exact sample_keys_differ|constructor].
    + exact sample_db_loaded_serving.
Defined.

Lemma insert_embeddings_returns_keys_witness :
  exists self',
    QdrantVectorDB.insert_embeddings json_loads_sample [embedded_c1; embedded_c2] sample_db
    = (Return [3024142382411468666; 1924773577556138069], self').
Proof.
  destruct (insert_embeddings_returns_keys json_loads_sample sample_db
              [embedded_c1; embedded_c2]) as [_ Htotal].
  - discriminate.
  - destruct (Htotal
                {| QdrantClient.collections :=
                     {[ sample_name := {| vectors_size := 3; vectors_distance := COSINE;
                                          points := ∅ |} ]};
                   QdrantClient.outage := [];
                   QdrantClient.calls :=
                     [GetCollections; CreateCollection sample_name 3 COSINE] |}
                {| vectors_size := 3; vectors_distance := COSINE; points := ∅ |})
      as [self' Hrun].
    + reflexivity.
    + exact I.
    + vm_compute. reflexivity.
    + repeat constructor.
    + exists self'. rewrite Hrun. vm_compute. reflexivity.
Defined.

(** * The store and the generator over their lifetime *)

(** ** The life of a store *)

Section StoreLifecycle.
Variable host : Host.
Variable json_loads : str -> outcome PyVal.
Variable nearest :
  gmap Z PointStruct -> list Q -> option Filter -> Z -> list ScoredPoint.

Import QdrantVectorDB.

Lemma collection_listed (name : str) (c : QdrantClient.t) :
  name ∈ map fst (map_to_list (QdrantClient.collections c))
  <-> is_Some (QdrantClient.collections c !! name).
Proof.
  split.
  - intros Hin. apply list_elem_of_fmap in Hin as ([name' col] & -> & Hin).
    apply elem_of_map_to_list in Hin. cbn. by rewrite Hin.
  - intros [col Hcol]. apply list_elem_of_fmap. exists (name, col).
    split; [done|]. by apply elem_of_map_to_list.
Qed.

Lemma _initialize_client_connects (s : t) :
  _initialize_client host s
  = match connected host (url s) (api_key s) (db_path s) with
    | Return c =>
        (Return tt,
         {| db_path := db_path s; collection_name := collection_name s;
            embedding_dim := embedding_dim s; client := Some c;
            collection_exists := collection_exists s; url := url s;
            api_key := api_key s;
            logger := logger s ++
              [(INFO,
                match url s with
                | Some (ch :: u) =>
                    [T "Qdrant client initialized with remote URL: "; PStr (ch :: u)]
                | _ =>
                    [T "Qdrant client initialized with local database: ";
                     PStr (db_path s)]
                end)] |})
    | Raise e =>
        (Raise e,
         {| db_path := db_path s; collection_name := collection_name s;
            embedding_dim := embedding_dim s; client := client s;
            collection_exists := collection_exists s; url := url s;
            api_key := api_key s;
            logger := logger s ++
              [(ERROR, [T "Failed to initialize Qdrant client: ";
                        PStr (exc_message e)])] |})
    end.
Proof.
  unfold _initialize_client, connected, try_except, bind, get, lift, modify, log, raise.
  destruct s as [path name dim cl ex [[|ch u]|] key lg]; cbn.
  - by destruct (connect_path host path).
  - by destruct (connect_url host (ch :: u) key).
  - by destruct (connect_path host path).
Qed.

(** X1: when the client is obtained and the engine serves, the constructor
    returns an instance with the collection set up. A collection the engine
    already has under the name is reused as it is, whatever its vector size
    and its points, after the one request that lists the collections;
    otherwise a second request creates it empty, with the configured
    dimension and the cosine metric. *)
Theorem init_reuses_or_creates (db_path collection_name : str) (embedding_dim : Z)
    (url api_key : option str) (c : QdrantClient.t) :
  connected host url api_key db_path = Return c ->
  serving c ->
  (forall col,
      QdrantClient.collections c !! collection_name = Some col ->
      exists self,
        __init__ host db_path collection_name embedding_dim url api_key = Return self
        /\ client self = Some (served GetCollections (QdrantClient.collections c) c)
        /\ collection_exists self = true
        /\ QdrantVectorDB.collection_name self = collection_name
        /\ QdrantVectorDB.embedding_dim self = embedding_dim)
  /\ (QdrantClient.collections c !! collection_name = None ->
      serving (served GetCollections (QdrantClient.collections c) c) ->
      exists self,
        __init__ host db_path collection_name embedding_dim url api_key = Return self
        /\ client self =
           Some (served (CreateCollection collection_name embedding_dim COSINE)
                   (<[collection_name := fresh_collection embedding_dim]>
                      (QdrantClient.collections c))
                   (served GetCollections (QdrantClient.collections c) c))
        /\ collection_exists self = true
        /\ QdrantVectorDB.collection_name self = collection_name
        /\ QdrantVectorDB.embedding_dim self = embedding_dim).
Proof.
  intros Hconn Hs.
  assert (Hlist : QdrantClient.get_collections c
                  = (Return (map fst (map_to_list (QdrantClient.collections c))),
                     served GetCollections (QdrantClient.collections c) c)).
  { unfold QdrantClient.get_collections, QdrantClient.request, bind, gets, served.
    unfold serving in Hs. by destruct (QdrantClient.outage c) as [|[e|] rest]. }
  split.
  - intros col Hcol. unfold __init__, bind. rewrite _initialize_client_connects.
    cbn [QdrantVectorDB.url QdrantVectorDB.api_key QdrantVectorDB.db_path]. rewrite Hconn.
    unfold _setup_collection, try_except, bind, get, call, log, modify.
    cbn [client QdrantVectorDB.collection_name]. rewrite Hlist.
    rewrite bool_decide_true by (apply collection_listed; eauto).
    cbn. eexists. repeat split.
  - intros Hcol Hs'. unfold __init__, bind. rewrite _initialize_client_connects.
    cbn [QdrantVectorDB.url QdrantVectorDB.api_key QdrantVectorDB.db_path]. rewrite Hconn.
    unfold _setup_collection, try_except, bind, get, call, log, modify.
    cbn [client QdrantVectorDB.collection_name]. rewrite Hlist.
    rewrite bool_decide_false
      by (rewrite collection_listed, Hcol; by intros [? ?]).
    cbn [client set_client QdrantVectorDB.collection_name QdrantVectorDB.embedding_dim].
    unfold QdrantClient.create_collection, QdrantClient.request, bind, get, modify,
      ret, raise.
    unfold serving in Hs'.
    destruct (QdrantClient.outage (served GetCollections (QdrantClient.collections c) c))
      as [|[e|] rest] eqn:Hout; [|done|].
    all: cbn [QdrantClient.collections served]; rewrite Hcol; cbn.
    all: eexists; repeat split.
    all: unfold served, QdrantClient.set_collections, fresh_collection; cbn.
    all: cbn in Hout; by rewrite Hout.
Qed.

(** X2: the constructor raises what the failing step raised: the exception
    of the client that cannot be obtained, of the listing the engine fails,
    or of the creation the engine fails. *)
Theorem init_raises_what_fails (db_path collection_name : str) (embedding_dim : Z)
    (url api_key : option str) :
  (forall e,
      connected host url api_key db_path = Raise e ->
      __init__ host db_path collection_name embedding_dim url api_key = Raise e)
  /\ (forall c e rest,
        connected host url api_key db_path = Return c ->
        QdrantClient.outage c = Some e :: rest ->
        __init__ host db_path collection_name embedding_dim url api_key = Raise e)
  /\ (forall c e rest,
        connected host url api_key db_path = Return c ->
        QdrantClient.outage c = None :: Some e :: rest ->
        QdrantClient.collections c !! collection_name = None ->
        __init__ host db_path collection_name embedding_dim url api_key = Raise e).
Proof.
  split; [|split].
  - intros e Hconn. unfold __init__, bind. rewrite _initialize_client_connects.
    cbn [QdrantVectorDB.url QdrantVectorDB.api_key QdrantVectorDB.db_path].
    by rewrite Hconn.
  - intros c e rest Hconn Hout. unfold __init__, bind.
    rewrite _initialize_client_connects.
    cbn [QdrantVectorDB.url QdrantVectorDB.api_key QdrantVectorDB.db_path]. rewrite Hconn.
    unfold _setup_collection, try_except, bind, get, call, log, modify, raise.
    cbn [client]. unfold QdrantClient.get_collections, QdrantClient.request, bind.
    by rewrite Hout.
  - intros c e rest Hconn Hout Hcol. unfold __init__, bind.
    rewrite _initialize_client_connects.
    cbn [QdrantVectorDB.url QdrantVectorDB.api_key QdrantVectorDB.db_path]. rewrite Hconn.
    unfold _setup_collection, try_except, bind, get, call, log, modify, raise.
    cbn [client QdrantVectorDB.collection_name].
    unfold QdrantClient.get_collections, QdrantClient.request, bind, gets.
    rewrite Hout. cbn [QdrantClient.collections].
    rewrite bool_decide_false
      by (rewrite collection_listed, Hcol; by intros [? ?]).
    cbn [client set_client].
    unfold QdrantClient.create_collection, QdrantClient.request, bind.
    by cbn.
Qed.

(** *** Tearing the collection down *)

Lemma delete_collection_flag_down (self : t) :
  collection_exists self = false ->
  delete_collection self
  = (Return tt,
     {| db_path := db_path self; collection_name := collection_name self;
        embedding_dim := embedding_dim self; client := client self;
        collection_exists := false; url := url self;
        api_key := api_key self;
        logger := logger self ++
          [(INFO, [T "Collection '"; PStr (collection_name self);
                   T "' does not exist"])] |}).
Proof.
  intros Hex. unfold delete_collection, try_except, bind, get, log, modify.
  rewrite Hex. cbn. by rewrite Hex.
Qed.

(** X3: on a store that is set up, [delete_collection] asks the engine once
    to drop the collection and lowers the flag; the engine failing, it
    raises what the engine raised and the flag stays up. Once the flag is
    down, [delete_collection] returns without a request to the engine. *)
Theorem delete_collection_once (self : t) (c : QdrantClient.t) :
  client self = Some c ->
  (collection_exists self = true -> serving c ->
   exists self',
     delete_collection self = (Return tt, self')
     /\ collection_exists self' = false
     /\ client self' =
        Some (served (DeleteCollection (collection_name self))
                (delete (collection_name self) (QdrantClient.collections c)) c)
     /\ exists self'',
          delete_collection self' = (Return tt, self'')
          /\ client self'' = client self'
          /\ collection_exists self'' = false)
  /\ (forall e rest,
        collection_exists self = true -> QdrantClient.outage c = Some e :: rest ->
        exists self',
          delete_collection self = (Raise e, self')
          /\ collection_exists self' = true)
  /\ (collection_exists self = false ->
      exists self',
        delete_collection self = (Return tt, self') /\ client self' = Some c).
Proof.
  intros Hc. split; [|split].
  - intros Hex Hs.
    unfold delete_collection at 1.
    unfold try_except, bind, get, call, log, modify. rewrite Hex, Hc.
    unfold QdrantClient.delete_collection, QdrantClient.request, bind, get, modify, ret.
    unfold serving in Hs.
    destruct (QdrantClient.outage c) as [|[e|] rest] eqn:Hout; [|done|].
    all: cbn; eexists; split; [reflexivity|]; split; [reflexivity|].
    all: split; [unfold served, QdrantClient.set_collections; cbn; by rewrite Hout|].
    all: rewrite delete_collection_flag_down by reflexivity.
    all: eexists; repeat split.
  - intros e rest Hex Hout.
    unfold delete_collection, try_except, bind, get, call, log, modify, raise.
    rewrite Hex, Hc.
    unfold QdrantClient.delete_collection, QdrantClient.request, bind. rewrite Hout.
    cbn. rewrite Hex. eexists. by split.
  - intros Hex. rewrite delete_collection_flag_down by done. eexists. by split.
Qed.

(** X4: [insert_embeddings] and [search] do not consult the readiness flag:
    whatever its value, they make the same request and have the same
    outcome; only [create_index] fails fast on a lowered flag, and that
    without a request to the engine. *)
Theorem flag_guards_only_create_index (self : t) (b : bool)
    (ecs : list EmbeddedChunk) (query_vector : list Q) (limit : Z)
    (filter_expr : option str) :
  (insert_embeddings json_loads ecs (set_collection_exists b self)).1
  = (insert_embeddings json_loads ecs self).1
  /\ client (insert_embeddings json_loads ecs (set_collection_exists b self)).2
     = client (insert_embeddings json_loads ecs self).2
  /\ (search nearest query_vector limit filter_expr (set_collection_exists b self)).1
     = (search nearest query_vector limit filter_expr self).1
  /\ client (search nearest query_vector limit filter_expr (set_collection_exists b self)).2
     = client (search nearest query_vector limit filter_expr self).2
  /\ (exists self',
        create_index (set_collection_exists false self)
        = (Raise (mkException "Exception"
                    (py_str "Collection does not exist. Setup collection first.")),
           self')
        /\ client self' = client self)
  /\ (exists self',
        create_index (set_collection_exists true self) = (Return tt, self')
        /\ client self' = client self).
Proof.
  split; [|split; [|split; [|split; [|split]]]].
  - unfold insert_embeddings. destruct (is_empty ecs); [done|].
    unfold try_except, bind, get, call, log, modify, ret, raise.
    cbn [client set_collection_exists QdrantVectorDB.collection_name].
    destruct (client self) as [c|]; [|done].
    by destruct (QdrantClient.upsert _ _ c) as [[[]|e] c'].
  - unfold insert_embeddings. destruct (is_empty ecs); [done|].
    unfold try_except, bind, get, call, log, modify, ret, raise.
    cbn [client set_collection_exists QdrantVectorDB.collection_name].
    destruct (client self) as [c|]; [|done].
    by destruct (QdrantClient.upsert _ _ c) as [[[]|e] c'].
  - destruct (search_outcome nearest (set_collection_exists b self) query_vector limit
                filter_expr) as (s1 & H1 & _).
    destruct (search_outcome nearest self query_vector limit filter_expr)
      as (s2 & H2 & _).
    by rewrite H1, H2.
  - destruct (search_outcome nearest (set_collection_exists b self) query_vector limit
                filter_expr) as (s1 & H1 & C1).
    destruct (search_outcome nearest self query_vector limit filter_expr)
      as (s2 & H2 & C2).
    rewrite H1, H2. cbn [snd]. by rewrite C1, C2.
  - unfold create_index, try_except, bind, get, log, modify, raise. cbn.
    eexists. by split.
  - unfold create_index, try_except, bind, get, log, modify, raise. cbn.
    eexists. by split.
Qed.

End StoreLifecycle.

(** ** What is read is what was written *)

Section StoreReads.
Variable json_loads : str -> outcome PyVal.
Variable nearest :
  gmap Z PointStruct -> list Q -> option Filter -> Z -> list ScoredPoint.

Import QdrantVectorDB.

(** *** Search results of inserted chunks *)

Lemma format_result_stored (self : t) (ec : EmbeddedChunk) (p : ScoredPoint) :
  scored_payload p = point_payload (make_point json_loads self ec) ->
  format_result p = Return (result_of json_loads ec (point_score p)).
Proof.
  intros Hp.
  destruct (make_point_payload json_loads self ec)
    as (payload & Hpay & Hid & Hcontent & Hfile & Htype & Hpage & Hindex & Hstart & Hend
        & Hmodel & Hmd).
  unfold format_result. rewrite Hp, Hpay.
  unfold result_of, citation_of, get_unless_sentinel, dict_get.
  rewrite Hid, Hcontent, Hfile, Htype, Hpage, Hindex, Hstart, Hend, Hmodel, Hmd.
  assert (Hback : forall v : option Z,
             (if ne_minus_one (or_sentinel v) then or_sentinel v else PNone)
             = page_number_read_back v).
  { intros [n|]; cbn; [|done]. by destruct (n =? -1). }
  by rewrite !Hback.
Qed.

Lemma format_results_pointwise (pts : list ScoredPoint) (rs : list SearchResult) :
  format_results pts = Return rs ->
  Forall2 (fun r p => format_result p = Return r) rs pts.
Proof.
  revert rs; induction pts as [|p pts IH]; intros rs H; cbn in H.
  - injection H as <-. constructor.
  - destruct (format_result p) as [r|e] eqn:Hp; [|discriminate].
    destruct (format_results pts) as [rs'|]; [|discriminate].
    injection H as <-. constructor; [done|]. by apply IH.
Qed.

(** X5: when [search] returns, it returns one result per point of the
    engine's response, in order; and the result for a point that carries
    the payload [insert_embeddings] made for a chunk has the id, the
    content, the citation, the metadata and the model name of that chunk,
    with one minus the similarity as score. *)
Theorem search_restores_inserted_chunks (self self' : t) (query_vector : list Q)
    (limit : Z) (filter_expr : option str) (results : list SearchResult) :
  search nearest query_vector limit filter_expr self = (Return results, self') ->
  exists c col,
    client self = Some c
    /\ QdrantClient.collections c !! collection_name self = Some col
    /\ Forall2
         (fun r p =>
            forall self0 ec,
              scored_payload p = point_payload (make_point json_loads self0 ec) ->
              r = result_of json_loads ec (point_score p))
         results (nearest (points col) query_vector None limit).
Proof.
  intros Hsearch.
  destruct (search_outcome nearest self query_vector limit filter_expr) as (s1 & H1 & _).
  rewrite Hsearch in H1. injection H1 as Hres _.
  destruct (client self) as [c|]; [|discriminate].
  destruct (QdrantClient.query_points _ _ _ _ _ c) as [[pts|e] c'] eqn:Hq; [|discriminate].
  apply query_points_returns in Hq as (col & Hcol & ->).
  symmetry in Hres. apply format_results_pointwise in Hres.
  exists c, col. split; [done|]. split; [done|].
  eapply Forall2_impl; [exact Hres|].
  intros r p Hrp self0 ec Hp. cbn beta in Hrp.
  rewrite (format_result_stored self0 ec p Hp) in Hrp. by injection Hrp.
Qed.

Lemma format_results_fails (pts : list ScoredPoint) (p : ScoredPoint) :
  p ∈ pts -> scored_payload p = None ->
  format_results pts = Raise payload_has_no_get.
Proof.
  intros Hin Hp. induction pts as [|q pts IH]; [by apply elem_of_nil in Hin|].
  cbn. unfold format_result at 1.
  destruct (scored_payload q) as [payload|] eqn:Hq; [|done].
  apply elem_of_cons in Hin as [->|Hin]; [congruence|].
  by rewrite (IH Hin).
Qed.

(** X6: [search] hands every failure on to its caller: it raises what the
    engine raised for the request, the engine's error for a collection it
    does not know, and an [AttributeError] as soon as one point of the
    response has no payload, whatever the other points are. *)
Theorem search_raises (self : t) (c : QdrantClient.t) (query_vector : list Q)
    (limit : Z) (filter_expr : option str) :
  client self = Some c ->
  (forall e rest,
      QdrantClient.outage c = Some e :: rest ->
      exists self', search nearest query_vector limit filter_expr self = (Raise e, self'))
  /\ (serving c ->
      QdrantClient.collections c !! collection_name self = None ->
      exists self',
        search nearest query_vector limit filter_expr self
        = (Raise (QdrantClient.not_found (collection_name self)), self'))
  /\ (forall col p,
        serving c ->
        QdrantClient.collections c !! collection_name self = Some col ->
        p ∈ nearest (points col) query_vector None limit ->
        scored_payload p = None ->
        exists self',
          search nearest query_vector limit filter_expr self
          = (Raise payload_has_no_get, self')).
Proof.
  intros Hc.
  destruct (search_outcome nearest self query_vector limit filter_expr) as (s1 & H1 & _).
  rewrite Hc in H1.
  unfold QdrantClient.query_points, QdrantClient.request, bind, get, ret, raise in H1.
  split; [|split].
  - intros e rest Hout. rewrite Hout in H1. eauto.
  - intros Hs Hcol. unfold serving in Hs.
    destruct (QdrantClient.outage c) as [|[e|] rest]; [|done|];
      cbn [QdrantClient.collections] in H1; rewrite Hcol in H1; eauto.
  - intros col p Hs Hcol Hin Hp. unfold serving in Hs.
    destruct (QdrantClient.outage c) as [|[e|] rest]; [|done|];
      cbn [QdrantClient.collections] in H1; rewrite Hcol in H1;
      rewrite (format_results_fails _ p Hin Hp) in H1; eauto.
Qed.

(** *** One request per insert *)

Lemma upsert_request (name : str) (pts : list PointStruct) (c : QdrantClient.t) :
  QdrantClient.calls (QdrantClient.upsert name pts c).2
  = QdrantClient.calls c ++ [Upsert name pts]
  /\ forall e rest,
       QdrantClient.outage c = Some e :: rest ->
       (QdrantClient.upsert name pts c).1 = Raise e
       /\ QdrantClient.collections (QdrantClient.upsert name pts c).2
          = QdrantClient.collections c.
Proof.
  unfold QdrantClient.upsert, QdrantClient.request, bind, get, modify, raise.
  destruct (QdrantClient.outage c) as [|[e|] rest]; cbn [QdrantClient.collections].
  2: { split; [done|]. by intros e' rest' [= <- <-]. }
  all: split; [|done].
  all: destruct (QdrantClient.collections c !! name) as [col|]; [|done].
  all: by destruct (forallb _ pts).
Qed.

(** X7: for a non-empty list [insert_embeddings] makes exactly one request
    to the engine, an upsert of the points of all the chunks in input
    order, whether the engine serves it or not; when the engine fails the
    request, [insert_embeddings] raises what the engine raised and nothing
    is stored. *)
Theorem insert_embeddings_one_upsert (self : t) (c : QdrantClient.t)
    (ecs : list EmbeddedChunk) :
  ecs <> [] ->
  client self = Some c ->
  exists c',
    client (insert_embeddings json_loads ecs self).2 = Some c'
    /\ QdrantClient.calls c' =
       QdrantClient.calls c
         ++ [Upsert (collection_name self) (map (make_point json_loads self) ecs)]
    /\ forall e rest,
         QdrantClient.outage c = Some e :: rest ->
         (insert_embeddings json_loads ecs self).1 = Raise e
         /\ QdrantClient.collections c' = QdrantClient.collections c.
Proof.
  intros Hne Hc. unfold insert_embeddings. rewrite (is_empty_false _ Hne).
  unfold try_except, bind, get, call, log, modify, ret, raise.
  rewrite (append_loop_map (make_point json_loads self) ecs []), app_nil_l. rewrite Hc.
  destruct (upsert_request (collection_name self) (map (make_point json_loads self) ecs) c)
    as [Hcalls Hfail].
  destruct (QdrantClient.upsert _ _ c) as [[[]|e] c'] eqn:Hup; cbn in *.
  all: exists c'; split; [done|]; split; [done|].
  all: intros e' rest Hout; destruct (Hfail e' rest Hout) as [He Hcols].
  - discriminate.
  - injection He as ->. by split.
Qed.

(** *** Reading changes nothing *)

Lemma kept_refl (s : t) : kept s s.
Proof. unfold kept. repeat split. by destruct (client s). Qed.

Lemma kept_trans (s1 s2 s3 : t) : kept s1 s2 -> kept s2 s3 -> kept s1 s3.
Proof.
  unfold kept. intros (?&?&?&?&?&?&H12) (?&?&?&?&?&?&H23).
  repeat split; try congruence.
  destruct (client s1), (client s2), (client s3); try done. congruence.
Qed.

Lemma wp_log_kept level message (s0 s : t) Q E :
  kept s0 s ->
  (forall s', kept s0 s' -> Q tt s') ->
  wp (log level message) s Q E.
Proof. intros Hk H. apply wp_modify. apply H. exact Hk. Qed.

(** A request that leaves the collections alone keeps the store. *)
Lemma wp_call_kept {A} (method : string) (m : Py QdrantClient.t A) (s0 s : t)
    (Q : A -> t -> Prop) (E : Exception -> t -> Prop) :
  kept s0 s ->
  (forall c, QdrantClient.collections (m c).2 = QdrantClient.collections c) ->
  (forall a s', kept s0 s' -> Q a s') ->
  (forall e s', kept s0 s' -> E e s') ->
  wp (call method m) s Q E.
Proof.
  intros Hk Hm HQ HE. apply wp_call.
  destruct (client s) as [c|] eqn:Hc; [|by apply HE].
  specialize (Hm c).
  assert (Hk' : kept s0 (set_client (Some (m c).2) s)).
  { unfold kept in *. destruct Hk as (?&?&?&?&?&?&Hcl). repeat split; try done.
    cbn. rewrite Hc in Hcl. destruct (client s0); [congruence|done]. }
  destruct (m c) as [[a|e] c']; [by apply HQ|by apply HE].
Qed.

Lemma retrieve_keeps_collections (name : str) (ids : list Z) (wp wv : bool)
    (c : QdrantClient.t) :
  QdrantClient.collections (QdrantClient.retrieve name ids wp wv c).2
  = QdrantClient.collections c.
Proof.
  unfold QdrantClient.retrieve, QdrantClient.request, bind, get, ret, raise.
  destruct (QdrantClient.outage c) as [|[e|] rest]; cbn [QdrantClient.collections];
    try destruct (QdrantClient.collections c !! name); reflexivity.
Qed.

Lemma query_points_keeps_collections (name : str) (q : list Q) (flt : option Filter)
    (limit : Z) (c : QdrantClient.t) :
  QdrantClient.collections (QdrantClient.query_points nearest name q flt limit c).2
  = QdrantClient.collections c.
Proof.
  unfold QdrantClient.query_points, QdrantClient.request, bind, get, ret, raise.
  destruct (QdrantClient.outage c) as [|[e|] rest]; cbn [QdrantClient.collections];
    try destruct (QdrantClient.collections c !! name); reflexivity.
Qed.

Ltac kept_step s0 :=
  lazymatch goal with
  | |- wp (log _ _) _ _ _ =>
      eapply (wp_log_kept _ _ s0); [eassumption|intros ? ?]
  | _ => wp_step
  end.

Lemma get_chunk_by_id_kept (self : t) (chunk_id : str) :
  wp (get_chunk_by_id json_loads chunk_id) self
    (fun _ s' => kept self s') (fun _ _ => False).
Proof.
  pose proof (kept_refl self) as Hk.
  unfold get_chunk_by_id. wp_step.
  apply wp_mono with (Q := fun _ s' => kept self s') (E := fun _ s' => kept self s');
    [|done|].
  2: { intros e s' Hs'. do 2 kept_step self. do 2 kept_step self. by wp_step. }
  unfold get_chunk_by_id_body. do 2 wp_step.
  destruct (collection_exists self); cbn [negb].
  2: { do 2 kept_step self. by wp_step. }
  do 2 kept_step self. wp_step.
  eapply (wp_call_kept _ _ self);
    [eassumption|intros c; apply retrieve_keeps_collections| |by intros].
  intros results s1 Hs1. do 2 kept_step self.
  destruct results as [|result results]; [do 2 kept_step self; by wp_step|].
  destruct (record_payload result); [|by wp_step].
  do 2 kept_step self. by wp_step.
Qed.

Lemma search_kept (self : t) (query_vector : list Q) (limit : Z)
    (filter_expr : option str) :
  wp (search nearest query_vector limit filter_expr) self
    (fun _ s' => kept self s') (fun _ s' => kept self s').
Proof.
  pose proof (kept_refl self) as Hk.
  unfold search. wp_step.
  apply wp_mono with (Q := fun _ s' => kept self s') (E := fun _ s' => kept self s');
    [|done|].
  2: { intros e s' Hs'. do 2 kept_step self. by wp_step. }
  wp_step.
  apply wp_mono with (Q := fun _ s' => kept self s') (E := fun _ s' => kept self s').
  { destruct filter_expr as [[|ch f]|]; [by wp_step| |by wp_step]. by kept_step self. }
  2: done.
  intros [] s1 Hs1. do 3 wp_step.
  eapply (wp_call_kept _ _ self);
    [eassumption|intros c; apply query_points_keeps_collections| |by intros].
  intros pts s2 Hs2. wp_step.
  eapply wp_mono;
    [apply (wp_for_each (fun _ (_ : list SearchResult) s' => kept self s'))|
     |intros ? ? H; exact H].
  - exact Hs2.
  - intros p rest acc s3 Hs3. do 2 wp_step.
    destruct (format_result p); [by wp_step|done].
  - intros rs s3 Hs3. cbn beta in Hs3. do 2 kept_step self. by wp_step.
Qed.

(** X8: [get_chunk_by_id] and [search] are read-only: whatever their
    outcome, the configuration, the readiness flag and every collection of
    the engine, points included, are afterwards what they were. *)
Theorem reads_keep_the_store (self : t) (chunk_id : str) (query_vector : list Q)
    (limit : Z) (filter_expr : option str) :
  kept self (get_chunk_by_id json_loads chunk_id self).2
  /\ kept self (search nearest query_vector limit filter_expr self).2.
Proof.
  split.
  - pose proof (get_chunk_by_id_kept self chunk_id) as H. unfold wp in H.
    by destruct (get_chunk_by_id json_loads chunk_id self) as [[r|e] s'].
  - pose proof (search_kept self query_vector limit filter_expr) as H. unfold wp in H.
    by destruct (search nearest query_vector limit filter_expr self) as [[r|e] s'].
Qed.

(** *** What is found under a key *)

(** On a store that is set up, and the engine serving, [get_chunk_by_id]
    returns what the collection holds under the key of the id. *)
Lemma get_chunk_by_id_lookup (self : t) (chunk_id : str) (c : QdrantClient.t)
    (col : Collection) :
  collection_exists self = true ->
  client self = Some c ->
  serving c ->
  QdrantClient.collections c !! collection_name self = Some col ->
  (get_chunk_by_id json_loads chunk_id self).1
  = Return (stored_view json_loads col (_string_id_to_int self chunk_id)).
Proof.
  intros Hex Hc Hs Hcol. unfold stored_view.
  destruct (points col !! _string_id_to_int self chunk_id) as [p|] eqn:Hp.
  - destruct (point_payload p) as [payload|] eqn:Hpay.
    + destruct (get_chunk_by_id_found json_loads self chunk_id c col p payload)
        as [s' ->]; done.
    + unfold get_chunk_by_id, get_chunk_by_id_body.
      unfold try_except, bind, get, call, log, modify, ret, raise.
      rewrite Hex. cbn [negb client]. rewrite Hc.
      rewrite (retrieve_returns _ _ _ _ _ col Hs) by done.
      cbn [omap list_omap]. rewrite Hp. cbn. by rewrite Hpay.
  - destruct (get_chunk_by_id_missing json_loads self chunk_id c col) as [s' ->]; done.
Qed.

(** X9: [insert_embeddings] touches only the keys of its chunks: a chunk
    id whose key is the key of no chunk of the batch is answered by
    [get_chunk_by_id] after the insert as it was before. *)
Theorem insert_embeddings_keeps_other_keys (self self1 : t)
    (ecs : list EmbeddedChunk) (ids : list Z) (asked : str) :
  collection_exists self = true ->
  insert_embeddings json_loads ecs self = (Return ids, self1) ->
  Forall (fun ec => _string_id_to_int self (chunk_id (chunk ec))
                    <> _string_id_to_int self asked) ecs ->
  (forall c1, client self1 = Some c1 -> serving c1) ->
  (get_chunk_by_id json_loads asked self1).1
  = (get_chunk_by_id json_loads asked self).1.
Proof.
  intros Hex Hins Hkeys Hserv.
  destruct (decide (ecs = [])) as [->|Hne].
  { cbn in Hins. by injection Hins as _ <-. }
  apply insert_embeddings_returns in Hins as (c & c' & Hc & Hup & _ & ->); [|done].
  apply upsert_returns in Hup as (Hs & col & Hcol & _ & ->).
  specialize (Hserv _ eq_refl).
  rewrite (get_chunk_by_id_lookup self asked c col) by done.
  erewrite get_chunk_by_id_lookup; [|exact Hex|reflexivity|exact Hserv|];
    [|cbn; apply lookup_insert_eq].
  f_equal. unfold stored_view. cbn [points upserted].
  rewrite upsert_loop_other; [done|].
  apply List.Forall_forall. intros p Hp. apply in_map_iff in Hp as (ec & <- & Hin).
  rewrite List.Forall_forall in Hkeys. exact (Hkeys ec Hin).
Qed.

(** X10: [get_chunk_by_id] answers by key, not by id: when the id asked for
    has the key of an inserted chunk, the record of that chunk is returned,
    its own id in the [id] field, whatever the id asked for. *)
Theorem get_chunk_by_id_answers_by_key (self self1 : t)
    (pre post : list EmbeddedChunk) (ec : EmbeddedChunk) (ids : list Z)
    (asked : str) :
  collection_exists self = true ->
  insert_embeddings json_loads (pre ++ ec :: post) self = (Return ids, self1) ->
  Forall (fun ec' => _string_id_to_int self (chunk_id (chunk ec'))
                     <> _string_id_to_int self (chunk_id (chunk ec))) post ->
  (forall c1, client self1 = Some c1 -> serving c1) ->
  _string_id_to_int self asked = _string_id_to_int self (chunk_id (chunk ec)) ->
  exists view,
    (get_chunk_by_id json_loads asked self1).1 = Return (Some view)
    /\ view_id view = PStr (chunk_id (chunk ec))
    /\ view_content view = PStr (content (chunk ec)).
Proof.
  intros Hex Hins Hpost Hserv Hkey.
  apply insert_embeddings_returns in Hins as (c & c' & Hc & Hup & _ & ->);
    [|by destruct pre].
  apply upsert_returns in Hup as (Hs & col & Hcol & _ & ->).
  specialize (Hserv _ eq_refl).
  erewrite get_chunk_by_id_lookup; [|exact Hex|reflexivity|exact Hserv|];
    [|cbn; apply lookup_insert_eq].
  unfold stored_view. cbn [points upserted].
  change (_string_id_to_int _ asked) with (_string_id_to_int self asked).
  rewrite Hkey. rewrite map_app. cbn [map].
  rewrite (upsert_loop_lookup _ _ (make_point json_loads self ec)).
  2: { apply List.Forall_forall. intros p Hp. apply in_map_iff in Hp as (ec' & <- & Hin).
       rewrite List.Forall_forall in Hpost. exact (Hpost ec' Hin). }
  destruct (make_point_payload json_loads self ec)
    as (payload & Hpay & Hid & Hcontent & _).
  rewrite Hpay. eexists. split; [reflexivity|].
  unfold view_of, dict_get; cbn. by rewrite Hid, Hcontent.
Qed.

Lemma utf8_encode_surrogate (c : Z) :
  utf8_encode_char (if (55296 <=? c) && (c <=? 57343) then 63 else c)
  = utf8_encode_char c.
Proof.
  destruct ((55296 <=? c) && (c <=? 57343)) eqn:Hs; [|done].
  unfold utf8_encode_char. rewrite Hs.
  apply andb_true_iff in Hs as [H1 H2].
  destruct (c <? 128) eqn:H3; [lia|]. destruct (c <? 2048) eqn:H4; [lia|]. done.
Qed.

(** X11: the key is taken of the UTF-8 encoding with replacement, in which
    a lone surrogate is a question mark: an id and the id with its lone
    surrogates replaced by question marks have the same key. *)
Theorem surrogates_share_the_key_of_question_marks (self : t) (s : str) :
  _string_id_to_int self (replace_surrogates s) = _string_id_to_int self s.
Proof.
  unfold _string_id_to_int. do 4 f_equal.
  unfold utf8_encode_replace, replace_surrogates. f_equal.
  rewrite map_map. apply map_ext. intros c. apply utf8_encode_surrogate.
Qed.

(** X12: the payload [insert_embeddings] stores has a fixed shape: the nine
    keys of content, provenance, model and original id, and the key
    [metadata] exactly when the metadata of the chunk is truthy; the page
    number and the two offsets are stored as integers, never as the absent
    value. *)
Theorem make_point_payload_shape (self : t) (ec : EmbeddedChunk) :
  exists payload : gmap string PyVal,
    point_payload (make_point json_loads self ec) = Some payload
    /\ dom payload =
       list_to_set ["content"; "source_file"; "source_type"; "page_number";
                    "chunk_index"; "start_char"; "end_char"; "embedding_model";
                    "original_id"]
       ∪ (if truthy (metadata (chunk ec)) then {["metadata"]} else ∅)
    /\ (exists n, payload !! "page_number" = Some (PInt n))
    /\ (exists n, payload !! "start_char" = Some (PInt n))
    /\ (exists n, payload !! "end_char" = Some (PInt n)).
Proof.
  unfold make_point. cbn [to_vector_db_format f_metadata point_payload].
  eexists. split; [reflexivity|].
  assert (Hint : forall v, exists n, or_sentinel v = PInt n)
    by (intros [n|]; eexists; reflexivity).
  split.
  - assert (Hdom : forall md : option PyVal,
               dom (<["original_id" := PStr (chunk_id (chunk ec))]>
                      (match md with
                       | Some v => <["metadata" := v]>
                       | None => fun m => m
                       end
                         (list_to_map
                            [("content", PStr (content (chunk ec)));
                             ("source_file", PStr (source_file (chunk ec)));
                             ("source_type", PStr (source_type (chunk ec)));
                             ("page_number", or_sentinel (page_number (chunk ec)));
                             ("chunk_index", PInt (chunk_index (chunk ec)));
                             ("start_char", or_sentinel (start_char (chunk ec)));
                             ("end_char", or_sentinel (end_char (chunk ec)));
                             ("embedding_model", PStr (embedding_model ec))]
                          : gmap string PyVal)))
               = list_to_set ["content"; "source_file"; "source_type"; "page_number";
                              "chunk_index"; "start_char"; "end_char";
                              "embedding_model"; "original_id"]
                 ∪ (match md with Some _ => {["metadata"]} | None => ∅ end : gset string)).
    { intros md. unfold list_to_map. cbn [foldr fst snd list_to_set].
      destruct md; rewrite !dom_insert_L, dom_empty_L; set_solver. }
    cbn [to_vector_db_format f_id f_content f_source_file f_source_type f_page_number
         f_chunk_index f_start_char f_end_char f_embedding_model].
    destruct (truthy (metadata (chunk ec))).
    + destruct (metadata (chunk ec)); try destruct (loads json_loads _);
        match goal with
        | |- dom (<[_ := _]> (<["metadata" := ?v]> _)) = _ => exact (Hdom (Some v))
        end.
    + exact (Hdom None).
  - destruct (Hint (page_number (chunk ec))) as [n1 H1].
    destruct (Hint (start_char (chunk ec))) as [n2 H2].
    destruct (Hint (end_char (chunk ec))) as [n3 H3].
    cbn [f_page_number f_start_char f_end_char to_vector_db_format].
    rewrite H1, H2, H3.
    destruct (truthy (metadata (chunk ec)));
      [destruct (metadata (chunk ec)); try destruct (loads json_loads _)|];
      repeat split; eexists; reflexivity.
Qed.

(** *** Closing *)

Lemma close_relogs (self : t) :
  close self
  = (Return tt,
     match client self with
     | Some _ =>
         relogged (logger self ++ [(INFO, [T "Qdrant client connection ready"])]) self
     | None => self
     end).
Proof.
  unfold close, try_except, bind, get, log, modify, ret, relogged.
  destruct self as [path name dim [c|] ex u key lg]; reflexivity.
Qed.

Lemma operations_blind_to_log (self : t) (lg : list (Level * list PyVal))
    (chunk_id : str) (query_vector : list Q) (limit : Z) (filter_expr : option str)
    (ecs : list EmbeddedChunk) :
  (get_chunk_by_id json_loads chunk_id (relogged lg self)).1
  = (get_chunk_by_id json_loads chunk_id self).1
  /\ (search nearest query_vector limit filter_expr (relogged lg self)).1
     = (search nearest query_vector limit filter_expr self).1
  /\ (insert_embeddings json_loads ecs (relogged lg self)).1
     = (insert_embeddings json_loads ecs self).1.
Proof.
  split; [|split].
  - unfold get_chunk_by_id, get_chunk_by_id_body.
    unfold try_except, bind, get, call, log, modify, ret, raise.
    destruct self as [path name dim cl ex u key lg0]. unfold _string_id_to_int.
    cbv beta iota zeta delta [relogged collection_exists client collection_name db_path
                              embedding_dim url api_key logger set_client].
    destruct ex; cbn [negb]; [|done].
    destruct cl as [c|]; [|done].
    destruct (QdrantClient.retrieve _ _ _ _ c) as [[[|r rs]|e] c']; [done| |done].
    by destruct (record_payload r).
  - destruct (search_outcome nearest (relogged lg self) query_vector limit filter_expr)
      as (s1 & H1 & _).
    destruct (search_outcome nearest self query_vector limit filter_expr)
      as (s2 & H2 & _).
    by rewrite H1, H2.
  - unfold insert_embeddings. destruct (is_empty ecs); [done|].
    unfold try_except, bind, get, call, log, modify, ret, raise.
    destruct self as [path name dim cl ex u key lg0].
    cbv beta iota zeta delta [relogged collection_exists client collection_name db_path
                              embedding_dim url api_key logger set_client].
    destruct cl as [c|]; [|done].
    change (make_point json_loads _) with
      (make_point json_loads
         {| db_path := path; collection_name := name; embedding_dim := dim;
            client := Some c; collection_exists := ex; url := u; api_key := key;
            logger := lg0 |}).
    by destruct (QdrantClient.upsert _ _ c) as [[[]|e] c'].
Qed.

(** X22: [close] closes nothing. It returns, makes no request to the engine
    and leaves the client in place, so that [get_chunk_by_id], [search] and
    [insert_embeddings] answer after it as they did before it. *)
Theorem close_closes_nothing (self : t) (chunk_id : str) (query_vector : list Q)
    (limit : Z) (filter_expr : option str) (ecs : list EmbeddedChunk) :
  (close self).1 = Return tt
  /\ client (close self).2 = client self
  /\ collection_exists (close self).2 = collection_exists self
  /\ (get_chunk_by_id json_loads chunk_id (close self).2).1
     = (get_chunk_by_id json_loads chunk_id self).1
  /\ (search nearest query_vector limit filter_expr (close self).2).1
     = (search nearest query_vector limit filter_expr self).1
  /\ (insert_embeddings json_loads ecs (close self).2).1
     = (insert_embeddings json_loads ecs self).1.
Proof.
  rewrite close_relogs. cbn [fst snd].
  split; [done|].
  split; [by destruct self as [path name dim [c|] ex u key lg]|].
  split; [by destruct self as [path name dim [c|] ex u key lg]|].
  destruct (client self); [|done].
  apply operations_blind_to_log.
Qed.

End StoreReads.

(** ** The life of a generator *)

Section GeneratorLifecycle.
Variable float32 : Q -> Q.

Import EmbeddingGenerator.

Ltac gstep :=
  lazymatch goal with
  | |- wp (log _ _) _ _ _ => apply wp_log; intros ? ? ? ? ?
  | _ => wp_step
  end.

Ltac gcrunch :=
  repeat first
    [ gstep
    | lazymatch goal with
      | |- match ?o with Return _ => _ | Raise _ => _ end => destruct o eqn:?
      | |- wp (if ?b then _ else _) _ _ _ => destruct b eqn:?
      end ].

Ltac gfields := cbn [use_fastembed model embedding_dim model_name
                     set_model set_embedding_dim set_use_fastembed set_model_name] in *.

Lemma probe_encode_built (env : Environment) (message : string) (s : t) (m : Model) :
  use_fastembed s = false ->
  model s = Some m ->
  (new_SentenceTransformer env (local_model_path env) = Return m
   \/ new_SentenceTransformer env st_name = Return m
   \/ new_EmbeddingWrapper env st_name = Return m) ->
  wp (probe_encode message st_name) s
    (fun _ g => fallback_built env g) (fun _ g => use_fastembed g = false).
Proof.
  intros Hs Hm Hfrom. unfold probe_encode. gcrunch; [|done..].
  unfold fallback_built. gfields.
  split; [congruence|]. split; [done|]. exists m. split; [congruence|done].
Qed.

Lemma load_sentence_transformer_built (env : Environment) (s : t) :
  use_fastembed s = false ->
  wp (load_sentence_transformer env) s
    (fun _ g => fallback_built env g) (fun _ g => use_fastembed g = false).
Proof.
  intros Hs. unfold load_sentence_transformer.
  destruct (SENTENCE_TRANSFORMERS_AVAILABLE env); [|by gstep].
  do 2 gstep. gstep.
  apply wp_mono with
    (Q := fun _ g =>
            use_fastembed g = false
            /\ exists m,
                 model g = Some m
                 /\ (new_SentenceTransformer env (local_model_path env) = Return m
                     \/ new_SentenceTransformer env st_name = Return m
                     \/ new_EmbeddingWrapper env st_name = Return m))
    (E := fun _ g => use_fastembed g = false).
  - gcrunch; gfields; try congruence.
    all: split; [congruence|]; eexists; split; [reflexivity|]; auto.
  - intros [] g (Hg & m & Hm & Hfrom). by eapply probe_encode_built.
  - done.
Qed.

Lemma load_transformers_fallback_built (env : Environment) (e : Exception) (s : t) :
  use_fastembed s = false ->
  wp (load_transformers_fallback env e) s
    (fun _ g => fallback_built env g) (fun e' _ => exc_class e' = "Exception"%string).
Proof.
  intros Hs. unfold load_transformers_fallback.
  do 2 gstep. gstep. do 2 gstep. gstep. gstep.
  destruct (new_EmbeddingWrapper env st_name) as [m|e'] eqn:Hm; [|by gstep].
  do 2 gstep.
  eapply wp_mono;
    [apply (probe_encode_built env _ _ m); gfields; [congruence|done|auto]|done|].
  intros; by gstep.
Qed.

Lemma fastembed_attempt_built (env : Environment) (attempt max_retries : Z) (s : t) :
  use_fastembed s = true ->
  wp (fastembed_attempt env attempt max_retries) s
    (fun _ g =>
       use_fastembed g = true /\ model_name g = model_name s
       /\ exists m,
            new_TextEmbedding env (model_name s) attempt = Return m
            /\ model g = Some m)
    (fun _ g => use_fastembed g = true /\ model_name g = model_name s).
Proof.
  intros Hs. unfold fastembed_attempt. gcrunch; gfields.
  all: repeat split; try congruence.
  eexists. split; [reflexivity|congruence].
Qed.

Lemma fastembed_loop_built (env : Environment) (s : t) :
  use_fastembed s = true ->
  wp (fastembed_loop env [0; 1] 2) s
    (fun returned g =>
       if returned : bool then
         use_fastembed g = true /\ model_name g = model_name s
         /\ exists attempt m,
              (attempt = 0 \/ attempt = 1)
              /\ new_TextEmbedding env (model_name s) attempt = Return m
              /\ model g = Some m
       else use_fastembed g = false)
    (fun _ _ => False).
Proof.
  intros Hs. cbn [fastembed_loop].
  do 3 gstep.
  eapply wp_mono; [apply fastembed_attempt_built; exact Hs| |].
  { intros u g (Hu & Hn & m & Hm & Hg). gstep. cbn beta. gstep.
    split; [done|]. split; [done|]. exists 0, m. auto. }
  intros e g [Hu Hn]. cbn beta.
  change (0 =? 2 - 1) with false. cbn iota.
  gcrunch.
  eapply wp_mono; [apply fastembed_attempt_built; congruence| |].
  { intros u g' (Hu' & Hn' & m & Hm & Hg'). gstep. cbn beta. gstep.
    split; [done|]. split; [congruence|]. exists 1, m.
    split; [auto|]. split; [|done].
    replace (model_name s) with (model_name s') by congruence. exact Hm. }
  intros e' g' Hg'. cbn beta.
  change (1 =? 2 - 1) with true. cbn iota.
  gcrunch. reflexivity.
Qed.

Lemma _initialize_model_built (env : Environment) (s : t) :
  wp (_initialize_model env) s
    (fun _ g => built_by env (model_name s) g)
    (fun e _ => exc_class e = "Exception"%string).
Proof.
  unfold _initialize_model. do 3 gstep.
  apply wp_mono with
    (Q := fun returned g =>
            if returned : bool then
              use_fastembed g = true /\ model_name g = model_name s
              /\ exists attempt m,
                   (attempt = 0 \/ attempt = 1)
                   /\ new_TextEmbedding env (model_name s) attempt = Return m
                   /\ model g = Some m
            else use_fastembed g = false)
    (E := fun _ _ => False); [| |done].
  { destruct (use_fastembed s) eqn:Hs; [by apply fastembed_loop_built|by gstep]. }
  intros [|] g Hg; [gstep; by left|].
  do 2 gstep. rewrite Hg. cbn [negb andb].
  destruct (_ || _); [|by gstep].
  gstep. do 2 gstep. do 2 gstep.
  destruct (import_transformers env); [|gcrunch; done].
  do 2 gstep. gstep.
  eapply wp_mono; [apply load_sentence_transformer_built; congruence| |].
  { intros u g' Hg'. by right. }
  intros e g' Hg'. cbn beta.
  eapply wp_mono; [apply load_transformers_fallback_built; exact Hg'| |].
  { intros u g'' Hg''. by right. }
  intros e' g'' He'. cbn beta. gcrunch. done.
Qed.

(** X13: a generator the constructor returns has a model and, as its
    dimension, the length of the vector that model gave for the probe
    text. It runs either the fastembed model of one of the two attempts,
    under the model name asked for, or a model of the fallback (the
    sentence-transformers model from the local directory or by name, or
    the mean-pooling wrapper), and then carries the name of the fallback
    model, whatever name was asked for. *)
Theorem init_builds_a_ready_generator (env : Environment) (name : str)
    (use : option bool) (g : t) :
  __init__ env name use = Return g ->
  ready g /\ built_by env name g.
Proof.
  intros Hinit. split; [by eapply init_ready|].
  revert Hinit. unfold __init__.
  destruct (_initialize_model env _) as [[[]|e] g'] eqn:Hrun; [|discriminate].
  intros [= <-].
  exact (wp_returns _ _ _ _ _ _ (_initialize_model_built env _) Hrun).
Qed.

(** X14: whatever fails in the constructor, and whichever library raised
    it, the caller sees a plain [Exception]. *)
Theorem init_raises_plain_exception (env : Environment) (name : str)
    (use : option bool) (e : Exception) :
  __init__ env name use = Raise e -> exc_class e = "Exception"%string.
Proof.
  unfold __init__.
  destruct (_initialize_model env _) as [[[]|e'] g'] eqn:Hrun; [discriminate|].
  intros [= <-].
  exact (wp_raises _ _ _ _ _ _ (_initialize_model_built env _) Hrun).
Qed.

End GeneratorLifecycle.

(** ** The operations of a generator *)

Section GeneratorOperations.
Variable float32 : Q -> Q.

Import EmbeddingGenerator.

Ltac ostep :=
  lazymatch goal with
  | |- wp (log _ _) _ _ _ => apply wp_log; intros ? ? ? ? ?
  | _ => wp_step
  end.

(** X15: the first backend that loads and answers the probe is the one
    kept. When fastembed is wanted and its first attempt succeeds, or its
    first attempt fails and its second succeeds, the generator runs that
    model under the name asked for, with the length of the probe vector as
    dimension, whatever the fallback libraries would have done. *)
Theorem init_keeps_first_fastembed_success (env : Environment) (name : str)
    (use : option bool) (embed : list str -> outcome (list (list Q)))
    (v : list Q) (rest : list (list Q)) :
  fastembed_wanted env use = true ->
  embed [py_str "test"] = Return (v :: rest) ->
  (new_TextEmbedding env name 0 = Return (TextEmbedding embed) ->
   exists g,
     __init__ env name use = Return g
     /\ model g = Some (TextEmbedding embed) /\ use_fastembed g = true
     /\ embedding_dim g = Some (len v) /\ model_name g = name)
  /\ (forall e,
        new_TextEmbedding env name 0 = Raise e ->
        new_TextEmbedding env name 1 = Return (TextEmbedding embed) ->
        exists g,
          __init__ env name use = Return g
          /\ model g = Some (TextEmbedding embed) /\ use_fastembed g = true
          /\ embedding_dim g = Some (len v) /\ model_name g = name).
Proof.
  intros Hwanted Hprobe. unfold fastembed_wanted in Hwanted. split.
  - intros H0. unfold __init__. rewrite Hwanted.
    unfold _initialize_model, bind at 1, get at 1. cbn [use_fastembed].
    unfold bind at 1. cbn [fastembed_loop]. unfold bind at 1, try_except at 1.
    unfold bind at 1. unfold fastembed_attempt.
    unfold bind, get, log, modify, lift, ret. cbn [model_name]. rewrite H0.
    cbn [model_embed]. rewrite Hprobe. cbn. eexists. repeat split.
  - intros e H0 H1. unfold __init__. rewrite Hwanted.
    unfold _initialize_model, bind at 1, get at 1. cbn [use_fastembed].
    unfold bind at 1. cbn [fastembed_loop]. unfold fastembed_attempt.
    change (0 =? 2 - 1) with false. change (1 =? 2 - 1) with true.
    unfold bind, try_except, get, log, modify, lift, ret. cbn [model_name].
    rewrite H0. cbn -[py_str T]. rewrite H1.
    cbn [model_embed]. rewrite Hprobe. cbn -[py_str T]. eexists. repeat split.
Qed.

(** X16: with no backend to fall back on the constructor fails with the
    message that no embedding library is available: when fastembed is not
    wanted, or when both its attempts fail to load, and neither
    sentence-transformers nor transformers is installed. When one of them
    is installed but the import of transformers and torch fails, the
    constructor fails with that error in the message, and the
    sentence-transformers model is not tried. *)
Theorem init_fails_without_fallback (env : Environment) (name : str)
    (use : option bool) :
  (fastembed_wanted env use = false ->
   SENTENCE_TRANSFORMERS_AVAILABLE env = false ->
   TRANSFORMERS_AVAILABLE env = false ->
   __init__ env name use = Raise no_library)
  /\ (forall e0 e1,
        fastembed_wanted env use = true ->
        new_TextEmbedding env name 0 = Raise e0 ->
        new_TextEmbedding env name 1 = Raise e1 ->
        SENTENCE_TRANSFORMERS_AVAILABLE env = false ->
        TRANSFORMERS_AVAILABLE env = false ->
        __init__ env name use = Raise no_library)
  /\ (forall e,
        fastembed_wanted env use = false ->
        SENTENCE_TRANSFORMERS_AVAILABLE env || TRANSFORMERS_AVAILABLE env = true ->
        import_transformers env = Raise e ->
        __init__ env name use
        = Raise (mkException "Exception"
                   (py_str "Failed to initialize embedding model: " ++ exc_message e))).
Proof.
  unfold fastembed_wanted. split; [|split].
  - intros Hwanted Hst Htr. unfold __init__. rewrite Hwanted.
    unfold _initialize_model, bind, get, ret, raise. cbn [use_fastembed negb andb].
    by rewrite Hst, Htr.
  - intros e0 e1 Hwanted H0 H1 Hst Htr. unfold __init__. rewrite Hwanted.
    unfold _initialize_model, bind at 1, get at 1. cbn [use_fastembed].
    unfold bind at 1. cbn [fastembed_loop]. unfold fastembed_attempt.
    change (0 =? 2 - 1) with false. change (1 =? 2 - 1) with true.
    unfold bind, try_except, get, log, modify, lift, ret, raise. cbn [model_name].
    rewrite H0. cbn -[py_str T]. rewrite H1. cbn -[py_str T].
    by rewrite Hst, Htr.
  - intros e Hwanted Hlibs Himport. unfold __init__. rewrite Hwanted.
    unfold _initialize_model, bind, try_except, get, log, modify, lift, ret, raise.
    cbn [use_fastembed negb andb]. rewrite Hlibs, Himport. reflexivity.
Qed.

(** *** Queries and chunks *)

Lemma zip_textwise (vector : str -> list Q) (chunks : list DocumentChunk) :
  zip chunks (map vector (map content chunks))
  = map (fun c => (c, vector (content c))) chunks.
Proof. induction chunks as [|c chunks IH]; cbn; [done|]. by rewrite IH. Qed.

Lemma zip_fst_take {A B} (l : list A) (k : list B) :
  (zip l k).*1 = take (length k) l.
Proof.
  revert k. induction l as [|x l IH]; intros [|y k]; cbn; [done..|].
  by rewrite IH.
Qed.

Lemma zip_snd_take {A B} (l : list A) (k : list B) :
  (zip l k).*2 = take (length l) k.
Proof.
  revert k. induction l as [|x l IH]; intros [|y k]; cbn; [done..|].
  by rewrite IH.
Qed.

Lemma generate_embeddings_outcome (g : t) (chunks : list DocumentChunk) :
  chunks <> [] ->
  (generate_embeddings float32 chunks g).1
  = match active_call g (map content chunks) with
    | Return vectors => Return (map (embedded float32 g) (zip chunks vectors))
    | Raise e => Raise e
    end.
Proof.
  intros Hne. pose proof (generate_embeddings_spec float32 g chunks) as Hspec.
  unfold wp in Hspec.
  destruct (generate_embeddings float32 chunks g) as [[out|e] g']; cbn.
  - destruct Hspec as (_ & vectors & [->|Hcall] & ->); [done|]. by rewrite Hcall.
  - destruct Hspec as [_ Hcall]. by rewrite Hcall.
Qed.

Lemma generate_query_embedding_outcome (g : t) (query_text : str) :
  (generate_query_embedding float32 query_text g).1
  = match active_call g [query_text] with
    | Return (embedding :: _) => Return (map float32 embedding)
    | Return [] =>
        Raise (mkException "IndexError" (py_str "list index out of range"))
    | Raise e => Raise e
    end.
Proof.
  unfold generate_query_embedding, try_except, bind, get, lift, log, modify, ret, raise,
    active_call.
  destruct (use_fastembed g).
  - by destruct (model_embed (model g) [query_text]) as [[|v vs]|e].
  - by destruct (model_encode (model g) [query_text]) as [[|v vs]|e].
Qed.

(** X17: a query is embedded as a chunk with the query as content is: when
    [generate_embeddings] returns an embedded chunk for the one chunk,
    [generate_query_embedding] of its content returns the vector of that
    embedded chunk. *)
Theorem query_embedding_is_chunk_embedding (g g' : t) (c : DocumentChunk)
    (ec : EmbeddedChunk) (rest : list EmbeddedChunk) :
  generate_embeddings float32 [c] g = (Return (ec :: rest), g') ->
  (generate_query_embedding float32 (content c) g).1 = Return (embedding ec)
  /\ rest = [] /\ chunk ec = c.
Proof.
  intros Hrun.
  pose proof (generate_embeddings_outcome g [c]) as Hout.
  rewrite Hrun in Hout. cbn [fst map] in Hout. specialize (Hout ltac:(done)).
  rewrite generate_query_embedding_outcome.
  destruct (active_call g [content c]) as [[|v vs]|e]; try discriminate.
  cbn in Hout. by injection Hout as -> ->.
Qed.

(** X18: for a non-empty list [generate_embeddings] pairs chunks and
    vectors by position and checks no length: with the vectors the model
    returns, the output has as many embedded chunks as the shorter of the
    two lists, each made of the chunk and the vector at its position and
    stamped with the model name of the generator; and what the model
    raises is raised unchanged. *)
Theorem generate_embeddings_pairs_by_position (g : t) (chunks : list DocumentChunk) :
  chunks <> [] ->
  (forall vectors,
      active_call g (map content chunks) = Return vectors ->
      exists out,
        (generate_embeddings float32 chunks g).1 = Return out
        /\ length out = Nat.min (length chunks) (length vectors)
        /\ map chunk out = take (length vectors) chunks
        /\ map embedding out = map (map float32) (take (length chunks) vectors)
        /\ Forall (fun ec => embedding_model ec = model_name g) out)
  /\ (forall e,
        active_call g (map content chunks) = Raise e <->
        (generate_embeddings float32 chunks g).1 = Raise e).
Proof.
  intros Hne. rewrite (generate_embeddings_outcome g chunks Hne). split.
  - intros vectors ->. eexists. split; [reflexivity|].
    split; [by rewrite length_map, length_zip_with|].
    split; [|split].
    + rewrite map_map. cbn.
      change (map (fun x : DocumentChunk * list Q => x.1) (zip chunks vectors))
        with ((zip chunks vectors).*1).
      apply zip_fst_take.
    + rewrite map_map. cbn. rewrite <- (map_map snd (map float32)). f_equal.
      change (map snd (zip chunks vectors)) with ((zip chunks vectors).*2).
      apply zip_snd_take.
    + apply Forall_map. by apply Forall_true.
  - intros e. destruct (active_call g (map content chunks)); split; congruence.
Qed.

(** *** Batches *)

Lemma range_loop_backwards (fuel : nat) (stop step : Z) :
  0 <= stop -> step < 0 -> range_loop fuel 0 stop step = [].
Proof.
  intros Hstop Hstep. destruct fuel as [|fuel]; [done|]. cbn [range_loop].
  destruct (0 <? step) eqn:Hpos; [lia|]. by destruct (stop <? 0) eqn:Hlt; [lia|].
Qed.

Lemma enumerate_nonempty {A} (l : list A) :
  l <> [] -> exists i x rest, enumerate l = (i, x) :: rest.
Proof. destruct l as [|x l]; [done|]. intros _. unfold enumerate. cbn. eauto. Qed.

(** X19: [batch_generate_embeddings] checks no batch size. A negative size
    takes no slice: the model is not called and every input batch gives an
    empty batch. A size of zero raises the [ValueError] of [range] at the
    first batch, and returns the empty list when there is no batch. *)
Theorem batch_generate_embeddings_without_positive_size (g : t)
    (chunks_batches : list (list DocumentChunk)) (batch_size : Z) :
  (batch_size < 0 ->
   (batch_generate_embeddings float32 chunks_batches batch_size g).1
   = Return (map (fun _ => []) chunks_batches))
  /\ (batch_size = 0 -> chunks_batches <> [] ->
      (batch_generate_embeddings float32 chunks_batches batch_size g).1
      = Raise (mkException "ValueError" (py_str "range() arg 3 must not be zero")))
  /\ (batch_generate_embeddings float32 [] batch_size g).1 = Return [].
Proof.
  split; [|split]; [| |done].
  - intros Hneg.
    assert (Hwp : wp (batch_generate_embeddings float32 chunks_batches batch_size) g
                    (fun out _ => out = map (fun _ => []) chunks_batches)
                    (fun _ _ => False)).
    { unfold batch_generate_embeddings.
      eapply (wp_mono _ _ _ _ (fun _ _ => False));
        [apply (wp_for_each
                  (fun rest acc _ =>
                     acc ++ map (fun _ => []) rest.*2
                     = map (fun _ => []) chunks_batches))| |].
      - by rewrite enumerate_snd.
      - intros [i b] rest acc s0 Hacc. do 3 ostep. apply wp_lift. unfold py_range.
        destruct (batch_size =? 0) eqn:Hz; [lia|].
        rewrite range_loop_backwards by (unfold len; lia).
        ostep. cbn [for_each]. do 2 ostep.
        by rewrite <- Hacc, <- app_assoc.
      - intros out s' Hout. cbn in Hout. by rewrite app_nil_r in Hout.
      - done. }
    unfold wp in Hwp.
    by destruct (batch_generate_embeddings float32 chunks_batches batch_size g)
      as [[out|e] g']; [subst|].
  - intros -> Hne. destruct (enumerate_nonempty chunks_batches Hne) as (i & b & rest & Henum).
    unfold batch_generate_embeddings. rewrite Henum. reflexivity.
Qed.

Lemma generate_embeddings_textwise (g s : t) (vector : str -> list Q)
    (chunks : list DocumentChunk) :
  same_generator g s -> textwise g vector ->
  wp (generate_embeddings float32 chunks) s
    (fun out s' =>
       same_generator g s'
       /\ out = map (fun c => embedded float32 g (c, vector (content c))) chunks)
    (fun _ _ => False).
Proof.
  intros Hsame Htw. eapply wp_mono; [apply generate_embeddings_spec| |].
  - intros out s' (Hs' & vectors & Hcall & ->).
    split; [by eapply same_generator_trans|].
    destruct Hcall as [->|Hcall]; [done|].
    rewrite (same_generator_call _ _ _ Hsame), Htw in Hcall. injection Hcall as <-.
    rewrite zip_textwise, map_map. apply map_ext. intros c. unfold embedded. cbn.
    f_equal. by destruct Hsame as (-> & _).
  - intros e s' (_ & Hcall).
    rewrite (same_generator_call _ _ _ Hsame), Htw in Hcall. discriminate.
Qed.

(** X20: splitting into sub-batches does not show in the result when the
    model embeds each text on its own: for a positive batch size
    [batch_generate_embeddings] returns, batch for batch and chunk for
    chunk, the embedded chunks [generate_embeddings] makes of the whole
    batch, and it does not raise. *)
Theorem sub_batching_is_transparent (g : t) (vector : str -> list Q)
    (chunks_batches : list (list DocumentChunk)) (batch_size : Z) :
  0 < batch_size -> textwise g vector ->
  (batch_generate_embeddings float32 chunks_batches batch_size g).1
  = Return (map (map (fun c => embedded float32 g (c, vector (content c))))
              chunks_batches)
  /\ Forall (fun batch =>
               batch = [] \/
               (generate_embeddings float32 batch g).1
               = Return (map (fun c => embedded float32 g (c, vector (content c))) batch))
       chunks_batches.
Proof.
  intros Hbs Htw. split.
  - rewrite batch_generate_embeddings_delegates by done.
    set (f := fun c => embedded float32 g (c, vector (content c))).
    assert (Hwp : wp (batch_by_sub_batches float32 chunks_batches batch_size) g
                    (fun out _ => out = map (map f) chunks_batches) (fun _ _ => False)).
    { unfold batch_by_sub_batches.
      eapply wp_mono;
        [apply (wp_for_each
                  (fun rest acc s' =>
                     same_generator g s'
                     /\ acc ++ map (map f) rest.*2 = map (map f) chunks_batches))| |].
      - split; [apply same_generator_refl|]. by rewrite enumerate_snd.
      - intros [i b] rest acc s0 [Hs0 Hacc]. do 2 ostep.
        assert (Hs' : same_generator g s')
          by (eapply same_generator_trans; [exact Hs0|by repeat split]).
        ostep.
        eapply wp_mono;
          [apply (wp_for_each
                    (fun rest' acc' s1 =>
                       same_generator g s1
                       /\ acc' ++ map f (concat rest')
                          = map f (concat (sub_batches batch_size b))))| |].
        + by split.
        + intros sb rest' acc' s1 [Hs1 Hacc']. ostep.
          eapply wp_mono; [by apply (generate_embeddings_textwise g s1 vector)| |done].
          intros out s2 [Hs2 ->]. ostep. split; [done|].
          rewrite <- Hacc'. cbn [concat]. by rewrite map_app, <- app_assoc.
        + intros eb s1 [Hs1 Heb]. ostep. split; [done|].
          cbn [concat map] in Heb. rewrite app_nil_r in Heb. subst eb.
          rewrite <- Hacc, <- app_assoc. cbn [fmap list_fmap map app snd].
          by rewrite sub_batches_pieces, pieces_concat by lia.
        + done.
      - intros out s' [_ Hout]. cbn in Hout. by rewrite app_nil_r in Hout.
      - done. }
    unfold wp in Hwp.
    destruct (batch_by_sub_batches float32 chunks_batches batch_size g) as [[out|e] g'];
      [by subst|done].
  - apply List.Forall_forall. intros batch _.
    destruct (decide (batch = [])) as [->|Hne]; [by left|right].
    rewrite generate_embeddings_outcome by done.
    by rewrite Htw, zip_textwise, map_map.
Qed.

Lemma generate_query_embedding_keeps (g s : t) (query_text : str)
    (Q : list Q -> t -> Prop) (E : Exception -> t -> Prop) :
  same_generator g s ->
  (forall v s', same_generator g s' -> Q v s') ->
  (forall e s', same_generator g s' -> E e s') ->
  wp (generate_query_embedding float32 query_text) s Q E.
Proof.
  intros Hsame HQ HE. unfold generate_query_embedding.
  ostep. ostep. ostep. ostep.
  assert (Hcatch : forall e, wp
            (bind (log ERROR [T "Error generating query embedding: "; PStr (exc_message e)])
               (fun _ => raise e)) s E E).
  { intros e. do 2 ostep. apply HE. eapply same_generator_trans; [exact Hsame|].
    by repeat split. }
  destruct (use_fastembed s).
  - apply wp_lift. destruct (model_embed (model s) [query_text]) as [[|v vs]|e].
    + ostep. apply Hcatch.
    + ostep. by apply HQ.
    + apply Hcatch.
  - apply wp_lift. destruct (model_encode (model s) [query_text]) as [[|v vs]|e].
    + ostep. apply Hcatch.
    + ostep. by apply HQ.
    + apply Hcatch.
Qed.

(** X21: the operations of a generator change nothing of it but its log:
    after [generate_embeddings], [generate_query_embedding] and
    [batch_generate_embeddings], whether they return or raise and whatever
    the batch size, the model, its name, the backend flag and the dimension
    [get_embedding_dimension] reports are those of before, and a generator
    that was ready still is. *)
Theorem operations_keep_the_generator (g : t) (chunks : list DocumentChunk)
    (query_text : str) (chunks_batches : list (list DocumentChunk)) (batch_size : Z) :
  let after :=
    [ (generate_embeddings float32 chunks g).2;
      (generate_query_embedding float32 query_text g).2;
      (batch_generate_embeddings float32 chunks_batches batch_size g).2 ] in
  Forall (fun g' =>
            same_generator g g'
            /\ get_embedding_dimension g' = get_embedding_dimension g
            /\ (ready g -> ready g')) after.
Proof.
  assert (Hall : forall g', same_generator g g' ->
            same_generator g g'
            /\ get_embedding_dimension g' = get_embedding_dimension g
            /\ (ready g -> ready g')).
  { intros g' Hsame. split; [done|]. split; [apply Hsame|].
    by apply same_generator_ready. }
  cbn zeta. repeat apply Forall_cons_2; [| | |constructor]; apply Hall.
  - pose proof (generate_embeddings_spec float32 g chunks) as Hspec. unfold wp in Hspec.
    destruct (generate_embeddings float32 chunks g) as [[out|e] g']; apply Hspec.
  - pose proof (generate_query_embedding_keeps g g query_text
                  (fun _ s' => same_generator g s') (fun _ s' => same_generator g s')
                  (same_generator_refl g) ltac:(done) ltac:(done)) as Hspec.
    unfold wp in Hspec.
    by destruct (generate_query_embedding float32 query_text g) as [[out|e] g'].
  - assert (Hwp : wp (batch_generate_embeddings float32 chunks_batches batch_size) g
                    (fun _ s' => same_generator g s') (fun _ s' => same_generator g s')).
    { unfold batch_generate_embeddings.
      eapply (wp_mono _ _ _ _ (fun _ s' => same_generator g s'));
        [apply (wp_for_each (fun _ _ s' => same_generator g s'))| |];
        [apply same_generator_refl| |done|done].
      intros [i b] rest acc s0 Hs0. do 2 ostep.
      assert (Hs' : same_generator g s')
        by (eapply same_generator_trans; [exact Hs0|by repeat split]).
      ostep. apply wp_lift. destruct (py_range 0 (len b) batch_size) as [starts|e]; [|done].
      ostep.
      eapply (wp_mono _ _ _ _ (fun _ s1 => same_generator g s1));
        [apply (wp_for_each (fun _ _ s1 => same_generator g s1))| |];
        [done| |by intros; ostep|done].
      intros j rest' acc' s1 Hs1. ostep.
      eapply wp_mono; [apply generate_embeddings_spec| |].
      - intros out s2 [Hs2 _]. ostep. by eapply same_generator_trans.
      - intros e s2 [Hs2 _]. by eapply same_generator_trans. }
    unfold wp in Hwp.
    by destruct (batch_generate_embeddings float32 chunks_batches batch_size g)
      as [[out|e] g'].
Qed.

End GeneratorOperations.

(** ** The further properties at the sample objects *)

Lemma sample_search_run :
  QdrantVectorDB.search nearest_sample [12%Q; 1%Q; 0%Q] 10
    (Some (py_str "source_type == 'pdf'")) sample_db_loaded
  = (Return sample_results,
     (QdrantVectorDB.search nearest_sample [12%Q; 1%Q; 0%Q] 10
        (Some (py_str "source_type == 'pdf'")) sample_db_loaded).2).
Proof. vm_compute. reflexivity. Qed.

Lemma sample_keys_apart :
  Forall (fun ec => QdrantVectorDB._string_id_to_int sample_db (chunk_id (chunk ec))
                    <> QdrantVectorDB._string_id_to_int sample_db (py_str "c3"))
    [embedded_c1; embedded_c2].
Proof. repeat constructor; vm_compute; discriminate. Qed.

Lemma sample_insert_q_run :
  QdrantVectorDB.insert_embeddings json_loads_sample [embedded_q] sample_db
  = (Return [QdrantVectorDB._string_id_to_int sample_db (py_str "q?")], sample_db_q).
Proof. vm_compute. reflexivity. Qed.

Lemma sample_db_q_serving (c : QdrantClient.t) :
  QdrantVectorDB.client sample_db_q = Some c -> serving c.
Proof.
  assert (Hout : match QdrantVectorDB.client sample_db_q with
                 | Some c => QdrantClient.outage c = []
                 | None => True
                 end) by (vm_compute; reflexivity).
  intros Hc. rewrite Hc in Hout. unfold serving. by rewrite Hout.
Qed.

Lemma sample_keys_collide :
  QdrantVectorDB._string_id_to_int sample_db surrogate_id
  = QdrantVectorDB._string_id_to_int sample_db (chunk_id (chunk embedded_q)).
Proof. vm_compute. reflexivity. Qed.

Lemma sample_generator_textwise : textwise sample_generator sample_vector.
Proof. intros texts. reflexivity. Qed.

Lemma init_reuses_or_creates_witness :
  (exists self,
      QdrantVectorDB.__init__ sample_host (py_str "./qdrant_db") sample_name 3 None None
      = Return self
      /\ QdrantVectorDB.client self =
         Some (served (CreateCollection sample_name 3 COSINE)
                 (<[sample_name := fresh_collection 3]> ∅)
                 (served GetCollections ∅
                    {| QdrantClient.collections := ∅; QdrantClient.outage := [];
                       QdrantClient.calls := [] |}))
      /\ QdrantVectorDB.collection_exists self = true
      /\ QdrantVectorDB.collection_name self = sample_name
      /\ QdrantVectorDB.embedding_dim self = 3)
  /\ (exists self,
        QdrantVectorDB.__init__ sample_host_remote (py_str "./qdrant_db") sample_name 3
          (Some sample_url) None = Return self
        /\ QdrantVectorDB.client self =
           Some (served GetCollections (QdrantClient.collections sample_engine_remote)
                   sample_engine_remote)
        /\ QdrantVectorDB.collection_exists self = true
        /\ QdrantVectorDB.collection_name self = sample_name
        /\ QdrantVectorDB.embedding_dim self = 3).
Proof.
  split.
  - destruct (init_reuses_or_creates sample_host (py_str "./qdrant_db") sample_name 3
                None None
                {| QdrantClient.collections := ∅; QdrantClient.outage := [];
                   QdrantClient.calls := [] |} eq_refl I) as [_ Hcreates].
    exact (Hcreates eq_refl I).
  - destruct (init_reuses_or_creates sample_host_remote (py_str "./qdrant_db")
                sample_name 3 (Some sample_url) None sample_engine_remote eq_refl I)
      as [Hreuses _].
    apply (Hreuses {| vectors_size := 768; vectors_distance := EUCLID; points := ∅ |}).
    apply lookup_singleton_eq.
Defined.

Lemma init_raises_what_fails_witness :
  QdrantVectorDB.__init__ sample_host (py_str "./qdrant_db") sample_name 3
    (Some sample_url) None
  = Raise (mkException "ConnectionError" (py_str "connection refused")).
Proof.
  apply (init_raises_what_fails sample_host (py_str "./qdrant_db") sample_name 3
           (Some sample_url) None).
  reflexivity.
Defined.

Lemma delete_collection_once_witness :
  exists self',
    QdrantVectorDB.delete_collection sample_db = (Return tt, self')
    /\ QdrantVectorDB.collection_exists self' = false
    /\ QdrantVectorDB.client self' =
       Some (served (DeleteCollection sample_name)
               (delete sample_name (QdrantClient.collections sample_engine))
               sample_engine)
    /\ exists self'',
         QdrantVectorDB.delete_collection self' = (Return tt, self'')
         /\ QdrantVectorDB.client self'' = QdrantVectorDB.client self'
         /\ QdrantVectorDB.collection_exists self'' = false.
Proof.
  apply (delete_collection_once sample_db sample_engine eq_refl); [reflexivity|exact I].
Defined.

Lemma search_restores_inserted_chunks_witness :
  exists c col,
    QdrantVectorDB.client sample_db_loaded = Some c
    /\ QdrantClient.collections c !! sample_name = Some col
    /\ Forall2
         (fun r p =>
            forall self0 ec,
              scored_payload p
              = point_payload (QdrantVectorDB.make_point json_loads_sample self0 ec) ->
              r = result_of json_loads_sample ec (point_score p))
         sample_results (nearest_sample (points col) [12%Q; 1%Q; 0%Q] None 10).
Proof.
  exact (search_restores_inserted_chunks json_loads_sample nearest_sample
           sample_db_loaded _ [12%Q; 1%Q; 0%Q] 10 (Some (py_str "source_type == 'pdf'"))
           sample_results sample_search_run).
Defined.

Lemma search_raises_witness :
  exists self',
    QdrantVectorDB.search nearest_sample [12%Q; 1%Q; 0%Q] 10 None sample_db_down
    = (Raise (mkException "ConnectionError" (py_str "connection reset")), self').
Proof.
  destruct (search_raises nearest_sample sample_db_down sample_engine_down
              [12%Q; 1%Q; 0%Q] 10 None eq_refl) as (Houtage & _ & _).
  exact (Houtage _ [] eq_refl).
Defined.

Lemma insert_embeddings_one_upsert_witness :
  exists c',
    QdrantVectorDB.client
      (QdrantVectorDB.insert_embeddings json_loads_sample [embedded_c1; embedded_c2]
         sample_db).2 = Some c'
    /\ QdrantClient.calls c' =
       [GetCollections; CreateCollection sample_name 3 COSINE;
        Upsert sample_name
          (map (QdrantVectorDB.make_point json_loads_sample sample_db)
             [embedded_c1; embedded_c2])].
Proof.
  destruct (insert_embeddings_one_upsert json_loads_sample sample_db sample_engine
              [embedded_c1; embedded_c2]) as (c' & Hc' & Hcalls & _).
  - discriminate.
  - reflexivity.
  - exists c'. split; [exact Hc'|exact Hcalls].
Defined.

Lemma insert_embeddings_keeps_other_keys_witness :
  (QdrantVectorDB.get_chunk_by_id json_loads_sample (py_str "c3") sample_db_loaded).1
  = (QdrantVectorDB.get_chunk_by_id json_loads_sample (py_str "c3") sample_db).1.
Proof.
  exact (insert_embeddings_keeps_other_keys json_loads_sample sample_db sample_db_loaded
           [embedded_c1; embedded_c2] [3024142382411468666; 1924773577556138069]
           (py_str "c3") eq_refl sample_insert_run sample_keys_apart
           sample_db_loaded_serving).
Defined.

Lemma get_chunk_by_id_answers_by_key_witness :
  exists view,
    (QdrantVectorDB.get_chunk_by_id json_loads_sample surrogate_id sample_db_q).1
    = Return (Some view)
    /\ view_id view = PStr (py_str "q?")
    /\ view_content view = PStr (py_str "what next").
Proof.
  apply (get_chunk_by_id_answers_by_key json_loads_sample sample_db sample_db_q
           [] [] embedded_q
           [QdrantVectorDB._string_id_to_int sample_db (py_str "q?")] surrogate_id).
  - reflexivity.
  - exact sample_insert_q_run.
  - constructor.
  - exact sample_db_q_serving.
  - exact sample_keys_collide.
Defined.

Lemma init_builds_a_ready_generator_witness :
  exists g,
    EmbeddingGenerator.__init__ sample_env default_model_name None = Return g
    /\ ready g /\ built_by sample_env default_model_name g
    /\ EmbeddingGenerator.model_name g = EmbeddingGenerator.st_name.
Proof.
  eexists. split; [reflexivity|].
  split; [|split; [|reflexivity]].
  - apply (init_builds_a_ready_generator sample_env default_model_name None).
    reflexivity.
  - apply (init_builds_a_ready_generator sample_env default_model_name None).
    reflexivity.
Defined.

Lemma init_raises_plain_exception_witness :
  exists e,
    EmbeddingGenerator.__init__ sample_env_offline default_model_name None = Raise e
    /\ exc_class e = "Exception"%string.
Proof.
  eexists. split; [reflexivity|].
  apply (init_raises_plain_exception sample_env_offline default_model_name None).
  reflexivity.
Defined.

Lemma init_keeps_first_fastembed_success_witness :
  exists g,
    EmbeddingGenerator.__init__ sample_env_fastembed default_model_name None = Return g
    /\ EmbeddingGenerator.model g = Some (TextEmbedding sample_encode)
    /\ EmbeddingGenerator.use_fastembed g = true
    /\ EmbeddingGenerator.embedding_dim g = Some 3
    /\ EmbeddingGenerator.model_name g = default_model_name.
Proof.
  destruct (init_keeps_first_fastembed_success sample_env_fastembed default_model_name
              None sample_encode [4%Q; 1%Q; 0%Q] [] eq_refl eq_refl) as [_ Hretry].
  exact (Hretry _ eq_refl eq_refl).
Defined.

Lemma init_fails_without_fallback_witness :
  EmbeddingGenerator.__init__ sample_env_bare default_model_name None = Raise no_library.
Proof.
  destruct (init_fails_without_fallback sample_env_bare default_model_name None)
    as (Hbare & _ & _).
  exact (Hbare eq_refl eq_refl eq_refl).
Defined.

Lemma query_embedding_is_chunk_embedding_witness :
  (EmbeddingGenerator.generate_query_embedding float32_sample (py_str "hello world")
     sample_generator).1 = Return [11%Q; 1%Q; 0%Q]
  /\ @nil EmbeddedChunk = [] /\ chunk embedded_c1 = chunk_c1.
Proof.
  exact (query_embedding_is_chunk_embedding float32_sample sample_generator
           (EmbeddingGenerator.generate_embeddings float32_sample [chunk_c1]
              sample_generator).2
           chunk_c1 embedded_c1 [] eq_refl).
Defined.

Lemma generate_embeddings_pairs_by_position_witness :
  exists out,
    (EmbeddingGenerator.generate_embeddings float32_sample [chunk_c1; chunk_c2]
       sample_generator).1 = Return out
    /\ length out = 2%nat
    /\ map chunk out = [chunk_c1; chunk_c2]
    /\ map embedding out = [[11%Q; 1%Q; 0%Q]; [12%Q; 1%Q; 0%Q]]
    /\ Forall (fun ec => embedding_model ec = EmbeddingGenerator.st_name) out.
Proof.
  destruct (generate_embeddings_pairs_by_position float32_sample sample_generator
              [chunk_c1; chunk_c2]) as [Hreturns _].
  - discriminate.
  - exact (Hreturns [[11%Q; 1%Q; 0%Q]; [12%Q; 1%Q; 0%Q]] eq_refl).
Defined.

Lemma batch_generate_embeddings_without_positive_size_witness :
  (EmbeddingGenerator.batch_generate_embeddings float32_sample
     [[chunk_c1; chunk_c2]; [chunk_c3]] (-1) sample_generator).1 = Return [[]; []]
  /\ (EmbeddingGenerator.batch_generate_embeddings float32_sample
        [[chunk_c1; chunk_c2]; [chunk_c3]] 0 sample_generator).1
     = Raise (mkException "ValueError" (py_str "range() arg 3 must not be zero")).
Proof.
  split.
  - destruct (batch_generate_embeddings_without_positive_size float32_sample
                sample_generator [[chunk_c1; chunk_c2]; [chunk_c3]] (-1))
      as (Hnegative & _ & _).
    apply Hnegative. lia.
  - destruct (batch_generate_embeddings_without_positive_size float32_sample
                sample_generator [[chunk_c1; chunk_c2]; [chunk_c3]] 0)
      as (_ & Hzero & _).
    apply Hzero; [reflexivity|discriminate].
Defined.

Lemma sub_batching_is_transparent_witness :
  (EmbeddingGenerator.batch_generate_embeddings float32_sample
     [[chunk_c1; chunk_c2; chunk_c3]; []] 2 sample_generator).1
  = Return [[embedded float32_sample sample_generator (chunk_c1, sample_vector (py_str "hello world"));
             embedded float32_sample sample_generator (chunk_c2, sample_vector (py_str "second chunk"));
             embedded float32_sample sample_generator (chunk_c3, sample_vector (py_str "third"))];
            []].
Proof.
  destruct (sub_batching_is_transparent float32_sample sample_generator sample_vector
              [[chunk_c1; chunk_c2; chunk_c3]; []] 2) as [Hout _].
  - lia.
  - exact sample_generator_textwise.
  - exact Hout.
Defined.
